(** * Wi-Fi / NR-U coexistence simulator: channel access and CW control

    A shallow embedding of [coexistanceSimpy/Coexistence.py]: the node
    methods that decide the outcome of a transmission attempt
    ([check_collision], [sent_failed], [sent_completed]), the backoff draw
    ([generate_new_back_off_time]), the sync-slot alignment of gap mode
    ([wait_back_off_gap]), the dynamic contention-window controller
    ([DynamicCWController]) and, of the run-end metrics of
    [run_simulation], the collision probabilities and the channel times.

    Conventions.
    - Python [int] is [Z]; the [float] that one [/] of two ints gives is
      the exact rational in [Q]. Rounding is not modelled, and what the code
      computes by a chain of float operations (the throughputs and the
      fairness figures at the end of a run) is not embedded.
    - Python objects that are shared by reference (the channel, the two
      config objects, every station and gNB) live once in the [World]
      record; a method of a node takes the node's name and runs in the
      state-and-exception monad [M].
    - An exception is a [Raise]; a [None] attribute that the code
      dereferences raises [AttributeError], a missing dict key [KeyError].
      [OutOfFuel] is not a Python exception: a [while] loop is given a
      number of iterations, and [OutOfFuel] says that the loop was still
      running when they were used up.
    - The SimPy kernel (processes, resources, interrupts) is not embedded:
      the statements a method executes between two [yield]s are embedded as
      one monadic action, and a run is the set-up of [run_simulation]
      followed by a sequence of such actions, in the order the kernel picks
      (the [schedule] of [run_simulation_run]).
    - The module [random] is a tape of raw values, fixed by the seed, of
      which every draw takes the next one; the statements hold for every
      tape.
    - The module-level flag [gap] is an argument of what reads it. *)

From Stdlib Require Import ZArith QArith Lia Lqa.
From stdpp Require Import base option gmap strings list pretty.

Local Close Scope Q_scope.
Local Open Scope Z_scope.

(** ** Exceptions and the state monad *)

Inductive exn :=
| AttributeError
| KeyError
| ValueError
| ZeroDivisionError
| AssertionError
| OutOfFuel.

Inductive result (S A : Type) :=
| Ok (a : A) (s : S)
| Raise (e : exn).
Arguments Ok {S A} a s.
Arguments Raise {S A} e.

Definition M (S A : Type) : Type := S -> result S A.

#[global] Instance M_ret S : MRet (M S) := fun A a s => Ok a s.
#[global] Instance M_bind S : MBind (M S) := fun A B f m s =>
  match m s with
  | Ok a s' => f a s'
  | Raise e => Raise e
  end.

Definition raise {S A} (e : exn) : M S A := fun _ => Raise e.
Definition get {S} : M S S := fun s => Ok s s.
Definition put {S} (s : S) : M S unit := fun _ => Ok tt s.
Definition modify {S} (f : S -> S) : M S unit := fun s => Ok tt (f s).

(** [o] dereferenced: [e] is raised when it is [None]. *)
Definition deref {S A} (e : exn) (o : option A) : M S A :=
  match o with
  | Some a => mret a
  | None => raise e
  end.

Definition is_ok {S A} (r : result S A) : Prop :=
  match r with
  | Ok _ _ => True
  | Raise _ => False
  end.

(** ** Data classes *)

(** The constants of the [Times] module ([from .Times import *]), which the
    simulator treats as opaque integers of microseconds. *)
Module Times.
Record t := mk {
  t_slot : Z;
  t_difs : Z;
  ack_timeout : Z;
  ack_frame_time : Z;
}.
End Times.

Module Config.
Record t := mk {
  data_size : Z;
  cw_min : Z;
  cw_max : Z;
  r_limit : Z;
  mcs : Z;
}.
Definition default : t :=
  {| data_size := 1472; cw_min := 15; cw_max := 63; r_limit := 7; mcs := 7 |}.
Definition set_cw_min (v : Z) (c : t) : t :=
  {| data_size := data_size c; cw_min := v; cw_max := cw_max c;
     r_limit := r_limit c; mcs := mcs c |}.
Definition set_cw_max (v : Z) (c : t) : t :=
  {| data_size := data_size c; cw_min := cw_min c; cw_max := v;
     r_limit := r_limit c; mcs := mcs c |}.
End Config.

Module Config_NR.
Record t := mk {
  deter_period : Z;
  observation_slot_duration : Z;
  synchronization_slot_duration : Z;
  max_sync_slot_desync : Z;
  min_sync_slot_desync : Z;
  M : Z;
  cw_min : Z;
  cw_max : Z;
  mcot : Z;
}.
Definition default : t :=
  {| deter_period := 16; observation_slot_duration := 9;
     synchronization_slot_duration := 1000; max_sync_slot_desync := 1000;
     min_sync_slot_desync := 0; M := 3; cw_min := 15; cw_max := 63;
     mcot := 6 |}.
Definition set_cw_min (v : Z) (c : t) : t :=
  {| deter_period := deter_period c;
     observation_slot_duration := observation_slot_duration c;
     synchronization_slot_duration := synchronization_slot_duration c;
     max_sync_slot_desync := max_sync_slot_desync c;
     min_sync_slot_desync := min_sync_slot_desync c;
     M := M c; cw_min := v; cw_max := cw_max c; mcot := mcot c |}.
Definition set_cw_max (v : Z) (c : t) : t :=
  {| deter_period := deter_period c;
     observation_slot_duration := observation_slot_duration c;
     synchronization_slot_duration := synchronization_slot_duration c;
     max_sync_slot_desync := max_sync_slot_desync c;
     min_sync_slot_desync := min_sync_slot_desync c;
     M := M c; cw_min := cw_min c; cw_max := v; mcot := mcot c |}.
End Config_NR.

Module Packet.
Record t := mk {
  id : Z;
  gen_time : Z;
  payload_size : Z;
}.
End Packet.

(** The output colour [col] and the unused [packet_gen_time] are left out. *)
Module Frame.
Record t := mk {
  frame_time : Z;
  station_name : string;
  data_size : Z;
  t_start : Z;
  number_of_retransmissions : Z;
  t_end : option Z;
  t_to_send : option Z;
  packet_size : Z;
}.
Definition set_number_of_retransmissions (v : Z) (f : t) : t :=
  {| frame_time := frame_time f; station_name := station_name f;
     data_size := data_size f; t_start := t_start f;
     number_of_retransmissions := v; t_end := t_end f;
     t_to_send := t_to_send f; packet_size := packet_size f |}.
Definition set_t_end (v : option Z) (f : t) : t :=
  {| frame_time := frame_time f; station_name := station_name f;
     data_size := data_size f; t_start := t_start f;
     number_of_retransmissions := number_of_retransmissions f; t_end := v;
     t_to_send := t_to_send f; packet_size := packet_size f |}.
Definition set_t_to_send (v : option Z) (f : t) : t :=
  {| frame_time := frame_time f; station_name := station_name f;
     data_size := data_size f; t_start := t_start f;
     number_of_retransmissions := number_of_retransmissions f;
     t_end := t_end f; t_to_send := v; packet_size := packet_size f |}.
End Frame.

Module Transmission_NR.
Record t := mk {
  transmission_time : Z;
  enb_name : string;
  t_start : Z;
  airtime : Z;
  rs_time : Z;
  number_of_retransmissions : Z;
  t_end : option Z;
  t_to_send : option Z;
  collided : bool;
  packet_size : Z;
}.
Definition set_number_of_retransmissions (v : Z) (f : t) : t :=
  {| transmission_time := transmission_time f; enb_name := enb_name f;
     t_start := t_start f; airtime := airtime f; rs_time := rs_time f;
     number_of_retransmissions := v; t_end := t_end f;
     t_to_send := t_to_send f; collided := collided f;
     packet_size := packet_size f |}.
Definition set_t_end (v : option Z) (f : t) : t :=
  {| transmission_time := transmission_time f; enb_name := enb_name f;
     t_start := t_start f; airtime := airtime f; rs_time := rs_time f;
     number_of_retransmissions := number_of_retransmissions f; t_end := v;
     t_to_send := t_to_send f; collided := collided f;
     packet_size := packet_size f |}.
Definition set_t_to_send (v : option Z) (f : t) : t :=
  {| transmission_time := transmission_time f; enb_name := enb_name f;
     t_start := t_start f; airtime := airtime f; rs_time := rs_time f;
     number_of_retransmissions := number_of_retransmissions f;
     t_end := t_end f; t_to_send := v; collided := collided f;
     packet_size := packet_size f |}.
End Transmission_NR.

(** The attributes of a [Station] that its methods read or write. The
    handles ([env], [channel], [process], [times]) and [config] are held by
    the [World]; [col], [first_interrupt], [start], [transmit_power_dbm] and
    [next_packet_id] play no part in the embedded methods. *)
Module Station.
Record t := mk {
  name : string;
  frame_to_send : option Frame.t;
  succeeded_transmissions : Z;
  failed_transmissions : Z;
  failed_transmissions_in_row : Z;
  cw_min : Z;
  cw_max : Z;
  back_off_time : Z;
  total_latency : Z;
  packet_count : Z;
  packet_queue : list Packet.t;
  is_transmitting : bool;
}.
Definition set_frame_to_send (v : option Frame.t) (s : t) : t :=
  {| name := name s; frame_to_send := v;
     succeeded_transmissions := succeeded_transmissions s;
     failed_transmissions := failed_transmissions s;
     failed_transmissions_in_row := failed_transmissions_in_row s;
     cw_min := cw_min s; cw_max := cw_max s;
     back_off_time := back_off_time s; total_latency := total_latency s;
     packet_count := packet_count s; packet_queue := packet_queue s;
     is_transmitting := is_transmitting s |}.
Definition set_succeeded_transmissions (v : Z) (s : t) : t :=
  {| name := name s; frame_to_send := frame_to_send s;
     succeeded_transmissions := v;
     failed_transmissions := failed_transmissions s;
     failed_transmissions_in_row := failed_transmissions_in_row s;
     cw_min := cw_min s; cw_max := cw_max s;
     back_off_time := back_off_time s; total_latency := total_latency s;
     packet_count := packet_count s; packet_queue := packet_queue s;
     is_transmitting := is_transmitting s |}.
Definition set_failed_transmissions (v : Z) (s : t) : t :=
  {| name := name s; frame_to_send := frame_to_send s;
     succeeded_transmissions := succeeded_transmissions s;
     failed_transmissions := v;
     failed_transmissions_in_row := failed_transmissions_in_row s;
     cw_min := cw_min s; cw_max := cw_max s;
     back_off_time := back_off_time s; total_latency := total_latency s;
     packet_count := packet_count s; packet_queue := packet_queue s;
     is_transmitting := is_transmitting s |}.
Definition set_failed_transmissions_in_row (v : Z) (s : t) : t :=
  {| name := name s; frame_to_send := frame_to_send s;
     succeeded_transmissions := succeeded_transmissions s;
     failed_transmissions := failed_transmissions s;
     failed_transmissions_in_row := v;
     cw_min := cw_min s; cw_max := cw_max s;
     back_off_time := back_off_time s; total_latency := total_latency s;
     packet_count := packet_count s; packet_queue := packet_queue s;
     is_transmitting := is_transmitting s |}.
Definition set_cw (vmin vmax : Z) (s : t) : t :=
  {| name := name s; frame_to_send := frame_to_send s;
     succeeded_transmissions := succeeded_transmissions s;
     failed_transmissions := failed_transmissions s;
     failed_transmissions_in_row := failed_transmissions_in_row s;
     cw_min := vmin; cw_max := vmax;
     back_off_time := back_off_time s; total_latency := total_latency s;
     packet_count := packet_count s; packet_queue := packet_queue s;
     is_transmitting := is_transmitting s |}.
Definition set_back_off_time (v : Z) (s : t) : t :=
  {| name := name s; frame_to_send := frame_to_send s;
     succeeded_transmissions := succeeded_transmissions s;
     failed_transmissions := failed_transmissions s;
     failed_transmissions_in_row := failed_transmissions_in_row s;
     cw_min := cw_min s; cw_max := cw_max s;
     back_off_time := v; total_latency := total_latency s;
     packet_count := packet_count s; packet_queue := packet_queue s;
     is_transmitting := is_transmitting s |}.
Definition set_latency (lat cnt : Z) (q : list Packet.t) (s : t) : t :=
  {| name := name s; frame_to_send := frame_to_send s;
     succeeded_transmissions := succeeded_transmissions s;
     failed_transmissions := failed_transmissions s;
     failed_transmissions_in_row := failed_transmissions_in_row s;
     cw_min := cw_min s; cw_max := cw_max s;
     back_off_time := back_off_time s; total_latency := lat;
     packet_count := cnt; packet_queue := q;
     is_transmitting := is_transmitting s |}.
Definition set_is_transmitting (v : bool) (s : t) : t :=
  {| name := name s; frame_to_send := frame_to_send s;
     succeeded_transmissions := succeeded_transmissions s;
     failed_transmissions := failed_transmissions s;
     failed_transmissions_in_row := failed_transmissions_in_row s;
     cw_min := cw_min s; cw_max := cw_max s;
     back_off_time := back_off_time s; total_latency := total_latency s;
     packet_count := packet_count s; packet_queue := packet_queue s;
     is_transmitting := v |}.
End Station.

(** The attributes of a [Gnb] that its methods read or write; [config_nr]
    and the handles are held by the [World]. *)
Module Gnb.
Record t := mk {
  name : string;
  transmission_to_send : option Transmission_NR.t;
  succeeded_transmissions : Z;
  failed_transmissions : Z;
  failed_transmissions_in_row : Z;
  cw_min : Z;
  cw_max : Z;
  next_sync_slot_boundry : Z;
  back_off_time : Z;
  time_to_next_sync_slot : Z;
  is_transmitting : bool;
}.
Definition set_transmission_to_send (v : option Transmission_NR.t) (s : t) : t :=
  {| name := name s; transmission_to_send := v;
     succeeded_transmissions := succeeded_transmissions s;
     failed_transmissions := failed_transmissions s;
     failed_transmissions_in_row := failed_transmissions_in_row s;
     cw_min := cw_min s; cw_max := cw_max s;
     next_sync_slot_boundry := next_sync_slot_boundry s;
     back_off_time := back_off_time s;
     time_to_next_sync_slot := time_to_next_sync_slot s;
     is_transmitting := is_transmitting s |}.
Definition set_succeeded_transmissions (v : Z) (s : t) : t :=
  {| name := name s; transmission_to_send := transmission_to_send s;
     succeeded_transmissions := v;
     failed_transmissions := failed_transmissions s;
     failed_transmissions_in_row := failed_transmissions_in_row s;
     cw_min := cw_min s; cw_max := cw_max s;
     next_sync_slot_boundry := next_sync_slot_boundry s;
     back_off_time := back_off_time s;
     time_to_next_sync_slot := time_to_next_sync_slot s;
     is_transmitting := is_transmitting s |}.
Definition set_failed_transmissions (v : Z) (s : t) : t :=
  {| name := name s; transmission_to_send := transmission_to_send s;
     succeeded_transmissions := succeeded_transmissions s;
     failed_transmissions := v;
     failed_transmissions_in_row := failed_transmissions_in_row s;
     cw_min := cw_min s; cw_max := cw_max s;
     next_sync_slot_boundry := next_sync_slot_boundry s;
     back_off_time := back_off_time s;
     time_to_next_sync_slot := time_to_next_sync_slot s;
     is_transmitting := is_transmitting s |}.
Definition set_failed_transmissions_in_row (v : Z) (s : t) : t :=
  {| name := name s; transmission_to_send := transmission_to_send s;
     succeeded_transmissions := succeeded_transmissions s;
     failed_transmissions := failed_transmissions s;
     failed_transmissions_in_row := v;
     cw_min := cw_min s; cw_max := cw_max s;
     next_sync_slot_boundry := next_sync_slot_boundry s;
     back_off_time := back_off_time s;
     time_to_next_sync_slot := time_to_next_sync_slot s;
     is_transmitting := is_transmitting s |}.
Definition set_cw (vmin vmax : Z) (s : t) : t :=
  {| name := name s; transmission_to_send := transmission_to_send s;
     succeeded_transmissions := succeeded_transmissions s;
     failed_transmissions := failed_transmissions s;
     failed_transmissions_in_row := failed_transmissions_in_row s;
     cw_min := vmin; cw_max := vmax;
     next_sync_slot_boundry := next_sync_slot_boundry s;
     back_off_time := back_off_time s;
     time_to_next_sync_slot := time_to_next_sync_slot s;
     is_transmitting := is_transmitting s |}.
Definition set_next_sync_slot_boundry (v : Z) (s : t) : t :=
  {| name := name s; transmission_to_send := transmission_to_send s;
     succeeded_transmissions := succeeded_transmissions s;
     failed_transmissions := failed_transmissions s;
     failed_transmissions_in_row := failed_transmissions_in_row s;
     cw_min := cw_min s; cw_max := cw_max s;
     next_sync_slot_boundry := v;
     back_off_time := back_off_time s;
     time_to_next_sync_slot := time_to_next_sync_slot s;
     is_transmitting := is_transmitting s |}.
Definition set_back_off_time (v : Z) (s : t) : t :=
  {| name := name s; transmission_to_send := transmission_to_send s;
     succeeded_transmissions := succeeded_transmissions s;
     failed_transmissions := failed_transmissions s;
     failed_transmissions_in_row := failed_transmissions_in_row s;
     cw_min := cw_min s; cw_max := cw_max s;
     next_sync_slot_boundry := next_sync_slot_boundry s;
     back_off_time := v;
     time_to_next_sync_slot := time_to_next_sync_slot s;
     is_transmitting := is_transmitting s |}.
Definition set_time_to_next_sync_slot (v : Z) (s : t) : t :=
  {| name := name s; transmission_to_send := transmission_to_send s;
     succeeded_transmissions := succeeded_transmissions s;
     failed_transmissions := failed_transmissions s;
     failed_transmissions_in_row := failed_transmissions_in_row s;
     cw_min := cw_min s; cw_max := cw_max s;
     next_sync_slot_boundry := next_sync_slot_boundry s;
     back_off_time := back_off_time s;
     time_to_next_sync_slot := v;
     is_transmitting := is_transmitting s |}.
Definition set_is_transmitting (v : bool) (s : t) : t :=
  {| name := name s; transmission_to_send := transmission_to_send s;
     succeeded_transmissions := succeeded_transmissions s;
     failed_transmissions := failed_transmissions s;
     failed_transmissions_in_row := failed_transmissions_in_row s;
     cw_min := cw_min s; cw_max := cw_max s;
     next_sync_slot_boundry := next_sync_slot_boundry s;
     back_off_time := back_off_time s;
     time_to_next_sync_slot := time_to_next_sync_slot s;
     is_transmitting := v |}.
End Gnb.

(** The shared medium. The SimPy resources [tx_queue] and [tx_lock] belong
    to the kernel; the lists hold nodes by name; the dicts [stations] and
    [gnbs] are the node stores of the [World]. *)
Module Channel.
Record t := mk {
  n_of_stations : Z;
  n_of_eNB : Z;
  backoffs : gmap Z (gmap Z Z);
  airtime_data : gmap string Z;
  airtime_control : gmap string Z;
  airtime_data_NR : gmap string Z;
  airtime_control_NR : gmap string Z;
  tx_list : list string;
  back_off_list : list string;
  tx_list_NR : list string;
  back_off_list_NR : list string;
  failed_transmissions : Z;
  succeeded_transmissions : Z;
  bytes_sent : Z;
  failed_transmissions_NR : Z;
  succeeded_transmissions_NR : Z;
}.
Definition set_backoffs (v : gmap Z (gmap Z Z)) (c : t) : t :=
  mk (n_of_stations c) (n_of_eNB c) v (airtime_data c) (airtime_control c)
     (airtime_data_NR c) (airtime_control_NR c) (tx_list c)
     (back_off_list c) (tx_list_NR c) (back_off_list_NR c)
     (failed_transmissions c) (succeeded_transmissions c) (bytes_sent c)
     (failed_transmissions_NR c) (succeeded_transmissions_NR c).
Definition set_airtime_data (v : gmap string Z) (c : t) : t :=
  mk (n_of_stations c) (n_of_eNB c) (backoffs c) v (airtime_control c)
     (airtime_data_NR c) (airtime_control_NR c) (tx_list c)
     (back_off_list c) (tx_list_NR c) (back_off_list_NR c)
     (failed_transmissions c) (succeeded_transmissions c) (bytes_sent c)
     (failed_transmissions_NR c) (succeeded_transmissions_NR c).
Definition set_airtime_control (v : gmap string Z) (c : t) : t :=
  mk (n_of_stations c) (n_of_eNB c) (backoffs c) (airtime_data c) v
     (airtime_data_NR c) (airtime_control_NR c) (tx_list c)
     (back_off_list c) (tx_list_NR c) (back_off_list_NR c)
     (failed_transmissions c) (succeeded_transmissions c) (bytes_sent c)
     (failed_transmissions_NR c) (succeeded_transmissions_NR c).
Definition set_airtime_data_NR (v : gmap string Z) (c : t) : t :=
  mk (n_of_stations c) (n_of_eNB c) (backoffs c) (airtime_data c)
     (airtime_control c) v (airtime_control_NR c) (tx_list c)
     (back_off_list c) (tx_list_NR c) (back_off_list_NR c)
     (failed_transmissions c) (succeeded_transmissions c) (bytes_sent c)
     (failed_transmissions_NR c) (succeeded_transmissions_NR c).
Definition set_airtime_control_NR (v : gmap string Z) (c : t) : t :=
  mk (n_of_stations c) (n_of_eNB c) (backoffs c) (airtime_data c)
     (airtime_control c) (airtime_data_NR c) v (tx_list c)
     (back_off_list c) (tx_list_NR c) (back_off_list_NR c)
     (failed_transmissions c) (succeeded_transmissions c) (bytes_sent c)
     (failed_transmissions_NR c) (succeeded_transmissions_NR c).
Definition set_tx_list (v : list string) (c : t) : t :=
  mk (n_of_stations c) (n_of_eNB c) (backoffs c) (airtime_data c)
     (airtime_control c) (airtime_data_NR c) (airtime_control_NR c) v
     (back_off_list c) (tx_list_NR c) (back_off_list_NR c)
     (failed_transmissions c) (succeeded_transmissions c) (bytes_sent c)
     (failed_transmissions_NR c) (succeeded_transmissions_NR c).
Definition set_tx_list_NR (v : list string) (c : t) : t :=
  mk (n_of_stations c) (n_of_eNB c) (backoffs c) (airtime_data c)
     (airtime_control c) (airtime_data_NR c) (airtime_control_NR c)
     (tx_list c) (back_off_list c) v (back_off_list_NR c)
     (failed_transmissions c) (succeeded_transmissions c) (bytes_sent c)
     (failed_transmissions_NR c) (succeeded_transmissions_NR c).
Definition set_failed_transmissions (v : Z) (c : t) : t :=
  mk (n_of_stations c) (n_of_eNB c) (backoffs c) (airtime_data c)
     (airtime_control c) (airtime_data_NR c) (airtime_control_NR c)
     (tx_list c) (back_off_list c) (tx_list_NR c) (back_off_list_NR c)
     v (succeeded_transmissions c) (bytes_sent c)
     (failed_transmissions_NR c) (succeeded_transmissions_NR c).
Definition set_succeeded_transmissions (v : Z) (c : t) : t :=
  mk (n_of_stations c) (n_of_eNB c) (backoffs c) (airtime_data c)
     (airtime_control c) (airtime_data_NR c) (airtime_control_NR c)
     (tx_list c) (back_off_list c) (tx_list_NR c) (back_off_list_NR c)
     (failed_transmissions c) v (bytes_sent c)
     (failed_transmissions_NR c) (succeeded_transmissions_NR c).
Definition set_bytes_sent (v : Z) (c : t) : t :=
  mk (n_of_stations c) (n_of_eNB c) (backoffs c) (airtime_data c)
     (airtime_control c) (airtime_data_NR c) (airtime_control_NR c)
     (tx_list c) (back_off_list c) (tx_list_NR c) (back_off_list_NR c)
     (failed_transmissions c) (succeeded_transmissions c) v
     (failed_transmissions_NR c) (succeeded_transmissions_NR c).
Definition set_failed_transmissions_NR (v : Z) (c : t) : t :=
  mk (n_of_stations c) (n_of_eNB c) (backoffs c) (airtime_data c)
     (airtime_control c) (airtime_data_NR c) (airtime_control_NR c)
     (tx_list c) (back_off_list c) (tx_list_NR c) (back_off_list_NR c)
     (failed_transmissions c) (succeeded_transmissions c) (bytes_sent c)
     v (succeeded_transmissions_NR c).
Definition set_succeeded_transmissions_NR (v : Z) (c : t) : t :=
  mk (n_of_stations c) (n_of_eNB c) (backoffs c) (airtime_data c)
     (airtime_control c) (airtime_data_NR c) (airtime_control_NR c)
     (tx_list c) (back_off_list c) (tx_list_NR c) (back_off_list_NR c)
     (failed_transmissions c) (succeeded_transmissions c) (bytes_sent c)
     (failed_transmissions_NR c) v.
End Channel.

(** One entry of [adjustment_history]. *)
Module Adjustment.
Record t := mk {
  time : Z;
  wifi_cw_min : Z;
  wifi_cw_max : Z;
  nru_cw_min : Z;
  nru_cw_max : Z;
  fairness : Q;
  wifi_airtime : Z;
  nru_airtime : Z;
}.
End Adjustment.

(** The controller's parameters and tracking state. Its [wifi_config] and
    [nru_config] are the two config objects of the [World]: [run_simulation]
    passes the very objects the stations and gNBs were built from. *)
Module DynamicCWController.
Record t := mk {
  measurement_interval : Z;
  adjustment_step : Z;
  target_fairness : Q;
  min_cw : Z;
  max_cw : Z;
  last_wifi_airtime : Z;
  last_nru_airtime : Z;
  last_measurement_time : Z;
  adjustment_history : list Adjustment.t;
}.
Definition set_adjustment_history (v : list Adjustment.t) (c : t) : t :=
  mk (measurement_interval c) (adjustment_step c) (target_fairness c)
     (min_cw c) (max_cw c) (last_wifi_airtime c) (last_nru_airtime c)
     (last_measurement_time c) v.
Definition set_last (wifi nru time : Z) (c : t) : t :=
  mk (measurement_interval c) (adjustment_step c) (target_fairness c)
     (min_cw c) (max_cw c) wifi nru time (adjustment_history c).
End DynamicCWController.

(** ** The simulated world

    [rng] is the tape of raw values the seeded generator will deliver and
    [rng_pos] the number of values consumed so far. *)
Record World := mkWorld {
  now : Z;
  rng : nat -> Z;
  rng_pos : nat;
  times : Times.t;
  config : Config.t;
  config_nr : Config_NR.t;
  channel : Channel.t;
  stations : gmap string Station.t;
  gnbs : gmap string Gnb.t;
  controller : option DynamicCWController.t;
}.

Definition set_now (v : Z) (w : World) : World :=
  mkWorld v (rng w) (rng_pos w) (times w) (config w) (config_nr w)
          (channel w) (stations w) (gnbs w) (controller w).
Definition set_rng_pos (v : nat) (w : World) : World :=
  mkWorld (now w) (rng w) v (times w) (config w) (config_nr w)
          (channel w) (stations w) (gnbs w) (controller w).
Definition set_config (v : Config.t) (w : World) : World :=
  mkWorld (now w) (rng w) (rng_pos w) (times w) v (config_nr w)
          (channel w) (stations w) (gnbs w) (controller w).
Definition set_config_nr (v : Config_NR.t) (w : World) : World :=
  mkWorld (now w) (rng w) (rng_pos w) (times w) (config w) v
          (channel w) (stations w) (gnbs w) (controller w).
Definition set_channel (v : Channel.t) (w : World) : World :=
  mkWorld (now w) (rng w) (rng_pos w) (times w) (config w) (config_nr w)
          v (stations w) (gnbs w) (controller w).
Definition set_stations (v : gmap string Station.t) (w : World) : World :=
  mkWorld (now w) (rng w) (rng_pos w) (times w) (config w) (config_nr w)
          (channel w) v (gnbs w) (controller w).
Definition set_gnbs (v : gmap string Gnb.t) (w : World) : World :=
  mkWorld (now w) (rng w) (rng_pos w) (times w) (config w) (config_nr w)
          (channel w) (stations w) v (controller w).
Definition set_controller (v : option DynamicCWController.t) (w : World) : World :=
  mkWorld (now w) (rng w) (rng_pos w) (times w) (config w) (config_nr w)
          (channel w) (stations w) (gnbs w) v.

Abbreviation Sim := (M World).

(** ** Access to the shared objects

    In Python [self] is the object; here it is looked up by name, and a
    name that is no node of the world raises [KeyError]. *)

Definition station (name : string) : Sim Station.t :=
  w ← get; deref KeyError (stations w !! name).

Definition gnb (name : string) : Sim Gnb.t :=
  w ← get; deref KeyError (gnbs w !! name).

Definition the_controller : Sim DynamicCWController.t :=
  w ← get; deref AttributeError (controller w).

Definition update_station (name : string) (f : Station.t -> Station.t) : Sim unit :=
  self ← station name;
  modify (fun w => set_stations (<[name := f self]> (stations w)) w).

Definition update_gnb (name : string) (f : Gnb.t -> Gnb.t) : Sim unit :=
  self ← gnb name;
  modify (fun w => set_gnbs (<[name := f self]> (gnbs w)) w).

Definition update_channel (f : Channel.t -> Channel.t) : Sim unit :=
  modify (fun w => set_channel (f (channel w)) w).

Definition update_controller (f : DynamicCWController.t -> DynamicCWController.t) : Sim unit :=
  self ← the_controller;
  modify (set_controller (Some (f self))).

(** ** Python primitives *)

Definition len {A} (l : list A) : Z := Z.of_nat (length l).

(** [random.randint(a, b)]: a value of [a..b]; [ValueError] on an empty
    range. The raw tape value is reduced into the range. *)
Definition randint (a b : Z) : Sim Z :=
  if b <? a then raise ValueError
  else
    w ← get;
    put (set_rng_pos (S (rng_pos w)) w);;
    mret (a + rng w (rng_pos w) `mod` (b - a + 1)).

(** [d[k] += v] on a dict: [KeyError] when [k] is missing. *)
Definition dict_add `{Countable K} (k : K) (v : Z) (d : gmap K Z) : option (gmap K Z) :=
  old ← d !! k; Some (<[k := old + v]> d).

(** [x / y] on two ints. *)
Definition truediv (x y : Z) : option Q :=
  if y =? 0 then None else Some (inject_Z x / inject_Z y)%Q.

Definition Qltb (x y : Q) : bool := negb (Qle_bool y x).

(** ** class Station *)

(** [Station.generate_new_frame]: the frame duration is the literal 5400. *)
Definition Station_generate_new_frame (name : string) : Sim Frame.t :=
  self ← station name;
  w ← get;
  let frame_length := 5400 in
  mret (Frame.mk frame_length (Station.name self)
                 (Config.data_size (config w)) (now w) 0 None None 1472).

(** [Station.sent_failed] *)
Definition Station_sent_failed (name : string) : Sim unit :=
  self ← station name;
  frame ← deref AttributeError (Station.frame_to_send self);
  let frame :=
    Frame.set_number_of_retransmissions
      (Frame.number_of_retransmissions frame + 1) frame in
  update_station name (Station.set_frame_to_send (Some frame));;
  update_channel (fun c =>
    Channel.set_failed_transmissions (Channel.failed_transmissions c + 1) c);;
  update_station name (fun s =>
    Station.set_failed_transmissions (Station.failed_transmissions s + 1) s);;
  update_station name (fun s =>
    Station.set_failed_transmissions_in_row
      (Station.failed_transmissions_in_row s + 1) s);;
  w ← get;
  if Frame.number_of_retransmissions frame >? Config.r_limit (config w) then
    fresh ← Station_generate_new_frame name;
    update_station name (Station.set_frame_to_send (Some fresh));;
    update_station name (Station.set_failed_transmissions_in_row 0)
  else mret tt.

(** [Station.sent_completed] *)
Definition Station_sent_completed (name : string) : Sim bool :=
  self ← station name;
  w ← get;
  frame ← deref AttributeError (Station.frame_to_send self);
  let frame := Frame.set_t_end (Some (now w)) frame in
  let frame := Frame.set_t_to_send (Some (now w - Frame.t_start frame)) frame in
  update_station name (Station.set_frame_to_send (Some frame));;
  update_channel (fun c =>
    Channel.set_succeeded_transmissions
      (Channel.succeeded_transmissions c + 1) c);;
  update_station name (fun s =>
    Station.set_succeeded_transmissions
      (Station.succeeded_transmissions s + 1) s);;
  update_station name (Station.set_failed_transmissions_in_row 0);;
  update_channel (fun c =>
    Channel.set_bytes_sent (Channel.bytes_sent c + Frame.data_size frame) c);;
  w' ← get;
  airtime ← deref KeyError
    (dict_add (Station.name self) (Frame.frame_time frame)
              (Channel.airtime_data (channel w')));
  update_channel (Channel.set_airtime_data airtime);;
  match Station.packet_queue self with
  | packet :: rest =>
      let latency := now w - Packet.gen_time packet in
      update_station name (fun s =>
        Station.set_latency (Station.total_latency s + latency)
                            (Station.packet_count s + 1) rest s);;
      mret true
  | [] => mret true
  end.

(** [Station.check_collision] *)
Definition Station_check_collision (name : string) : Sim bool :=
  w ← get;
  let tx_list := Channel.tx_list (channel w) in
  let tx_list_NR := Channel.tx_list_NR (channel w) in
  if (len tx_list + len tx_list_NR >? 1) || (len tx_list + len tx_list_NR =? 0)
  then Station_sent_failed name;; mret false
  else Station_sent_completed name;; mret true.

(** [Station.generate_new_back_off_time]; the failure count is a counter,
    so [pow(2, k)] is the integer power. *)
Definition Station_generate_new_back_off_time
    (name : string) (failed_transmissions_in_row : Z) : Sim Z :=
  self ← station name;
  let upper_limit :=
    2 ^ failed_transmissions_in_row * (Station.cw_min self + 1) - 1 in
  let upper_limit :=
    if upper_limit <=? Station.cw_max self then upper_limit
    else Station.cw_max self in
  back_off ← randint 0 upper_limit;
  w ← get;
  row ← deref KeyError (Channel.backoffs (channel w) !! back_off);
  row ← deref KeyError (dict_add (Channel.n_of_stations (channel w)) 1 row);
  update_channel (fun c =>
    Channel.set_backoffs (<[back_off := row]> (Channel.backoffs c)) c);;
  mret (back_off * Times.t_slot (times w)).

(** [Station.send_frame] up to its first [yield]: the station joins the
    list of transmitting nodes. *)
Definition Station_send_frame_begin (name : string) : Sim unit :=
  update_channel (fun c => Channel.set_tx_list (Channel.tx_list c ++ [name]) c);;
  update_station name (Station.set_is_transmitting true).

(** ** class Gnb

    The module-level flag [gap] is an argument of the methods that read it. *)

(** [Gnb.gen_new_transmission] *)
Definition Gnb_gen_new_transmission (gap : bool) (name : string)
    : Sim Transmission_NR.t :=
  self ← gnb name;
  w ← get;
  let transmission_time := Config_NR.mcot (config_nr w) * 1000 in
  let rs_time :=
    if gap then 0 else Gnb.next_sync_slot_boundry self - now w in
  let airtime := transmission_time - rs_time in
  mret (Transmission_NR.mk transmission_time (Gnb.name self) (now w) airtime
                           rs_time 0 None None false 1472).

(** [Gnb.sent_failed] *)
Definition Gnb_sent_failed (name : string) : Sim unit :=
  self ← gnb name;
  transmission ← deref AttributeError (Gnb.transmission_to_send self);
  let transmission :=
    Transmission_NR.set_number_of_retransmissions
      (Transmission_NR.number_of_retransmissions transmission + 1)
      transmission in
  update_gnb name (Gnb.set_transmission_to_send (Some transmission));;
  update_channel (fun c =>
    Channel.set_failed_transmissions_NR
      (Channel.failed_transmissions_NR c + 1) c);;
  update_gnb name (fun s =>
    Gnb.set_failed_transmissions (Gnb.failed_transmissions s + 1) s);;
  update_gnb name (fun s =>
    Gnb.set_failed_transmissions_in_row
      (Gnb.failed_transmissions_in_row s + 1) s);;
  if Transmission_NR.number_of_retransmissions transmission >? 7 then
    update_gnb name (Gnb.set_failed_transmissions_in_row 0)
  else mret tt.

(** [Gnb.sent_completed] *)
Definition Gnb_sent_completed (name : string) : Sim bool :=
  self ← gnb name;
  w ← get;
  transmission ← deref AttributeError (Gnb.transmission_to_send self);
  let transmission := Transmission_NR.set_t_end (Some (now w)) transmission in
  let transmission :=
    Transmission_NR.set_t_to_send
      (Some (now w - Transmission_NR.t_start transmission)) transmission in
  update_gnb name (Gnb.set_transmission_to_send (Some transmission));;
  update_channel (fun c =>
    Channel.set_succeeded_transmissions_NR
      (Channel.succeeded_transmissions_NR c + 1) c);;
  update_gnb name (fun s =>
    Gnb.set_succeeded_transmissions (Gnb.succeeded_transmissions s + 1) s);;
  update_gnb name (Gnb.set_failed_transmissions_in_row 0);;
  mret true.

(** [Gnb.check_collision]: both arms of [if gap] are written out as in the
    source. *)
Definition Gnb_check_collision (gap : bool) (name : string) : Sim bool :=
  w ← get;
  let tx_list := Channel.tx_list (channel w) in
  let tx_list_NR := Channel.tx_list_NR (channel w) in
  if gap then
    if (len tx_list + len tx_list_NR >? 1) || (len tx_list + len tx_list_NR =? 0)
    then Gnb_sent_failed name;; mret false
    else Gnb_sent_completed name;; mret true
  else
    if (len tx_list + len tx_list_NR >? 1) || (len tx_list + len tx_list_NR =? 0)
    then Gnb_sent_failed name;; mret false
    else Gnb_sent_completed name;; mret true.

(** [Gnb.generate_new_back_off_time] *)
Definition Gnb_generate_new_back_off_time
    (name : string) (failed_transmissions_in_row : Z) : Sim Z :=
  self ← gnb name;
  let upper_limit :=
    2 ^ failed_transmissions_in_row * (Gnb.cw_min self + 1) - 1 in
  let upper_limit :=
    if upper_limit <=? Gnb.cw_max self then upper_limit else Gnb.cw_max self in
  back_off ← randint 0 upper_limit;
  w ← get;
  row ← deref KeyError (Channel.backoffs (channel w) !! back_off);
  row ← deref KeyError (dict_add (Channel.n_of_stations (channel w)) 1 row);
  update_channel (fun c =>
    Channel.set_backoffs (<[back_off := row]> (Channel.backoffs c)) c);;
  mret (back_off * Config_NR.observation_slot_duration (config_nr w)).

(** [Gnb.send_transmission] up to its first [yield]: the gNB joins the list
    of transmitting nodes and builds the transmission of this attempt. *)
Definition Gnb_send_transmission_begin (gap : bool) (name : string) : Sim unit :=
  update_gnb name (Gnb.set_is_transmitting true);;
  update_channel (fun c =>
    Channel.set_tx_list_NR (Channel.tx_list_NR c ++ [name]) c);;
  transmission ← Gnb_gen_new_transmission gap name;
  update_gnb name (Gnb.set_transmission_to_send (Some transmission)).

(** [Gnb.wait_back_off_gap], entry: the backoff is drawn and the
    prioritization period added to it. *)
Definition prioritization_period_time (c : Config_NR.t) : Z :=
  Config_NR.deter_period c + Config_NR.M c * Config_NR.observation_slot_duration c.

Definition Gnb_wait_back_off_gap_begin (name : string) : Sim unit :=
  self ← gnb name;
  back_off_time ←
    Gnb_generate_new_back_off_time name (Gnb.failed_transmissions_in_row self);
  w ← get;
  update_gnb name
    (Gnb.set_back_off_time (back_off_time + prioritization_period_time (config_nr w))).

(** The loop [while self.back_off_time >= self.time_to_next_sync_slot]. *)
Fixpoint Gnb_advance_sync_slot (fuel : nat) (name : string) : Sim unit :=
  self ← gnb name;
  if Gnb.back_off_time self >=? Gnb.time_to_next_sync_slot self then
    match fuel with
    | O => raise OutOfFuel
    | S fuel =>
        w ← get;
        update_gnb name
          (Gnb.set_time_to_next_sync_slot
             (Gnb.time_to_next_sync_slot self
              + Config_NR.synchronization_slot_duration (config_nr w)));;
        Gnb_advance_sync_slot fuel name
    end
  else mret tt.

(** [Gnb.wait_back_off_gap] from the moment the channel is idle to the
    [yield] of the gap: the value returned is [gap_time]. *)
Definition Gnb_wait_back_off_gap_align (fuel : nat) (name : string) : Sim Z :=
  self ← gnb name;
  w ← get;
  update_gnb name
    (Gnb.set_time_to_next_sync_slot (Gnb.next_sync_slot_boundry self - now w));;
  Gnb_advance_sync_slot fuel name;;
  self ← gnb name;
  let gap_time := Gnb.time_to_next_sync_slot self - Gnb.back_off_time self in
  if gap_time >=? 0 then mret gap_time else raise AssertionError.

(** ** class DynamicCWController *)

Definition update_config (f : Config.t -> Config.t) : Sim unit :=
  modify (fun w => set_config (f (config w)) w).
Definition update_config_nr (f : Config_NR.t -> Config_NR.t) : Sim unit :=
  modify (fun w => set_config_nr (f (config_nr w)) w).

(** [_calculate_jains_fairness] *)
Definition DynamicCWController_calculate_jains_fairness
    (wifi_airtime nru_airtime : Z) : Q :=
  if (wifi_airtime =? 0) && (nru_airtime =? 0) then 1%Q
  else
    let sum_airtime := wifi_airtime + nru_airtime in
    let sum_squared := wifi_airtime ^ 2 + nru_airtime ^ 2 in
    if sum_squared =? 0 then 1%Q
    else (inject_Z (sum_airtime ^ 2) / inject_Z (2 * sum_squared))%Q.

(** [_increase_wifi_cw] *)
Definition DynamicCWController_increase_wifi_cw : Sim unit :=
  self ← the_controller;
  w ← get;
  let new_cw :=
    Z.min (Config.cw_min (config w) + DynamicCWController.adjustment_step self)
          (DynamicCWController.max_cw self) in
  update_config (Config.set_cw_min new_cw);;
  update_config
    (Config.set_cw_max (Z.min (new_cw * 4) (DynamicCWController.max_cw self)));;
  w ← get;
  modify (set_stations
    (Station.set_cw (Config.cw_min (config w)) (Config.cw_max (config w))
       <$> stations w)).

(** [_decrease_wifi_cw] *)
Definition DynamicCWController_decrease_wifi_cw : Sim unit :=
  self ← the_controller;
  w ← get;
  let new_cw :=
    Z.max (Config.cw_min (config w) - DynamicCWController.adjustment_step self)
          (DynamicCWController.min_cw self) in
  update_config (Config.set_cw_min new_cw);;
  update_config
    (Config.set_cw_max (Z.min (new_cw * 4) (DynamicCWController.max_cw self)));;
  w ← get;
  modify (set_stations
    (Station.set_cw (Config.cw_min (config w)) (Config.cw_max (config w))
       <$> stations w)).

(** [_increase_nru_cw] *)
Definition DynamicCWController_increase_nru_cw : Sim unit :=
  self ← the_controller;
  w ← get;
  let new_cw :=
    Z.min (Config_NR.cw_min (config_nr w)
           + DynamicCWController.adjustment_step self)
          (DynamicCWController.max_cw self) in
  update_config_nr (Config_NR.set_cw_min new_cw);;
  update_config_nr
    (Config_NR.set_cw_max (Z.min (new_cw * 4) (DynamicCWController.max_cw self)));;
  w ← get;
  modify (set_gnbs
    (Gnb.set_cw (Config_NR.cw_min (config_nr w)) (Config_NR.cw_max (config_nr w))
       <$> gnbs w)).

(** [_decrease_nru_cw] *)
Definition DynamicCWController_decrease_nru_cw : Sim unit :=
  self ← the_controller;
  w ← get;
  let new_cw :=
    Z.max (Config_NR.cw_min (config_nr w)
           - DynamicCWController.adjustment_step self)
          (DynamicCWController.min_cw self) in
  update_config_nr (Config_NR.set_cw_min new_cw);;
  update_config_nr
    (Config_NR.set_cw_max (Z.min (new_cw * 4) (DynamicCWController.max_cw self)));;
  w ← get;
  modify (set_gnbs
    (Gnb.set_cw (Config_NR.cw_min (config_nr w)) (Config_NR.cw_max (config_nr w))
       <$> gnbs w)).

(** The test [a > b * 1.1] on two airtimes. *)
Definition exceeds_by_tenth (a b : Z) : bool :=
  Qltb (inject_Z b * (11 # 10)) (inject_Z a).

(** [_adjust_contention_windows] *)
Definition DynamicCWController_adjust_contention_windows
    (wifi_airtime nru_airtime : Z) (current_fairness : Q) : Sim unit :=
  self ← the_controller;
  (if exceeds_by_tenth wifi_airtime nru_airtime then
     DynamicCWController_increase_wifi_cw;;
     w ← get;
     if Config_NR.cw_min (config_nr w) >? DynamicCWController.min_cw self
     then DynamicCWController_decrease_nru_cw
     else mret tt
   else if exceeds_by_tenth nru_airtime wifi_airtime then
     w ← get;
     (if Config.cw_min (config w) >? DynamicCWController.min_cw self
      then DynamicCWController_decrease_wifi_cw
      else mret tt);;
     DynamicCWController_increase_nru_cw
   else mret tt);;
  w ← get;
  update_controller (fun c =>
    DynamicCWController.set_adjustment_history
      (DynamicCWController.adjustment_history c ++
         [Adjustment.mk (now w)
            (Config.cw_min (config w)) (Config.cw_max (config w))
            (Config_NR.cw_min (config_nr w)) (Config_NR.cw_max (config_nr w))
            current_fairness wifi_airtime nru_airtime]) c).

(** [sum(d.values())] *)
Definition sum_values (d : gmap string Z) : Z :=
  map_fold (fun _ v acc => acc + v) 0 d.

(** One round of [_monitor_and_adjust], after its [yield]. *)
Definition DynamicCWController_monitor_and_adjust_round : Sim unit :=
  self ← the_controller;
  w ← get;
  let current_wifi_airtime := sum_values (Channel.airtime_data (channel w)) in
  let current_nru_airtime := sum_values (Channel.airtime_data_NR (channel w)) in
  let wifi_delta :=
    current_wifi_airtime - DynamicCWController.last_wifi_airtime self in
  let nru_delta :=
    current_nru_airtime - DynamicCWController.last_nru_airtime self in
  (if (wifi_delta >? 0) || (nru_delta >? 0) then
     let fairness :=
       DynamicCWController_calculate_jains_fairness wifi_delta nru_delta in
     if Qltb fairness (DynamicCWController.target_fairness self)
     then DynamicCWController_adjust_contention_windows
            wifi_delta nru_delta fairness
     else mret tt
   else mret tt);;
  w ← get;
  update_controller
    (DynamicCWController.set_last current_wifi_airtime current_nru_airtime (now w)).

(** ** Nodes of either technology *)

Inductive node :=
| WifiStation (name : string)
| NrGnb (name : string).

(** The method of the node's class. *)
Definition check_collision (gap : bool) (n : node) : Sim bool :=
  match n with
  | WifiStation name => Station_check_collision name
  | NrGnb name => Gnb_check_collision gap name
  end.

Definition sent_failed (n : node) : Sim unit :=
  match n with
  | WifiStation name => Station_sent_failed name
  | NrGnb name => Gnb_sent_failed name
  end.

Definition sent_completed (n : node) : Sim bool :=
  match n with
  | WifiStation name => Station_sent_completed name
  | NrGnb name => Gnb_sent_completed name
  end.

(** What a node has recorded so far: the channel-wide and its own count of
    failed and of succeeded transmissions. *)
Definition failures (n : node) (w : World) : option (Z * Z) :=
  match n with
  | WifiStation name =>
      self ← stations w !! name;
      Some (Channel.failed_transmissions (channel w),
            Station.failed_transmissions self)
  | NrGnb name =>
      self ← gnbs w !! name;
      Some (Channel.failed_transmissions_NR (channel w),
            Gnb.failed_transmissions self)
  end.

Definition successes (n : node) (w : World) : option (Z * Z) :=
  match n with
  | WifiStation name =>
      self ← stations w !! name;
      Some (Channel.succeeded_transmissions (channel w),
            Station.succeeded_transmissions self)
  | NrGnb name =>
      self ← gnbs w !! name;
      Some (Channel.succeeded_transmissions_NR (channel w),
            Gnb.succeeded_transmissions self)
  end.

(** A node at the end of its frame: it is one of the world's nodes, the
    frame (transmission) it sent is set, and a station has its entry in
    [airtime_data]. *)
Definition at_end_of_frame (n : node) (w : World) : Prop :=
  match n with
  | WifiStation name =>
      exists self frame,
        stations w !! name = Some self /\
        Station.frame_to_send self = Some frame /\
        is_Some (Channel.airtime_data (channel w) !! Station.name self)
  | NrGnb name =>
      exists self transmission,
        gnbs w !! name = Some self /\
        Gnb.transmission_to_send self = Some transmission
  end.

(** The number of nodes on the air. *)
Definition on_air (w : World) : Z :=
  len (Channel.tx_list (channel w)) + len (Channel.tx_list_NR (channel w)).

(** ** run_simulation: set-up *)

Definition station_name (i : Z) : string := "Station " +:+ pretty i.
Definition gnb_name (i : Z) : string := "Gnb " +:+ pretty i.

Fixpoint for_each {A} (l : list A) (body : A -> Sim unit) : Sim unit :=
  match l with
  | [] => mret tt
  | x :: l => body x;; for_each l body
  end.

(** [range(1, n + 1)] *)
Definition range1 (n : Z) : list Z := seqZ 1 n.

(** [Station.__init__] followed by [channel.stations[name] = station]. The
    draw of the output colour is left out: it moves the generator on, which
    for an arbitrary tape is no change. *)
Definition Station_init (name : string) : Sim unit :=
  w ← get;
  let self :=
    Station.mk name None 0 0 0 (Config.cw_min (config w))
               (Config.cw_max (config w)) 0 0 0 [] false in
  update_channel (fun c =>
    Channel.set_airtime_data (<[name := 0]> (Channel.airtime_data c)) c);;
  update_channel (fun c =>
    Channel.set_airtime_control (<[name := 0]> (Channel.airtime_control c)) c);;
  modify (fun w => set_stations (<[name := self]> (stations w)) w).

(** [Gnb.__init__] followed by [channel.gnbs[name] = gnb]. *)
Definition Gnb_init (name : string) : Sim unit :=
  w ← get;
  let self :=
    Gnb.mk name None 0 0 0 (Config_NR.cw_min (config_nr w))
           (Config_NR.cw_max (config_nr w)) 0 0 0 false in
  update_channel (fun c =>
    Channel.set_airtime_data_NR (<[name := 0]> (Channel.airtime_data_NR c)) c);;
  update_channel (fun c =>
    Channel.set_airtime_control_NR
      (<[name := 0]> (Channel.airtime_control_NR c)) c);;
  modify (fun w => set_gnbs (<[name := self]> (gnbs w)) w).

(** The arguments of [run_simulation] that make up the world before any
    node exists; [tape] is what [random.seed(seed)] fixes. *)
Definition new_world (tape : nat -> Z) (tm : Times.t)
    (number_of_stations number_of_gnb : Z)
    (cfg : Config.t) (cfg_nr : Config_NR.t)
    (backoffs : gmap Z (gmap Z Z))
    (airtime_data airtime_control airtime_data_NR airtime_control_NR
       : gmap string Z) : World :=
  mkWorld 0 tape 0 tm cfg cfg_nr
    (Channel.mk number_of_stations number_of_gnb backoffs
       airtime_data airtime_control airtime_data_NR airtime_control_NR
       [] [] [] [] 0 0 0 0 0)
    ∅ ∅ None.

(** [run_simulation] from the creation of the stations to the start of the
    controller. *)
Definition run_simulation_setup
    (number_of_stations number_of_gnb : Z) (enable_dynamic_cw : bool)
    : Sim unit :=
  for_each (range1 number_of_stations) (fun i => Station_init (station_name i));;
  for_each (range1 number_of_gnb) (fun i => Gnb_init (gnb_name i));;
  if enable_dynamic_cw then
    modify (set_controller
      (Some (DynamicCWController.mk 1000000 5 (95 # 100) 7 511 0 0 0 [])))
  else mret tt.

(** ** The run, one action at a time

    The kernel resumes one process at a time; between two [yield]s a process
    executes one of the fragments below. A run is a sequence of them, in
    the order the kernel picks. *)

(** [Station.start]: a new frame for the next send. *)
Definition Station_start_frame (name : string) : Sim unit :=
  frame ← Station_generate_new_frame name;
  update_station name (Station.set_frame_to_send (Some frame)).

(** [Station.wait_back_off], entry: the backoff is drawn. *)
Definition Station_wait_back_off_begin (name : string) : Sim unit :=
  self ← station name;
  back_off_time ←
    Station_generate_new_back_off_time name
      (Station.failed_transmissions_in_row self);
  update_station name (Station.set_back_off_time back_off_time).

(** [Station.send_frame], holder of the lock after a success: the ACK is
    accounted as control airtime. *)
Definition Station_send_frame_ack (name : string) : Sim unit :=
  self ← station name;
  w ← get;
  airtime ← deref KeyError
    (dict_add (Station.name self) (Times.ack_frame_time (times w))
              (Channel.airtime_control (channel w)));
  update_channel (Channel.set_airtime_control airtime).

(** [self.channel.tx_list.clear(); self.channel.tx_list_NR.clear()] *)
Definition clear_tx_lists : Sim unit :=
  update_channel (Channel.set_tx_list []);;
  update_channel (Channel.set_tx_list_NR []).

(** [Gnb.sync_slot_counter], entry: the desynchronisation is drawn. *)
Definition Gnb_sync_slot_counter_begin (name : string) : Sim unit :=
  w ← get;
  desync ← randint (Config_NR.min_sync_slot_desync (config_nr w))
                   (Config_NR.max_sync_slot_desync (config_nr w));
  update_gnb name (Gnb.set_next_sync_slot_boundry desync).

(** [Gnb.sync_slot_counter], one round of its loop. *)
Definition Gnb_sync_slot_counter_round (name : string) : Sim unit :=
  w ← get;
  update_gnb name (fun s =>
    Gnb.set_next_sync_slot_boundry
      (Gnb.next_sync_slot_boundry s
       + Config_NR.synchronization_slot_duration (config_nr w)) s).

(** [Gnb.send_transmission], holder of the lock after a success: the
    reservation signal is control airtime, the rest data airtime. *)
Definition Gnb_send_transmission_account (name : string) : Sim unit :=
  self ← gnb name;
  transmission ← deref AttributeError (Gnb.transmission_to_send self);
  w ← get;
  control ← deref KeyError
    (dict_add (Gnb.name self) (Transmission_NR.rs_time transmission)
              (Channel.airtime_control_NR (channel w)));
  update_channel (Channel.set_airtime_control_NR control);;
  w ← get;
  data ← deref KeyError
    (dict_add (Gnb.name self) (Transmission_NR.airtime transmission)
              (Channel.airtime_data_NR (channel w)));
  update_channel (Channel.set_airtime_data_NR data).

Inductive action :=
| Advance (dt : Z)
| StationStartFrame (name : string)
| StationBackoff (name : string)
| StationSend (name : string)
| StationEndOfFrame (name : string)
| StationAck (name : string)
| ClearTx
| GnbDesync (name : string)
| GnbSyncSlot (name : string)
| GnbBackoff (name : string)
| GnbAlign (fuel : nat) (name : string)
| GnbSend (name : string)
| GnbEndOfFrame (name : string)
| GnbAccount (name : string)
| ControllerRound.

Definition exec (gap : bool) (a : action) : Sim unit :=
  match a with
  | Advance dt => modify (fun w => set_now (now w + dt) w)
  | StationStartFrame name => Station_start_frame name
  | StationBackoff name => Station_wait_back_off_begin name
  | StationSend name => Station_send_frame_begin name
  | StationEndOfFrame name => Station_check_collision name;; mret tt
  | StationAck name => Station_send_frame_ack name
  | ClearTx => clear_tx_lists
  | GnbDesync name => Gnb_sync_slot_counter_begin name
  | GnbSyncSlot name => Gnb_sync_slot_counter_round name
  | GnbBackoff name => Gnb_wait_back_off_gap_begin name
  | GnbAlign fuel name => Gnb_wait_back_off_gap_align fuel name;; mret tt
  | GnbSend name => Gnb_send_transmission_begin gap name
  | GnbEndOfFrame name => Gnb_check_collision gap name;; mret tt
  | GnbAccount name => Gnb_send_transmission_account name
  | ControllerRound => DynamicCWController_monitor_and_adjust_round
  end.

(** [run_simulation] up to the end of [environment.run]. *)
Definition run_simulation_run (gap : bool)
    (number_of_stations number_of_gnb : Z) (enable_dynamic_cw : bool)
    (schedule : list action) : Sim unit :=
  run_simulation_setup number_of_stations number_of_gnb enable_dynamic_cw;;
  for_each schedule (exec gap).

(** ** run_simulation: the metrics at the end of the run *)

(** [# Calculate collision probability] *)
Definition collision_probabilities (number_of_stations number_of_gnb : Z)
    : Sim (Q * Q) :=
  w ← get;
  let c := channel w in
  p_coll ←
    (if negb (number_of_stations =? 0) then
       if negb (Channel.failed_transmissions c
                + Channel.succeeded_transmissions c =? 0)
       then deref ZeroDivisionError
              (truediv (Channel.failed_transmissions c)
                       (Channel.failed_transmissions c
                        + Channel.succeeded_transmissions c))
       else mret 0%Q
     else mret 0%Q);
  p_coll_NR ←
    (if negb (number_of_gnb =? 0) then
       if negb (Channel.failed_transmissions_NR c
                + Channel.succeeded_transmissions_NR c =? 0)
       then deref ZeroDivisionError
              (truediv (Channel.failed_transmissions_NR c)
                       (Channel.failed_transmissions_NR c
                        + Channel.succeeded_transmissions_NR c))
       else mret 0%Q
     else mret 0%Q);
  mret (p_coll, p_coll_NR).

Fixpoint fold_for {A B} (l : list A) (body : B -> A -> Sim B) (acc : B) : Sim B :=
  match l with
  | [] => mret acc
  | x :: l => acc ← body acc x; fold_for l body acc
  end.

(** [# Calculate channel metrics]: the two loops over the node names; the
    result is occupancy and efficiency of Wi-Fi, then of NR-U. *)
Definition channel_times (number_of_stations number_of_gnb : Z)
    : Sim (Z * Z * (Z * Z)) :=
  w ← get;
  let c := channel w in
  wifi ← fold_for (range1 number_of_stations)
    (fun '(channel_occupancy_time, channel_efficiency) i =>
       data ← deref KeyError (Channel.airtime_data c !! station_name i);
       control ← deref KeyError (Channel.airtime_control c !! station_name i);
       mret (channel_occupancy_time + (data + control),
             channel_efficiency + data))
    (0, 0);
  nru ← fold_for (range1 number_of_gnb)
    (fun '(channel_occupancy_time_NR, channel_efficiency_NR) i =>
       data ← deref KeyError (Channel.airtime_data_NR c !! gnb_name i);
       control ← deref KeyError (Channel.airtime_control_NR c !! gnb_name i);
       mret (channel_occupancy_time_NR + (data + control),
             channel_efficiency_NR + data))
    (0, 0);
  mret (wifi, nru).

(** ** Views of a node used in the statements *)

Definition generate_new_back_off_time (n : node) (failed_transmissions_in_row : Z)
    : Sim Z :=
  match n with
  | WifiStation name =>
      Station_generate_new_back_off_time name failed_transmissions_in_row
  | NrGnb name => Gnb_generate_new_back_off_time name failed_transmissions_in_row
  end.

(** The node's current [cw_min] and [cw_max]. *)
Definition contention_window (n : node) (w : World) : option (Z * Z) :=
  match n with
  | WifiStation name =>
      self ← stations w !! name; Some (Station.cw_min self, Station.cw_max self)
  | NrGnb name =>
      self ← gnbs w !! name; Some (Gnb.cw_min self, Gnb.cw_max self)
  end.

(** The slot a backoff is counted in. *)
Definition slot_unit (n : node) (w : World) : Z :=
  match n with
  | WifiStation _ => Times.t_slot (times w)
  | NrGnb _ => Config_NR.observation_slot_duration (config_nr w)
  end.

(** The histogram [backoffs] has counted one more draw of [b]. *)
Definition counted_draw (b : Z) (w w' : World) : Prop :=
  exists row count,
    Channel.backoffs (channel w) !! b = Some row /\
    row !! Channel.n_of_stations (channel w) = Some count /\
    Channel.backoffs (channel w')
    = <[b := <[Channel.n_of_stations (channel w) := count + 1]> row]>
        (Channel.backoffs (channel w)).

(** The two technologies, and the four operations by which the controller
    moves a contention window. *)
Inductive technology := WiFi | NRU.

Inductive cw_operation :=
| increase_wifi_cw
| decrease_wifi_cw
| increase_nru_cw
| decrease_nru_cw.

Definition adjusted (op : cw_operation) : technology :=
  match op with
  | increase_wifi_cw | decrease_wifi_cw => WiFi
  | increase_nru_cw | decrease_nru_cw => NRU
  end.

Definition DynamicCWController_operation (op : cw_operation) : Sim unit :=
  match op with
  | increase_wifi_cw => DynamicCWController_increase_wifi_cw
  | decrease_wifi_cw => DynamicCWController_decrease_wifi_cw
  | increase_nru_cw => DynamicCWController_increase_nru_cw
  | decrease_nru_cw => DynamicCWController_decrease_nru_cw
  end.

(** [cw_min] and [cw_max] of a technology's config object. *)
Definition config_window (t : technology) (w : World) : Z * Z :=
  match t with
  | WiFi => (Config.cw_min (config w), Config.cw_max (config w))
  | NRU => (Config_NR.cw_min (config_nr w), Config_NR.cw_max (config_nr w))
  end.

(** [cw_min] and [cw_max] of every node of a technology. *)
Definition node_windows (t : technology) (w : World) : gmap string (Z * Z) :=
  match t with
  | WiFi => (fun s => (Station.cw_min s, Station.cw_max s)) <$> stations w
  | NRU => (fun s => (Gnb.cw_min s, Gnb.cw_max s)) <$> gnbs w
  end.

(** From the spec: [p_coll] per technology is failures / (failures +
    successes), or 0 if the denominator is 0. *)
Definition p_coll_spec (failures successes : Z) : Q :=
  if failures + successes =? 0 then 0%Q
  else (inject_Z failures / inject_Z (failures + successes))%Q.

(** A technology without nodes has counted no transmission. *)
Definition idle_wifi (w : World) : Prop :=
  stations w = ∅ /\
  Channel.failed_transmissions (channel w) = 0 /\
  Channel.succeeded_transmissions (channel w) = 0.

Definition idle_nru (w : World) : Prop :=
  gnbs w = ∅ /\
  Channel.failed_transmissions_NR (channel w) = 0 /\
  Channel.succeeded_transmissions_NR (channel w) = 0.

(** The controller has the parameters [run_simulation] builds it with. *)
Definition as_declared (c : DynamicCWController.t) : Prop :=
  DynamicCWController.measurement_interval c = 1000000 /\
  DynamicCWController.adjustment_step c = 5 /\
  DynamicCWController.target_fairness c = (95 # 100)%Q /\
  DynamicCWController.min_cw c = 7 /\
  DynamicCWController.max_cw c = 511.

Definition controller_as_declared (w : World) : Prop :=
  forall c, controller w = Some c -> as_declared c.

(** [m] keeps [P] whenever it does not raise. *)
Definition preserves {A} (P : World -> Prop) (m : Sim A) : Prop :=
  forall w a w', P w -> m w = Ok a w' -> P w'.

(** The world a computation leaves behind. *)
Definition after {A} (m : Sim A) (w : World) : World :=
  match m w with
  | Ok _ w' => w'
  | Raise _ => w
  end.

(** ** The worlds the runner starts from

    [run_coexistenxe_matrix.py] builds the dicts it passes to
    [run_simulation] afresh for every run, from the node counts; the
    [Times] constants and the tape are parameters. *)
Definition runner_backoffs (wifi_count : Z) (wifi_config : Config.t)
    : gmap Z (gmap Z Z) :=
  list_to_map
    ((fun key => (key, {[wifi_count := 0]}))
       <$> seqZ 0 (Config.cw_max wifi_config + 1)).

Definition runner_airtime (names : list string) : gmap string Z :=
  list_to_map ((fun name => (name, 0)) <$> names).

Definition runner_world (tape : nat -> Z) (tm : Times.t)
    (wifi_count gnb_count : Z) (wifi_config : Config.t)
    (nru_config : Config_NR.t) : World :=
  new_world tape tm wifi_count gnb_count wifi_config nru_config
    (runner_backoffs wifi_count wifi_config)
    (runner_airtime (station_name <$> range1 wifi_count))
    (runner_airtime (station_name <$> range1 wifi_count))
    (runner_airtime (gnb_name <$> range1 gnb_count))
    (runner_airtime (gnb_name <$> range1 gnb_count)).

(** ** Sample runs: one station and one gNB with the default configs *)

Definition sample_times : Times.t := Times.mk 9 34 45 28.
Definition sample_tape : nat -> Z := fun i => 7 * Z.of_nat i + 3.

Definition sample_start : World :=
  runner_world sample_tape sample_times 1 1 Config.default Config_NR.default.

Definition sample_run (enable_dynamic_cw : bool) (schedule : list action)
    : World :=
  after (run_simulation_run true 1 1 enable_dynamic_cw schedule) sample_start.

(** The station and the gNB start to send at the same instant, with the
    gNB as holder of the lock, and both reach the end of their frame. *)
Definition collision_round : list action :=
  [StationSend "Station 1"; GnbSend "Gnb 1";
   StationEndOfFrame "Station 1"; GnbEndOfFrame "Gnb 1"; ClearTx].

Definition collisions (rounds : nat) : list action :=
  StationStartFrame "Station 1" :: concat (replicate rounds collision_round).

(** The station sends alone, up to the end of its frame. *)
Definition station_alone : list action :=
  [StationStartFrame "Station 1"; StationSend "Station 1"].

(** The station and the gNB are both on the air. *)
Definition both_on_air : list action :=
  [StationStartFrame "Station 1"; StationSend "Station 1"; GnbSend "Gnb 1"].

(** The station has sent one frame with success. *)
Definition one_success : list action :=
  station_alone ++ [StationEndOfFrame "Station 1"; ClearTx].

(** The gNB has its desynchronisation and a backoff drawn. *)
Definition gnb_ready : list action :=
  [GnbDesync "Gnb 1"; GnbBackoff "Gnb 1"].

(** ** Waiting out a backoff

    The attributes that only the waiting process of a node reads and writes
    ([first_interrupt] and [start] of a station; [first_interrupt],
    [start_nr] and [waiting_backoff] of a gNB) are threaded through the
    fragments of that process. *)
Module StationWait.
Record t := mk {
  first_interrupt : bool;
  start : Z;
}.
End StationWait.

Module GnbWait.
Record t := mk {
  first_interrupt : bool;
  start_nr : Z;
  waiting_backoff : bool;
}.
End GnbWait.

Definition Channel_set_back_off_list (v : list string) (c : Channel.t)
    : Channel.t :=
  Channel.mk (Channel.n_of_stations c) (Channel.n_of_eNB c)
    (Channel.backoffs c) (Channel.airtime_data c) (Channel.airtime_control c)
    (Channel.airtime_data_NR c) (Channel.airtime_control_NR c)
    (Channel.tx_list c) v (Channel.tx_list_NR c) (Channel.back_off_list_NR c)
    (Channel.failed_transmissions c) (Channel.succeeded_transmissions c)
    (Channel.bytes_sent c) (Channel.failed_transmissions_NR c)
    (Channel.succeeded_transmissions_NR c).

Definition Channel_set_back_off_list_NR (v : list string) (c : Channel.t)
    : Channel.t :=
  Channel.mk (Channel.n_of_stations c) (Channel.n_of_eNB c)
    (Channel.backoffs c) (Channel.airtime_data c) (Channel.airtime_control c)
    (Channel.airtime_data_NR c) (Channel.airtime_control_NR c)
    (Channel.tx_list c) (Channel.back_off_list c) (Channel.tx_list_NR c) v
    (Channel.failed_transmissions c) (Channel.succeeded_transmissions c)
    (Channel.bytes_sent c) (Channel.failed_transmissions_NR c)
    (Channel.succeeded_transmissions_NR c).

(** [l.remove(x)]: the first occurrence goes; [None] stands for the
    [ValueError] of an absent [x]. *)
Fixpoint list_remove (x : string) (l : list string) : option (list string) :=
  match l with
  | [] => None
  | y :: l => if decide (x = y) then Some l else (y ::.) <$> list_remove x l
  end.

(** [int(x / y)] on two ints: the quotient, truncated towards zero. *)
Definition int_truediv (x y : Z) : option Z :=
  if y =? 0 then None else Some (x ÷ y).

(** [Station.wait_back_off], from the grant of the lock to the [yield] of
    the timeout, which lasts [back_off_time]. *)
Definition Station_wait_back_off_countdown (name : string)
    : Sim StationWait.t :=
  w ← get;
  update_station name (fun s =>
    Station.set_back_off_time
      (Station.back_off_time s + Times.t_difs (times w)) s);;
  update_channel (fun c =>
    Channel_set_back_off_list (Channel.back_off_list c ++ [name]) c);;
  mret (StationWait.mk true (now w)).

(** [Station.wait_back_off] after the timeout. *)
Definition Station_wait_back_off_done (name : string) : Sim unit :=
  update_station name (Station.set_back_off_time (-1));;
  w ← get;
  waiting ← deref ValueError
    (list_remove name (Channel.back_off_list (channel w)));
  update_channel (Channel_set_back_off_list waiting).

(** [Station.wait_back_off], [except simpy.Interrupt]. The attribute
    [start] holds an int, so that [self.start is not None] is true. *)
Definition Station_wait_back_off_interrupted (name : string)
    (wait : StationWait.t) : Sim StationWait.t :=
  if StationWait.first_interrupt wait then
    w ← get;
    let all_waited := now w - StationWait.start wait in
    (if all_waited <=? Times.t_difs (times w) then
       update_station name (fun s =>
         Station.set_back_off_time
           (Station.back_off_time s - Times.t_difs (times w)) s)
     else
       let back_waited := all_waited - Times.t_difs (times w) in
       slot_waited ← deref ZeroDivisionError
         (int_truediv back_waited (Times.t_slot (times w)));
       update_station name (fun s =>
         Station.set_back_off_time
           (Station.back_off_time s
            - (slot_waited * Times.t_slot (times w) + Times.t_difs (times w)))
           s));;
    mret (StationWait.mk false (StationWait.start wait))
  else mret wait.

(** [Gnb.wait_back_off_gap] after the gap, up to the [yield] of the
    timeout, which lasts [back_off_time], or of the request for the lock
    when the channel is busy. *)
Definition Gnb_wait_back_off_gap_countdown (name : string) (wait : GnbWait.t)
    : Sim GnbWait.t :=
  w ← get;
  let wait := GnbWait.mk true (now w) (GnbWait.waiting_backoff wait) in
  if len (Channel.tx_list_NR (channel w)) + len (Channel.tx_list (channel w)) >? 0
  then mret wait
  else
    update_channel (fun c =>
      Channel_set_back_off_list_NR (Channel.back_off_list_NR c ++ [name]) c);;
    mret (GnbWait.mk true (now w) true).

(** [Gnb.wait_back_off_gap] after the timeout. *)
Definition Gnb_wait_back_off_gap_done (name : string) (wait : GnbWait.t)
    : Sim GnbWait.t :=
  update_gnb name (Gnb.set_back_off_time (-1));;
  w ← get;
  waiting ← deref ValueError
    (list_remove name (Channel.back_off_list_NR (channel w)));
  update_channel (Channel_set_back_off_list_NR waiting);;
  mret (GnbWait.mk (GnbWait.first_interrupt wait) (GnbWait.start_nr wait) false).

(** [Gnb.wait_back_off_gap], [except simpy.Interrupt];
    [prioritization_period_time] is the local variable set at the entry of
    the method. A gNB has no attribute [start] but its method of that name,
    so that [self.start is not None] is true. *)
Definition Gnb_wait_back_off_gap_interrupted (name : string)
    (prioritization_period_time : Z) (wait : GnbWait.t) : Sim GnbWait.t :=
  if GnbWait.first_interrupt wait && GnbWait.waiting_backoff wait then
    w ← get;
    let already_waited := now w - GnbWait.start_nr wait in
    (if already_waited <=? prioritization_period_time then
       update_gnb name (fun s =>
         Gnb.set_back_off_time
           (Gnb.back_off_time s - prioritization_period_time) s)
     else
       slots_waited ← deref ZeroDivisionError
         (int_truediv (already_waited - prioritization_period_time)
            (Config_NR.observation_slot_duration (config_nr w)));
       update_gnb name (fun s =>
         Gnb.set_back_off_time
           (Gnb.back_off_time s
            - (slots_waited * Config_NR.observation_slot_duration (config_nr w)
               + prioritization_period_time)) s));;
    update_gnb name (fun s =>
      Gnb.set_back_off_time
        (Gnb.back_off_time s + prioritization_period_time) s);;
    mret (GnbWait.mk false (GnbWait.start_nr wait) false)
  else mret wait.

(** The whole slots of a backoff that a wait of [elapsed], of which the
    first [lead] count for nothing, has used up. *)
Definition slots_used (lead slot elapsed : Z) : Z :=
  if elapsed <=? lead then 0 else (elapsed - lead) `div` slot.

(** ** The end of a frame

    The holder of the lock runs the statements after its frame or
    transmission in one go, up to the next [yield] or [return]; the value is
    [was_sent]. *)

(** [Station.send_frame], holder: from the end of the frame to the wait for
    the ACK (success) or for the ACK timeout (collision). *)
Definition Station_send_frame_holder_end (name : string) : Sim bool :=
  update_channel (Channel_set_back_off_list []);;
  was_sent ← Station_check_collision name;
  if (was_sent : bool) then Station_send_frame_ack name;; mret true
  else clear_tx_lists;; mret false.

(** [Station.send_frame], not the holder: after the wait for the ACK or
    its timeout. *)
Definition Station_send_frame_leave (name : string) : Sim unit :=
  update_station name (Station.set_is_transmitting false).

(** [Gnb.send_transmission], holder: from the end of the transmission to
    [return]. *)
Definition Gnb_send_transmission_holder_end (gap : bool) (name : string)
    : Sim bool :=
  update_channel (Channel_set_back_off_list_NR []);;
  was_sent ← Gnb_check_collision gap name;
  if (was_sent : bool) then
    Gnb_send_transmission_account name;;
    update_channel (Channel.set_tx_list_NR []);;
    update_channel (Channel.set_tx_list []);;
    mret true
  else
    update_channel (Channel.set_tx_list_NR []);;
    update_channel (Channel.set_tx_list []);;
    mret false.

(** [Gnb.send_transmission], not the holder: after the transmission time. *)
Definition Gnb_send_transmission_slave_end (gap : bool) (name : string)
    : Sim bool :=
  was_sent ← Gnb_check_collision gap name;
  update_gnb name (Gnb.set_is_transmitting false);;
  mret was_sent.

(** The holder's statements at the end of its frame, for a node of either
    technology. *)
Definition holder_end (gap : bool) (n : node) : Sim bool :=
  match n with
  | WifiStation name => Station_send_frame_holder_end name
  | NrGnb name => Gnb_send_transmission_holder_end gap name
  end.

(** ** run_simulation: latency *)

(** [# Calculate latency], the Wi-Fi half: the sums over
    [channel.stations] and the average. The NR-U half reads two attributes
    of a gNB that are 0 from [__init__] on. *)
Definition wifi_latency_totals (w : World) : Z * Z :=
  map_fold (fun _ station '(wifi_latency, wifi_packet_count) =>
              (wifi_latency + Station.total_latency station,
               wifi_packet_count + Station.packet_count station))
           (0, 0) (stations w).

Definition avg_wifi_latency (w : World) : option Q :=
  let '(wifi_latency, wifi_packet_count) := wifi_latency_totals w in
  if wifi_packet_count >? 0 then truediv wifi_latency wifi_packet_count
  else Some 0%Q.

(** ** The windows of the controller *)

(** The window a technology has after an increase, and after a decrease,
    of its [cw_min]. *)
Definition increased_window (c : DynamicCWController.t) (cw_min : Z) : Z * Z :=
  let new_cw :=
    Z.min (cw_min + DynamicCWController.adjustment_step c)
          (DynamicCWController.max_cw c) in
  (new_cw, Z.min (new_cw * 4) (DynamicCWController.max_cw c)).

Definition decreased_window (c : DynamicCWController.t) (cw_min : Z) : Z * Z :=
  let new_cw :=
    Z.max (cw_min - DynamicCWController.adjustment_step c)
          (DynamicCWController.min_cw c) in
  (new_cw, Z.min (new_cw * 4) (DynamicCWController.max_cw c)).

(** The entry that [_adjust_contention_windows] appends to the history:
    the windows are those in force in [w]. *)
Definition adjustment_entry (w : World) (wifi_airtime nru_airtime : Z)
    (current_fairness : Q) : Adjustment.t :=
  Adjustment.mk (now w)
    (Config.cw_min (config w)) (Config.cw_max (config w))
    (Config_NR.cw_min (config_nr w)) (Config_NR.cw_max (config_nr w))
    current_fairness wifi_airtime nru_airtime.

(** ** Weakest preconditions

    [wp m Q w]: if [m] returns from [w], its value and the world it leaves
    satisfy [Q]. *)
Definition wp {A} (m : Sim A) (Q : A -> World -> Prop) (w : World) : Prop :=
  match m w with
  | Ok a w' => Q a w'
  | Raise _ => True
  end.

(** ** The run, with the fragments of the waiting and of the end of a frame *)

Inductive fragment :=
| Step (a : action)
| StationCountdown (name : string)
| StationCountedDown (name : string)
| StationInterrupted (name : string) (wait : StationWait.t)
| StationHolderEnd (name : string)
| StationLeave (name : string)
| GnbCountdown (name : string) (wait : GnbWait.t)
| GnbCountedDown (name : string) (wait : GnbWait.t)
| GnbInterrupted (name : string) (prioritization_period_time : Z)
    (wait : GnbWait.t)
| GnbHolderEnd (name : string)
| GnbSlaveEnd (name : string).

Definition run_fragment (gap : bool) (f : fragment) : Sim unit :=
  match f with
  | Step a => exec gap a
  | StationCountdown name => Station_wait_back_off_countdown name;; mret tt
  | StationCountedDown name => Station_wait_back_off_done name
  | StationInterrupted name wait =>
      Station_wait_back_off_interrupted name wait;; mret tt
  | StationHolderEnd name => Station_send_frame_holder_end name;; mret tt
  | StationLeave name => Station_send_frame_leave name
  | GnbCountdown name wait => Gnb_wait_back_off_gap_countdown name wait;; mret tt
  | GnbCountedDown name wait => Gnb_wait_back_off_gap_done name wait;; mret tt
  | GnbInterrupted name prioritization_period_time wait =>
      Gnb_wait_back_off_gap_interrupted name prioritization_period_time wait;;
      mret tt
  | GnbHolderEnd name => Gnb_send_transmission_holder_end gap name;; mret tt
  | GnbSlaveEnd name => Gnb_send_transmission_slave_end gap name;; mret tt
  end.

(** [run_simulation] up to the end of [environment.run], as a sequence of
    fragments; a schedule of actions is the case of [Step] only. *)
Definition run_simulation_fragments (gap : bool)
    (number_of_stations number_of_gnb : Z) (enable_dynamic_cw : bool)
    (fragments : list fragment) : Sim unit :=
  run_simulation_setup number_of_stations number_of_gnb enable_dynamic_cw;;
  for_each fragments (run_fragment gap).

(** ** What a run keeps true of its nodes *)

(** A station carries the name it is stored under and the window of the
    Wi-Fi config; it has no packet queued and no latency recorded; its frame
    lasts 5400 and, with a retry limit that is not negative, has been
    retransmitted at most [r_limit] times; its data airtime is 5400 for each
    of its successes, and it has an entry of control airtime. *)
Definition station_invariant (w : World) (name : string) (s : Station.t)
    : Prop :=
  Station.name s = name /\
  Station.cw_min s = Config.cw_min (config w) /\
  Station.cw_max s = Config.cw_max (config w) /\
  Station.packet_queue s = [] /\
  Station.total_latency s = 0 /\
  Station.packet_count s = 0 /\
  (forall frame, Station.frame_to_send s = Some frame ->
     Frame.frame_time frame = 5400 /\
     (0 <= Config.r_limit (config w) ->
      0 <= Frame.number_of_retransmissions frame <= Config.r_limit (config w))) /\
  Channel.airtime_data (channel w) !! name
  = Some (5400 * Station.succeeded_transmissions s) /\
  is_Some (Channel.airtime_control (channel w) !! name).

Definition stations_invariant (w : World) : Prop :=
  forall name s, stations w !! name = Some s -> station_invariant w name s.

(** A gNB carries the name it is stored under and the window of the NR-U
    config; its transmission lasts [mcot] ms, split into reservation signal
    and data, without reservation signal in gap mode; it has an entry in each
    of the two NR-U airtime dicts, the two add up to a multiple of [mcot] ms,
    and in gap mode the control airtime is 0. *)
Definition gnb_invariant (gap : bool) (w : World) (name : string) (s : Gnb.t)
    : Prop :=
  Gnb.name s = name /\
  Gnb.cw_min s = Config_NR.cw_min (config_nr w) /\
  Gnb.cw_max s = Config_NR.cw_max (config_nr w) /\
  (forall transmission, Gnb.transmission_to_send s = Some transmission ->
     Transmission_NR.transmission_time transmission
     = Config_NR.mcot (config_nr w) * 1000 /\
     Transmission_NR.airtime transmission + Transmission_NR.rs_time transmission
     = Config_NR.mcot (config_nr w) * 1000 /\
     (gap = true -> Transmission_NR.rs_time transmission = 0)) /\
  (exists data control,
     Channel.airtime_data_NR (channel w) !! name = Some data /\
     Channel.airtime_control_NR (channel w) !! name = Some control /\
     (Config_NR.mcot (config_nr w) * 1000 | data + control) /\
     (gap = true -> control = 0)).

Definition gnbs_invariant (gap : bool) (w : World) : Prop :=
  forall name s, gnbs w !! name = Some s -> gnb_invariant gap w name s.

(** What the Wi-Fi half of the invariant reads of a world, and what the
    NR-U half reads. *)
Definition wifi_view (w : World)
    : Config.t * gmap string Station.t * gmap string Z * gmap string Z :=
  (config w, stations w, Channel.airtime_data (channel w),
   Channel.airtime_control (channel w)).

Definition nru_view (w : World)
    : Config_NR.t * gmap string Gnb.t * gmap string Z * gmap string Z :=
  (config_nr w, gnbs w, Channel.airtime_data_NR (channel w),
   Channel.airtime_control_NR (channel w)).

(** The fields of the two configs that are no contention window. *)
Definition config_constants (cfg : Config.t) (cfg_nr : Config_NR.t)
    (w : World) : Prop :=
  Config.data_size (config w) = Config.data_size cfg /\
  Config.r_limit (config w) = Config.r_limit cfg /\
  Config.mcs (config w) = Config.mcs cfg /\
  Config_NR.deter_period (config_nr w) = Config_NR.deter_period cfg_nr /\
  Config_NR.observation_slot_duration (config_nr w)
  = Config_NR.observation_slot_duration cfg_nr /\
  Config_NR.synchronization_slot_duration (config_nr w)
  = Config_NR.synchronization_slot_duration cfg_nr /\
  Config_NR.max_sync_slot_desync (config_nr w)
  = Config_NR.max_sync_slot_desync cfg_nr /\
  Config_NR.min_sync_slot_desync (config_nr w)
  = Config_NR.min_sync_slot_desync cfg_nr /\
  Config_NR.M (config_nr w) = Config_NR.M cfg_nr /\
  Config_NR.mcot (config_nr w) = Config_NR.mcot cfg_nr.

(** ** Sample runs in fragments *)

Definition sample_fragments (enable_dynamic_cw : bool)
    (fragments : list fragment) : World :=
  after (run_simulation_fragments true 1 1 enable_dynamic_cw fragments)
        sample_start.

(** The station has drawn its backoff. *)
Definition station_waiting : list action :=
  [StationStartFrame "Station 1"; StationBackoff "Station 1"].

(** The station has sent one frame with success, and the controller has
    made a round. *)
Definition success_and_round : list fragment :=
  Step <$> (one_success ++ [ControllerRound]).

(** The gNB has sent alone, as holder of the lock, and the station has
    collided with it twice. *)
Definition nru_success_and_collisions : list fragment :=
  [Step (GnbSend "Gnb 1"); GnbHolderEnd "Gnb 1"]
  ++ (Step <$> collisions 2).

(** ** What a run keeps true of its channel *)

(** The four counters of the channel are not negative. *)
Definition counters_nonneg (w : World) : Prop :=
  0 <= Channel.failed_transmissions (channel w) /\
  0 <= Channel.succeeded_transmissions (channel w) /\
  0 <= Channel.failed_transmissions_NR (channel w) /\
  0 <= Channel.succeeded_transmissions_NR (channel w).

(** A name has its entries in the two airtime dicts of its technology. *)
Definition registered_station (name : string) (w : World) : Prop :=
  is_Some (Channel.airtime_data (channel w) !! name) /\
  is_Some (Channel.airtime_control (channel w) !! name).

Definition registered_gnb (name : string) (w : World) : Prop :=
  is_Some (Channel.airtime_data_NR (channel w) !! name) /\
  is_Some (Channel.airtime_control_NR (channel w) !! name).

(** The histogram [backoffs] has a row for each of the slot counts
    [0..cw_max], each with the column [n_of_stations], and no other row. *)
Definition histogram_rows (cw_max : Z) (w : World) : Prop :=
  forall b,
    (0 <= b <= cw_max ->
     exists row, Channel.backoffs (channel w) !! b = Some row /\
                 is_Some (row !! Channel.n_of_stations (channel w))) /\
    (~ 0 <= b <= cw_max -> Channel.backoffs (channel w) !! b = None).

(** Every node that [run_simulation] creates has its airtime entries. *)
Definition all_registered (number_of_stations number_of_gnb : Z) (w : World)
    : Prop :=
  (forall i, 1 <= i <= number_of_stations ->
     registered_station (station_name i) w) /\
  (forall i, 1 <= i <= number_of_gnb -> registered_gnb (gnb_name i) w).

(** [sum(f(node) for node in nodes.values())] *)
Definition nodes_total {A} (f : A -> Z) (nodes : gmap string A) : Z :=
  map_fold (fun _ node acc => f node + acc) 0 nodes.

(** Each counter of the channel is the sum of that counter over the nodes
    of its technology. *)
Definition counters_balance (w : World) : Prop :=
  Channel.failed_transmissions (channel w)
  = nodes_total Station.failed_transmissions (stations w) /\
  Channel.succeeded_transmissions (channel w)
  = nodes_total Station.succeeded_transmissions (stations w) /\
  Channel.failed_transmissions_NR (channel w)
  = nodes_total Gnb.failed_transmissions (gnbs w) /\
  Channel.succeeded_transmissions_NR (channel w)
  = nodes_total Gnb.succeeded_transmissions (gnbs w).

(** No node and no technology has counted a transmission. *)
Definition counters_zero (w : World) : Prop :=
  map_Forall (fun _ s => Station.failed_transmissions s = 0 /\
                         Station.succeeded_transmissions s = 0) (stations w) /\
  map_Forall (fun _ s => Gnb.failed_transmissions s = 0 /\
                         Gnb.succeeded_transmissions s = 0) (gnbs w) /\
  Channel.failed_transmissions (channel w) = 0 /\
  Channel.succeeded_transmissions (channel w) = 0 /\
  Channel.failed_transmissions_NR (channel w) = 0 /\
  Channel.succeeded_transmissions_NR (channel w) = 0.

(** ** The windows during a run *)

(** A window of a config: [cw_min] is in the range of the controller as it
    is declared, and the window is the one the run started with or one
    that the controller has set. *)
Definition window_in_force (initial current : Z * Z) : Prop :=
  7 <= current.1 <= 511 /\
  (current = initial \/ current.2 = Z.min (4 * current.1) 511).

Definition windows_bounded (cfg : Config.t) (cfg_nr : Config_NR.t)
    (w : World) : Prop :=
  controller_as_declared w /\
  window_in_force (Config.cw_min cfg, Config.cw_max cfg)
                  (config_window WiFi w) /\
  window_in_force (Config_NR.cw_min cfg_nr, Config_NR.cw_max cfg_nr)
                  (config_window NRU w).

(** * Proofs *)

(** ** Running the monad *)

Lemma bind_ok {S A B} (m : M S A) (f : A -> M S B) s a s' :
  m s = Ok a s' -> (m ≫= f) s = f a s'.
Proof. intros H. unfold mbind, M_bind. by rewrite H. Qed.

Lemma bind_raise {S A B} (m : M S A) (f : A -> M S B) s e :
  m s = Raise e -> (m ≫= f) s = Raise e.
Proof. intros H. unfold mbind, M_bind. by rewrite H. Qed.

Lemma bind_inv {S A B} (m : M S A) (f : A -> M S B) s b s'' :
  (m ≫= f) s = Ok b s'' -> exists a s', m s = Ok a s' /\ f a s' = Ok b s''.
Proof.
  unfold mbind, M_bind. destruct (m s) as [a s'|e]; [eauto | discriminate].
Qed.

Lemma station_ok name w self :
  stations w !! name = Some self -> station name w = Ok self w.
Proof. intros H. unfold station, mbind, M_bind, get. by rewrite H. Qed.

Lemma station_raise name w :
  stations w !! name = None -> station name w = Raise KeyError.
Proof. intros H. unfold station, mbind, M_bind, get. by rewrite H. Qed.

Lemma gnb_ok name w self :
  gnbs w !! name = Some self -> gnb name w = Ok self w.
Proof. intros H. unfold gnb, mbind, M_bind, get. by rewrite H. Qed.

Lemma gnb_raise name w :
  gnbs w !! name = None -> gnb name w = Raise KeyError.
Proof. intros H. unfold gnb, mbind, M_bind, get. by rewrite H. Qed.

Lemma the_controller_ok w c :
  controller w = Some c -> the_controller w = Ok c w.
Proof. intros H. unfold the_controller, mbind, M_bind, get. by rewrite H. Qed.

Lemma update_station_ok name f w self :
  stations w !! name = Some self ->
  update_station name f w
  = Ok tt (set_stations (<[name := f self]> (stations w)) w).
Proof.
  intros H. unfold update_station.
  by rewrite (bind_ok _ _ _ _ _ (station_ok _ _ _ H)).
Qed.

Lemma update_gnb_ok name f w self :
  gnbs w !! name = Some self ->
  update_gnb name f w = Ok tt (set_gnbs (<[name := f self]> (gnbs w)) w).
Proof.
  intros H. unfold update_gnb.
  by rewrite (bind_ok _ _ _ _ _ (gnb_ok _ _ _ H)).
Qed.

Lemma update_controller_ok f w c :
  controller w = Some c ->
  update_controller f w = Ok tt (set_controller (Some (f c)) w).
Proof.
  intros H. unfold update_controller.
  by rewrite (bind_ok _ _ _ _ _ (the_controller_ok _ _ H)).
Qed.

Ltac world_simpl :=
  cbn [now rng rng_pos times config config_nr channel stations gnbs controller
       set_now set_rng_pos set_config set_config_nr set_channel set_stations
       set_gnbs set_controller] in *.

Ltac lookup_now :=
  world_simpl; first [eassumption | apply lookup_insert_eq].

Ltac sim_ok :=
  first
    [ apply station_ok; lookup_now
    | apply gnb_ok; lookup_now
    | apply the_controller_ok; lookup_now
    | apply update_station_ok; lookup_now
    | apply update_gnb_ok; lookup_now
    | apply update_controller_ok; lookup_now
    | reflexivity ].

Ltac sim_step :=
  erewrite bind_ok by sim_ok; world_simpl; rewrite ?insert_insert_eq.
Ltac sim_run := repeat sim_step.

(** ** The two outcomes of an attempt *)

Lemma Station_generate_new_frame_spec name w self :
  stations w !! name = Some self ->
  Station_generate_new_frame name w
  = Ok (Frame.mk 5400 (Station.name self) (Config.data_size (config w))
                 (now w) 0 None None 1472) w.
Proof. intros H. unfold Station_generate_new_frame. by sim_run. Qed.

Lemma Station_sent_failed_spec name w self frame :
  stations w !! name = Some self ->
  Station.frame_to_send self = Some frame ->
  let count := Frame.number_of_retransmissions frame + 1 in
  exists self',
    Station_sent_failed name w
    = Ok tt (set_stations (<[name := self']> (stations w))
               (set_channel
                  (Channel.set_failed_transmissions
                     (Channel.failed_transmissions (channel w) + 1)
                     (channel w)) w)) /\
    Station.name self' = Station.name self /\
    Station.failed_transmissions self' = Station.failed_transmissions self + 1 /\
    Station.failed_transmissions_in_row self' =
      (if count >? Config.r_limit (config w) then 0
       else Station.failed_transmissions_in_row self + 1) /\
    Station.frame_to_send self' =
      Some (if count >? Config.r_limit (config w)
            then Frame.mk 5400 (Station.name self)
                          (Config.data_size (config w)) (now w) 0 None None 1472
            else Frame.set_number_of_retransmissions count frame).
Proof.
  intros H Hf count. unfold Station_sent_failed.
  sim_step. rewrite Hf. sim_run.
  cbn [Frame.number_of_retransmissions Frame.set_number_of_retransmissions].
  fold count. destruct (count >? _) eqn:Hc.
  - erewrite bind_ok by (apply Station_generate_new_frame_spec; lookup_now).
    cbn [Station.name Station.set_failed_transmissions_in_row
         Station.set_failed_transmissions Station.set_frame_to_send].
    world_simpl. sim_run.
    erewrite update_station_ok by lookup_now. world_simpl.
    rewrite insert_insert_eq. eexists. split; [reflexivity|]. by cbn.
  - eexists. split; [reflexivity|]. by cbn.
Qed.

Lemma Station_sent_completed_spec name w self frame :
  stations w !! name = Some self ->
  Station.frame_to_send self = Some frame ->
  is_Some (Channel.airtime_data (channel w) !! Station.name self) ->
  exists w' self',
    Station_sent_completed name w = Ok true w' /\
    stations w' = <[name := self']> (stations w) /\
    gnbs w' = gnbs w /\
    Station.succeeded_transmissions self'
      = Station.succeeded_transmissions self + 1 /\
    Station.failed_transmissions_in_row self' = 0 /\
    Channel.succeeded_transmissions (channel w')
      = Channel.succeeded_transmissions (channel w) + 1.
Proof.
  intros H Hf [old Hold]. unfold Station_sent_completed.
  sim_step. sim_step. rewrite Hf. sim_run.
  cbn [Channel.airtime_data Channel.set_bytes_sent
       Channel.set_succeeded_transmissions].
  unfold dict_add. rewrite Hold. cbn [mbind option_bind]. sim_run.
  destruct (Station.packet_queue self) as [|packet rest].
  - do 2 eexists. split; [reflexivity|]. world_simpl.
    split; [reflexivity|]. by cbn.
  - sim_run. do 2 eexists. split; [reflexivity|]. world_simpl.
    split; [reflexivity|]. by cbn.
Qed.

Lemma Gnb_sent_failed_spec name w self transmission :
  gnbs w !! name = Some self ->
  Gnb.transmission_to_send self = Some transmission ->
  let count := Transmission_NR.number_of_retransmissions transmission + 1 in
  exists self',
    Gnb_sent_failed name w
    = Ok tt (set_gnbs (<[name := self']> (gnbs w))
               (set_channel
                  (Channel.set_failed_transmissions_NR
                     (Channel.failed_transmissions_NR (channel w) + 1)
                     (channel w)) w)) /\
    Gnb.failed_transmissions self' = Gnb.failed_transmissions self + 1 /\
    Gnb.failed_transmissions_in_row self' =
      (if count >? 7 then 0 else Gnb.failed_transmissions_in_row self + 1) /\
    Gnb.transmission_to_send self' =
      Some (Transmission_NR.set_number_of_retransmissions count transmission).
Proof.
  intros H Ht count. unfold Gnb_sent_failed.
  sim_step. rewrite Ht. sim_run.
  cbn [Transmission_NR.number_of_retransmissions
       Transmission_NR.set_number_of_retransmissions].
  fold count. destruct (count >? 7) eqn:Hc.
  - erewrite update_gnb_ok by lookup_now. world_simpl.
    rewrite insert_insert_eq. eexists. split; [reflexivity|]. by cbn.
  - eexists. split; [reflexivity|]. by cbn.
Qed.

Lemma Gnb_sent_completed_spec name w self transmission :
  gnbs w !! name = Some self ->
  Gnb.transmission_to_send self = Some transmission ->
  exists w' self',
    Gnb_sent_completed name w = Ok true w' /\
    gnbs w' = <[name := self']> (gnbs w) /\
    stations w' = stations w /\
    Gnb.succeeded_transmissions self' = Gnb.succeeded_transmissions self + 1 /\
    Gnb.failed_transmissions_in_row self' = 0 /\
    Channel.succeeded_transmissions_NR (channel w')
      = Channel.succeeded_transmissions_NR (channel w) + 1.
Proof.
  intros H Ht. unfold Gnb_sent_completed.
  sim_step. sim_step. rewrite Ht. sim_run.
  do 2 eexists. split; [reflexivity|]. world_simpl.
  split; [reflexivity|]. by cbn.
Qed.

Lemma collided_true w :
  on_air w > 1 \/ on_air w = 0 ->
  (len (Channel.tx_list (channel w)) + len (Channel.tx_list_NR (channel w)) >? 1)
  || (len (Channel.tx_list (channel w)) + len (Channel.tx_list_NR (channel w)) =? 0)
  = true.
Proof. unfold on_air. intros [H|H]; apply orb_true_iff; [left|right]; lia. Qed.

Lemma collided_false w :
  on_air w = 1 ->
  (len (Channel.tx_list (channel w)) + len (Channel.tx_list_NR (channel w)) >? 1)
  || (len (Channel.tx_list (channel w)) + len (Channel.tx_list_NR (channel w)) =? 0)
  = false.
Proof. unfold on_air. intros H. apply orb_false_iff. lia. Qed.

Lemma Station_check_collision_unfold name w :
  Station_check_collision name w =
  if (on_air w >? 1) || (on_air w =? 0)
  then (Station_sent_failed name ≫= fun _ => mret false) w
  else (Station_sent_completed name ≫= fun _ => mret true) w.
Proof.
  unfold Station_check_collision, on_air.
  erewrite bind_ok by reflexivity. by destruct (_ || _).
Qed.

Lemma Gnb_check_collision_unfold gap name w :
  Gnb_check_collision gap name w =
  if (on_air w >? 1) || (on_air w =? 0)
  then (Gnb_sent_failed name ≫= fun _ => mret false) w
  else (Gnb_sent_completed name ≫= fun _ => mret true) w.
Proof.
  unfold Gnb_check_collision, on_air.
  erewrite bind_ok by reflexivity. destruct gap; by destruct (_ || _).
Qed.

(** C1. A node at the end of its frame: if the two transmit lists hold
    more than one node, or none, [check_collision] makes the [sent_failed]
    call, which raises the channel's and the node's count of failed
    transmissions by one, and returns [False]; if they hold exactly one
    node, it makes the [sent_completed] call, which raises the two counts
    of succeeded transmissions by one, and returns [True]. *)
Theorem check_collision_outcome (gap : bool) (n : node) (w : World) :
  at_end_of_frame n w ->
  (on_air w > 1 \/ on_air w = 0 ->
   exists w' f,
     check_collision gap n w = Ok false w' /\
     sent_failed n w = Ok tt w' /\
     failures n w = Some f /\
     failures n w' = Some (f.1 + 1, f.2 + 1))
  /\
  (on_air w = 1 ->
   exists w' s,
     check_collision gap n w = Ok true w' /\
     sent_completed n w = Ok true w' /\
     successes n w = Some s /\
     successes n w' = Some (s.1 + 1, s.2 + 1)).
Proof.
  destruct n as [name|name]; cbn [at_end_of_frame check_collision sent_failed
    sent_completed failures successes].
  - intros (self & frame & Hs & Hf & Ha). split; intros Hn.
    + destruct (Station_sent_failed_spec _ _ _ _ Hs Hf) as (self' & Hr & _ & Hc & _).
      rewrite Station_check_collision_unfold.
      unfold on_air. rewrite (collided_true _ Hn).
      rewrite (bind_ok _ _ _ _ _ Hr). do 2 eexists.
      split; [reflexivity|]. split; [exact Hr|]. rewrite Hs. world_simpl.
      rewrite lookup_insert_eq. cbn. split; [reflexivity|]. by rewrite Hc.
    + destruct (Station_sent_completed_spec _ _ _ _ Hs Hf Ha)
        as (w' & self' & Hr & Hst & _ & Hc & _ & Hch).
      rewrite Station_check_collision_unfold.
      unfold on_air. rewrite (collided_false _ Hn).
      rewrite (bind_ok _ _ _ _ _ Hr). do 2 eexists.
      split; [reflexivity|]. split; [exact Hr|]. rewrite Hs, Hst.
      rewrite lookup_insert_eq. cbn. split; [reflexivity|]. by rewrite Hc, Hch.
  - intros (self & tr & Hs & Hf). split; intros Hn.
    + destruct (Gnb_sent_failed_spec _ _ _ _ Hs Hf) as (self' & Hr & Hc & _).
      rewrite Gnb_check_collision_unfold.
      unfold on_air. rewrite (collided_true _ Hn).
      rewrite (bind_ok _ _ _ _ _ Hr). do 2 eexists.
      split; [reflexivity|]. split; [exact Hr|]. rewrite Hs. world_simpl.
      rewrite lookup_insert_eq. cbn. split; [reflexivity|]. by rewrite Hc.
    + destruct (Gnb_sent_completed_spec _ _ _ _ Hs Hf)
        as (w' & self' & Hr & Hst & _ & Hc & _ & Hch).
      rewrite Gnb_check_collision_unfold.
      unfold on_air. rewrite (collided_false _ Hn).
      rewrite (bind_ok _ _ _ _ _ Hr). do 2 eexists.
      split; [reflexivity|]. split; [exact Hr|]. rewrite Hs, Hst.
      rewrite lookup_insert_eq. cbn. split; [reflexivity|]. by rewrite Hc, Hch.
Qed.

(** C9. [Gnb.check_collision] does not depend on the flag [gap]: its two
    arms are the same function of the world; each makes the [sent_failed]
    call and returns [False] when the transmit lists hold more than one
    node or none, and makes the [sent_completed] call and returns [True]
    otherwise. *)
Theorem Gnb_check_collision_gap_independent (name : string) (w : World) :
  Gnb_check_collision true name w = Gnb_check_collision false name w /\
  forall gap,
    Gnb_check_collision gap name w =
    if (on_air w >? 1) || (on_air w =? 0)
    then (Gnb_sent_failed name ≫= fun _ => mret false) w
    else (Gnb_sent_completed name ≫= fun _ => mret true) w.
Proof.
  split; [|intros gap; apply Gnb_check_collision_unfold].
  by rewrite !Gnb_check_collision_unfold.
Qed.

(** ** The retransmission limit of NR-U *)

Lemma Gnb_gen_new_transmission_spec (gap : bool) name w self :
  gnbs w !! name = Some self ->
  let rs_time := if gap then 0 else Gnb.next_sync_slot_boundry self - now w in
  Gnb_gen_new_transmission gap name w
  = Ok (Transmission_NR.mk (Config_NR.mcot (config_nr w) * 1000) (Gnb.name self)
          (now w) (Config_NR.mcot (config_nr w) * 1000 - rs_time) rs_time
          0 None None false 1472) w.
Proof. intros H. unfold Gnb_gen_new_transmission. by sim_run. Qed.

Lemma Gnb_send_transmission_begin_spec gap name w self :
  gnbs w !! name = Some self ->
  exists self' transmission,
    Gnb_send_transmission_begin gap name w
    = Ok tt (set_gnbs (<[name := self']> (gnbs w))
               (set_channel
                  (Channel.set_tx_list_NR
                     (Channel.tx_list_NR (channel w) ++ [name]) (channel w))
                  w)) /\
    Gnb.transmission_to_send self' = Some transmission /\
    Transmission_NR.number_of_retransmissions transmission = 0 /\
    Gnb.failed_transmissions_in_row self' = Gnb.failed_transmissions_in_row self.
Proof.
  intros H. unfold Gnb_send_transmission_begin. sim_run.
  erewrite bind_ok by (apply Gnb_gen_new_transmission_spec; lookup_now).
  erewrite update_gnb_ok by lookup_now. world_simpl. rewrite insert_insert_eq.
  do 2 eexists. split; [reflexivity|]. by cbn.
Qed.

(** Whatever a gNB has been through, the collision that ends an attempt
    finds the retransmission count of a transmission built for this very
    attempt: the count becomes 1, and the test against 7 fails. *)
Lemma Gnb_attempt_failed gap name w self :
  gnbs w !! name = Some self ->
  exists w' self' transmission,
    (Gnb_send_transmission_begin gap name ≫= fun _ => Gnb_sent_failed name) w
    = Ok tt w' /\
    gnbs w' !! name = Some self' /\
    Gnb.transmission_to_send self' = Some transmission /\
    Transmission_NR.number_of_retransmissions transmission = 1 /\
    Gnb.failed_transmissions_in_row self'
    = Gnb.failed_transmissions_in_row self + 1.
Proof.
  intros H.
  destruct (Gnb_send_transmission_begin_spec gap _ _ _ H)
    as (self1 & tr & Hb & Htr & Hcount & Hrow).
  rewrite (bind_ok _ _ _ _ _ Hb).
  match goal with
  | |- context [Gnb_sent_failed name ?w1] =>
      destruct (Gnb_sent_failed_spec name w1 self1 tr)
        as (self2 & Hf & _ & Hrow2 & Htr2);
        [world_simpl; apply lookup_insert_eq | exact Htr |]
  end.
  rewrite Hf. world_simpl. do 3 eexists. split; [reflexivity|].
  world_simpl. rewrite insert_insert_eq, lookup_insert_eq.
  split; [reflexivity|]. split; [exact Htr2|].
  rewrite Hrow2, Hcount, Hrow. by cbn.
Qed.


(** ** The backoff draw *)

Lemma randint_ok a b w :
  a <= b ->
  randint a b w
  = Ok (a + rng w (rng_pos w) `mod` (b - a + 1)) (set_rng_pos (S (rng_pos w)) w).
Proof.
  intros H. unfold randint. destruct (b <? a) eqn:E; [lia|].
  by sim_run.
Qed.

Lemma randint_raise a b w : b < a -> randint a b w = Raise ValueError.
Proof. intros H. unfold randint. destruct (b <? a) eqn:E; [done | lia]. Qed.

Lemma randint_range a b w :
  a <= b -> a <= a + rng w (rng_pos w) `mod` (b - a + 1) <= b.
Proof.
  intros H. pose proof (Z.mod_pos_bound (rng w (rng_pos w)) (b - a + 1)). lia.
Qed.

Lemma upper_limit_min (x cw_max : Z) :
  (if x <=? cw_max then x else cw_max) = Z.min x cw_max.
Proof. destruct (x <=? cw_max) eqn:E; lia. Qed.

(** What the draw does, case by case. *)
Lemma generate_new_back_off_time_cases (n : node) (k : Z) (w : World)
    (cw_min cw_max : Z) :
  contention_window n w = Some (cw_min, cw_max) ->
  let U := Z.min (2 ^ k * (cw_min + 1) - 1) cw_max in
  let b := rng w (rng_pos w) `mod` (U + 1) in
  let nst := Channel.n_of_stations (channel w) in
  generate_new_back_off_time n k w =
  if U <? 0 then Raise ValueError
  else
    match Channel.backoffs (channel w) !! b with
    | None => Raise KeyError
    | Some row =>
        match row !! nst with
        | None => Raise KeyError
        | Some count =>
            Ok (b * slot_unit n w)
              (set_channel
                 (Channel.set_backoffs
                    (<[b := <[nst := count + 1]> row]>
                       (Channel.backoffs (channel w))) (channel w))
                 (set_rng_pos (S (rng_pos w)) w))
        end
    end.
Proof.
  intros Hcw U b nst.
  destruct n as [name|name]; cbn [contention_window generate_new_back_off_time
    slot_unit] in *.
  - destruct (stations w !! name) as [self|] eqn:Hs; [|discriminate].
    cbn in Hcw. injection Hcw as <- <-.
    unfold Station_generate_new_back_off_time. sim_step.
    rewrite upper_limit_min. fold U.
    destruct (U <? 0) eqn:EU.
    + by erewrite bind_raise by (apply randint_raise; lia).
    + erewrite bind_ok by (apply randint_ok; lia).
      rewrite Z.add_0_l, Z.sub_0_r. fold b. sim_step.
      destruct (Channel.backoffs (channel w) !! b) as [row|]; [|done].
      cbn [deref]. sim_step. unfold dict_add. fold nst.
      destruct (row !! nst) as [count|]; [|done].
      cbn [mbind option_bind deref]. by sim_run.
  - destruct (gnbs w !! name) as [self|] eqn:Hs; [|discriminate].
    cbn in Hcw. injection Hcw as <- <-.
    unfold Gnb_generate_new_back_off_time. sim_step.
    rewrite upper_limit_min. fold U.
    destruct (U <? 0) eqn:EU.
    + by erewrite bind_raise by (apply randint_raise; lia).
    + erewrite bind_ok by (apply randint_ok; lia).
      rewrite Z.add_0_l, Z.sub_0_r. fold b. sim_step.
      destruct (Channel.backoffs (channel w) !! b) as [row|]; [|done].
      cbn [deref]. sim_step. unfold dict_add. fold nst.
      destruct (row !! nst) as [count|]; [|done].
      cbn [mbind option_bind deref]. by sim_run.
Qed.

(** C2. A node with contention window [cw_min], [cw_max] draws a backoff
    after [k >= 0] failures in a row. Whenever
    [generate_new_back_off_time] returns, the slot count [b] it drew (the
    one the histogram has counted) satisfies
    [0 <= b <= min (2^k * (cw_min + 1) - 1) cw_max], and the value returned
    is [b] times the node's slot ([t_slot] for a station,
    [observation_slot_duration] for a gNB). It does return when that bound
    is not negative and the histogram has an entry for every slot count up
    to the bound. *)
Theorem generate_new_back_off_time_bounds (n : node) (k : Z) (w : World)
    (cw_min cw_max : Z) :
  contention_window n w = Some (cw_min, cw_max) ->
  0 <= k ->
  let U := Z.min (2 ^ k * (cw_min + 1) - 1) cw_max in
  (forall r w',
     generate_new_back_off_time n k w = Ok r w' ->
     exists b, 0 <= b <= U /\ r = b * slot_unit n w /\ counted_draw b w w')
  /\
  (0 <= U ->
   (forall b, 0 <= b <= U ->
      exists row, Channel.backoffs (channel w) !! b = Some row /\
                  is_Some (row !! Channel.n_of_stations (channel w))) ->
   exists r w', generate_new_back_off_time n k w = Ok r w').
Proof.
  intros Hcw Hk U.
  pose proof (generate_new_back_off_time_cases n k w _ _ Hcw) as Hc.
  cbv zeta in Hc. fold U in Hc.
  set (b := rng w (rng_pos w) `mod` (U + 1)) in *.
  split.
  - intros r w' Hr. rewrite Hc in Hr.
    destruct (U <? 0) eqn:EU; [discriminate|].
    assert (0 <= b <= U) as Hb.
    { pose proof (Z.mod_pos_bound (rng w (rng_pos w)) (U + 1)). lia. }
    destruct (Channel.backoffs (channel w) !! b) as [row|] eqn:Hrow;
      [|discriminate].
    destruct (row !! _) as [count|] eqn:Hcount; [|discriminate].
    injection Hr as <- <-. exists b. split; [exact Hb|]. split; [reflexivity|].
    exists row, count. by world_simpl.
  - intros HU Hhist. rewrite Hc.
    destruct (U <? 0) eqn:EU; [lia|].
    assert (0 <= b <= U) as Hb.
    { pose proof (Z.mod_pos_bound (rng w (rng_pos w)) (U + 1)). lia. }
    destruct (Hhist b Hb) as (row & -> & count & ->). eauto.
Qed.

(** ** Alignment to the synchronization slots *)

Lemma Gnb_advance_sync_slot_spec (name : string) (fuel : nat) :
  forall (w : World) (self : Gnb.t),
    gnbs w !! name = Some self ->
    0 < Config_NR.synchronization_slot_duration (config_nr w) ->
    (Z.to_nat (Gnb.back_off_time self - Gnb.time_to_next_sync_slot self + 1)
     <= fuel)%nat ->
    exists w' self',
      Gnb_advance_sync_slot fuel name w = Ok tt w' /\
      gnbs w' !! name = Some self' /\
      Gnb.back_off_time self' = Gnb.back_off_time self /\
      Gnb.back_off_time self' < Gnb.time_to_next_sync_slot self'.
Proof.
  induction fuel as [|fuel IH]; intros w self Hs Hsync Hfuel.
  - cbn [Gnb_advance_sync_slot]. sim_step.
    destruct (_ >=? _) eqn:E; [lia|].
    exists w, self. repeat split; [exact Hs | lia].
  - cbn [Gnb_advance_sync_slot]. sim_step.
    destruct (_ >=? _) eqn:E.
    + sim_run.
      match goal with
      | |- context [Gnb_advance_sync_slot fuel name ?w1] =>
          destruct (IH w1
            (Gnb.set_time_to_next_sync_slot
               (Gnb.time_to_next_sync_slot self
                + Config_NR.synchronization_slot_duration (config_nr w)) self))
            as (w' & self' & Hr & Hs' & Hb & Hlt)
      end.
      * world_simpl. apply lookup_insert_eq.
      * by world_simpl.
      * cbn [Gnb.back_off_time Gnb.time_to_next_sync_slot
             Gnb.set_time_to_next_sync_slot]. lia.
      * exists w', self'. split; [exact Hr|]. split; [exact Hs'|].
        split; [by rewrite Hb | exact Hlt].
    + exists w, self. repeat split; [exact Hs | lia].
Qed.

(** C5. Gap mode with [synchronization_slot_duration > 0] and
    [back_off_time >= 0]: the loop that moves [time_to_next_sync_slot]
    forward ends (from some number of iterations on, the embedding has
    enough of them), and then
    [gap_time = time_to_next_sync_slot - back_off_time >= 0]: the [assert]
    passes and [gap_time] is what the gNB waits for. *)
Theorem gap_time_nonnegative (name : string) (w : World) (self : Gnb.t) :
  gnbs w !! name = Some self ->
  0 < Config_NR.synchronization_slot_duration (config_nr w) ->
  0 <= Gnb.back_off_time self ->
  exists fuel0,
    forall fuel, (fuel0 <= fuel)%nat ->
      exists gap_time w' self',
        Gnb_wait_back_off_gap_align fuel name w = Ok gap_time w' /\
        gnbs w' !! name = Some self' /\
        Gnb.back_off_time self' = Gnb.back_off_time self /\
        gap_time = Gnb.time_to_next_sync_slot self' - Gnb.back_off_time self' /\
        0 <= gap_time.
Proof.
  intros Hs Hsync _.
  exists (Z.to_nat
            (Gnb.back_off_time self
             - (Gnb.next_sync_slot_boundry self - now w) + 1)).
  intros fuel Hfuel. unfold Gnb_wait_back_off_gap_align. sim_run.
  match goal with
  | |- context [(Gnb_advance_sync_slot fuel name ≫= _) ?w1] =>
      destruct (Gnb_advance_sync_slot_spec name fuel w1
        (Gnb.set_time_to_next_sync_slot
           (Gnb.next_sync_slot_boundry self - now w) self))
        as (w' & self' & Hr & Hs' & Hb & Hlt)
  end.
  - world_simpl. apply lookup_insert_eq.
  - by world_simpl.
  - exact Hfuel.
  - rewrite (bind_ok _ _ _ _ _ Hr). sim_step.
    destruct (_ >=? 0) eqn:E; [|lia].
    do 3 eexists. split; [reflexivity|]. split; [exact Hs'|].
    split; [by rewrite Hb|]. split; [reflexivity | lia].
Qed.

(** ** The contention-window controller *)

Lemma increase_wifi_cw_spec w c :
  controller w = Some c ->
  let cw_min :=
    Z.min (Config.cw_min (config w) + DynamicCWController.adjustment_step c)
          (DynamicCWController.max_cw c) in
  let cw_max := Z.min (cw_min * 4) (DynamicCWController.max_cw c) in
  DynamicCWController_increase_wifi_cw w
  = Ok tt (set_stations (Station.set_cw cw_min cw_max <$> stations w)
             (set_config
                (Config.set_cw_max cw_max (Config.set_cw_min cw_min (config w)))
                w)).
Proof. intros H. unfold DynamicCWController_increase_wifi_cw. by sim_run. Qed.

Lemma decrease_wifi_cw_spec w c :
  controller w = Some c ->
  let cw_min :=
    Z.max (Config.cw_min (config w) - DynamicCWController.adjustment_step c)
          (DynamicCWController.min_cw c) in
  let cw_max := Z.min (cw_min * 4) (DynamicCWController.max_cw c) in
  DynamicCWController_decrease_wifi_cw w
  = Ok tt (set_stations (Station.set_cw cw_min cw_max <$> stations w)
             (set_config
                (Config.set_cw_max cw_max (Config.set_cw_min cw_min (config w)))
                w)).
Proof. intros H. unfold DynamicCWController_decrease_wifi_cw. by sim_run. Qed.

Lemma increase_nru_cw_spec w c :
  controller w = Some c ->
  let cw_min :=
    Z.min (Config_NR.cw_min (config_nr w)
           + DynamicCWController.adjustment_step c)
          (DynamicCWController.max_cw c) in
  let cw_max := Z.min (cw_min * 4) (DynamicCWController.max_cw c) in
  DynamicCWController_increase_nru_cw w
  = Ok tt (set_gnbs (Gnb.set_cw cw_min cw_max <$> gnbs w)
             (set_config_nr
                (Config_NR.set_cw_max cw_max
                   (Config_NR.set_cw_min cw_min (config_nr w)))
                w)).
Proof. intros H. unfold DynamicCWController_increase_nru_cw. by sim_run. Qed.

Lemma decrease_nru_cw_spec w c :
  controller w = Some c ->
  let cw_min :=
    Z.max (Config_NR.cw_min (config_nr w)
           - DynamicCWController.adjustment_step c)
          (DynamicCWController.min_cw c) in
  let cw_max := Z.min (cw_min * 4) (DynamicCWController.max_cw c) in
  DynamicCWController_decrease_nru_cw w
  = Ok tt (set_gnbs (Gnb.set_cw cw_min cw_max <$> gnbs w)
             (set_config_nr
                (Config_NR.set_cw_max cw_max
                   (Config_NR.set_cw_min cw_min (config_nr w)))
                w)).
Proof. intros H. unfold DynamicCWController_decrease_nru_cw. by sim_run. Qed.

Lemma node_windows_set_cw_wifi (a b : Z) (m : gmap string Station.t)
    (name : string) (win : Z * Z) :
  ((fun s => (Station.cw_min s, Station.cw_max s))
     <$> (Station.set_cw a b <$> m)) !! name = Some win ->
  win = (a, b).
Proof.
  rewrite !lookup_fmap. destruct (m !! name); cbn; [|discriminate].
  by intros [= <-].
Qed.

Lemma node_windows_set_cw_nru (a b : Z) (m : gmap string Gnb.t)
    (name : string) (win : Z * Z) :
  ((fun s => (Gnb.cw_min s, Gnb.cw_max s))
     <$> (Gnb.set_cw a b <$> m)) !! name = Some win ->
  win = (a, b).
Proof.
  rewrite !lookup_fmap. destruct (m !! name); cbn; [|discriminate].
  by intros [= <-].
Qed.

(** C10. Each of the four operations of a controller whose
    [adjustment_step] is not negative (it is declared as 5), started with
    the config's [cw_min] in [[min_cw, max_cw]]: the operation goes through,
    the config's [cw_min] is still in [[min_cw, max_cw]], its [cw_max] is
    [min (4 * cw_min) max_cw], every node of the technology has the
    config's [cw_min] and [cw_max], and the nodes are the same as before. *)
Theorem cw_operation_invariant (op : cw_operation) (w : World)
    (c : DynamicCWController.t) :
  controller w = Some c ->
  0 <= DynamicCWController.adjustment_step c ->
  DynamicCWController.min_cw c <= (config_window (adjusted op) w).1
    <= DynamicCWController.max_cw c ->
  exists w',
    DynamicCWController_operation op w = Ok tt w' /\
    DynamicCWController.min_cw c <= (config_window (adjusted op) w').1
      <= DynamicCWController.max_cw c /\
    (config_window (adjusted op) w').2
    = Z.min (4 * (config_window (adjusted op) w').1)
            (DynamicCWController.max_cw c) /\
    (forall name win,
       node_windows (adjusted op) w' !! name = Some win ->
       win = config_window (adjusted op) w') /\
    dom (node_windows (adjusted op) w') = dom (node_windows (adjusted op) w).
Proof.
  intros Hc Hstep Hin.
  destruct op; cbn [adjusted config_window fst snd node_windows
    DynamicCWController_operation] in *;
    [ rewrite (increase_wifi_cw_spec _ _ Hc)
    | rewrite (decrease_wifi_cw_spec _ _ Hc)
    | rewrite (increase_nru_cw_spec _ _ Hc)
    | rewrite (decrease_nru_cw_spec _ _ Hc) ];
    (eexists; split; [reflexivity|]); world_simpl;
    cbn [Config.cw_min Config.cw_max Config.set_cw_min Config.set_cw_max
         Config_NR.cw_min Config_NR.cw_max Config_NR.set_cw_min
         Config_NR.set_cw_max];
    (split; [lia|]); (split; [lia|]);
    (split; [intros name win;
             first [apply node_windows_set_cw_wifi
                   | apply node_windows_set_cw_nru]
            | by rewrite !dom_fmap_L]).
Qed.

Lemma exceeds_by_tenth_iff (a b : Z) :
  exceeds_by_tenth a b = true <-> (inject_Z b * (11 # 10) < inject_Z a)%Q.
Proof.
  unfold exceeds_by_tenth, Qltb. rewrite negb_true_iff.
  split.
  - intros H. apply Qnot_le_lt. intros Hle.
    apply Qle_bool_iff in Hle. congruence.
  - intros H. destruct (Qle_bool _ _) eqn:E; [|done].
    apply Qle_bool_iff in E. by apply Qlt_not_le in H.
Qed.

(** The arm of [_adjust_contention_windows] taken when Wi-Fi dominates. *)
Lemma adjust_when_wifi_dominates w c :
  controller w = Some c ->
  let cw_min :=
    Z.min (Config.cw_min (config w) + DynamicCWController.adjustment_step c)
          (DynamicCWController.max_cw c) in
  let cw_max := Z.min (cw_min * 4) (DynamicCWController.max_cw c) in
  exists w1,
    (DynamicCWController_increase_wifi_cw ≫= fun _ =>
       get ≫= fun w0 =>
         if Config_NR.cw_min (config_nr w0) >? DynamicCWController.min_cw c
         then DynamicCWController_decrease_nru_cw else mret tt) w
    = Ok tt w1 /\
    config w1 = Config.set_cw_max cw_max (Config.set_cw_min cw_min (config w)) /\
    stations w1 = (Station.set_cw cw_min cw_max <$> stations w) /\
    controller w1 = Some c.
Proof.
  intros Hc cw_min cw_max.
  rewrite (bind_ok _ _ _ _ _ (increase_wifi_cw_spec _ _ Hc)).
  sim_step. destruct (_ >? _).
  - erewrite decrease_nru_cw_spec by (world_simpl; exact Hc).
    eexists. split; [reflexivity|]. by world_simpl.
  - eexists. split; [reflexivity|]. by world_simpl.
Qed.

(** C4. A controller with a positive [adjustment_step] (it is declared as
    5) and [wifi_config.cw_min <= max_cw] is asked to adjust, the measured
    fairness being below [target_fairness] and the Wi-Fi airtime exceeding
    1.1 times the NR-U airtime. The adjustment goes through and sets
    [wifi_config.cw_min] to [min (cw_min + adjustment_step) max_cw], which
    is greater than before when [cw_min < max_cw] and is [max_cw] when
    [cw_min = max_cw]; it sets [wifi_config.cw_max] to
    [min (4 * new cw_min) max_cw], and every station gets the two values. *)
Theorem adjust_increases_wifi_cw (w : World) (c : DynamicCWController.t)
    (wifi_airtime nru_airtime : Z) (fairness : Q) :
  controller w = Some c ->
  0 < DynamicCWController.adjustment_step c ->
  (fairness < DynamicCWController.target_fairness c)%Q ->
  (inject_Z nru_airtime * (11 # 10) < inject_Z wifi_airtime)%Q ->
  Config.cw_min (config w) <= DynamicCWController.max_cw c ->
  exists w',
    DynamicCWController_adjust_contention_windows
      wifi_airtime nru_airtime fairness w = Ok tt w' /\
    Config.cw_min (config w')
    = Z.min (Config.cw_min (config w) + DynamicCWController.adjustment_step c)
            (DynamicCWController.max_cw c) /\
    Config.cw_max (config w')
    = Z.min (4 * Config.cw_min (config w')) (DynamicCWController.max_cw c) /\
    (Config.cw_min (config w) < DynamicCWController.max_cw c ->
     Config.cw_min (config w) < Config.cw_min (config w')) /\
    (Config.cw_min (config w) = DynamicCWController.max_cw c ->
     Config.cw_min (config w') = DynamicCWController.max_cw c) /\
    (forall name win,
       node_windows WiFi w' !! name = Some win -> win = config_window WiFi w').
Proof.
  intros Hc Hstep _ Hdom Hle.
  apply exceeds_by_tenth_iff in Hdom.
  destruct (adjust_when_wifi_dominates _ _ Hc) as (w1 & Hr & Hcfg & Hst & Hc1).
  unfold DynamicCWController_adjust_contention_windows.
  sim_step. rewrite Hdom. cbv iota.
  rewrite (bind_ok _ _ _ _ _ Hr).
  sim_step. erewrite update_controller_ok by exact Hc1.
  eexists. split; [reflexivity|]. world_simpl. rewrite Hcfg.
  cbn [Config.cw_min Config.cw_max Config.set_cw_min Config.set_cw_max].
  repeat split; try lia.
  intros name win. cbn [node_windows config_window]. world_simpl.
  rewrite Hst, Hcfg.
  cbn [Config.cw_min Config.cw_max Config.set_cw_min Config.set_cw_max].
  apply node_windows_set_cw_wifi.
Qed.

(** ** What a technology without nodes leaves untouched *)

Lemma preserves_ret {A} P (a : A) : preserves P (mret a).
Proof.
  intros w a' w' HP Hr. assert (w' = w) as -> by (cbv in Hr; congruence).
  exact HP.
Qed.

Lemma preserves_raise {A} P e : preserves P (raise e : Sim A).
Proof. intros w a w' _ Hr. inversion Hr. Qed.

Lemma preserves_get P : preserves P get.
Proof.
  intros w a w' HP Hr. assert (w' = w) as -> by (cbv in Hr; congruence).
  exact HP.
Qed.

Lemma preserves_deref {A} P e (o : option A) : preserves P (deref e o).
Proof. destruct o; [apply preserves_ret | apply preserves_raise]. Qed.

Lemma preserves_bind {A B} P (m : Sim A) (f : A -> Sim B) :
  preserves P m -> (forall a, preserves P (f a)) -> preserves P (m ≫= f).
Proof.
  intros Hm Hf w b w'' HP Hr.
  apply bind_inv in Hr as (a & w' & Hr1 & Hr2).
  eapply Hf; [|exact Hr2]. eapply Hm; [exact HP | exact Hr1].
Qed.

Lemma preserves_modify P (f : World -> World) :
  (forall w, P w -> P (f w)) -> preserves P (modify f).
Proof.
  intros Hf w a w' HP Hr. unfold modify in Hr.
  assert (w' = f w) as -> by congruence. by apply Hf.
Qed.

Lemma preserves_for_each {A} P (l : list A) (body : A -> Sim unit) :
  (forall x, preserves P (body x)) -> preserves P (for_each l body).
Proof.
  intros Hb. induction l as [|x l IH]; cbn [for_each].
  - apply preserves_ret.
  - apply preserves_bind; [apply Hb | intros _; exact IH].
Qed.

Lemma idle_wifi_station {A} name (k : Station.t -> Sim A) :
  preserves idle_wifi (station name ≫= k).
Proof.
  intros w a w' (Hs & _) Hr. apply bind_inv in Hr as (self & w1 & Hr & _).
  rewrite station_raise in Hr; [discriminate|]. by rewrite Hs, lookup_empty.
Qed.

Lemma idle_nru_gnb {A} name (k : Gnb.t -> Sim A) :
  preserves idle_nru (gnb name ≫= k).
Proof.
  intros w a w' (Hs & _) Hr. apply bind_inv in Hr as (self & w1 & Hr & _).
  rewrite gnb_raise in Hr; [discriminate|]. by rewrite Hs, lookup_empty.
Qed.

Ltac channel_simpl :=
  cbn [Channel.n_of_stations Channel.n_of_eNB Channel.backoffs
       Channel.airtime_data Channel.airtime_control Channel.airtime_data_NR
       Channel.airtime_control_NR Channel.tx_list Channel.back_off_list
       Channel.tx_list_NR Channel.back_off_list_NR
       Channel.failed_transmissions Channel.succeeded_transmissions
       Channel.bytes_sent Channel.failed_transmissions_NR
       Channel.succeeded_transmissions_NR
       Channel.set_backoffs Channel.set_airtime_data
       Channel.set_airtime_control Channel.set_airtime_data_NR
       Channel.set_airtime_control_NR Channel.set_tx_list
       Channel.set_tx_list_NR Channel.set_failed_transmissions
       Channel.set_succeeded_transmissions Channel.set_bytes_sent
       Channel.set_failed_transmissions_NR
       Channel.set_succeeded_transmissions_NR] in *.

(** A change of the world that leaves node stores empty and counters as
    they are. *)
Ltac idle_side_rng :=
  let w := fresh "w" in
  let n := fresh "n" in
  let H := fresh "H" in
  intros w n H; exact H.

Ltac idle_side :=
  let w := fresh "w" in
  let Hs := fresh "Hs" in
  let Hf := fresh "Hf" in
  let Hc := fresh "Hc" in
  intros w (Hs & Hf & Hc);
  unfold idle_wifi, idle_nru; world_simpl; channel_simpl;
  rewrite ?Hs, ?fmap_empty; done.

Lemma preserves_randint P a b :
  (forall w n, P w -> P (set_rng_pos n w)) -> preserves P (randint a b).
Proof.
  intros HP. unfold randint. destruct (b <? a); [apply preserves_raise|].
  intros w r w' Hw Hr. unfold mbind, M_bind, get, put, mret, M_ret in Hr.
  assert (w' = set_rng_pos (S (rng_pos w)) w) as -> by congruence.
  by apply HP.
Qed.

Lemma preserves_fold_for {A B} P (l : list A) (body : B -> A -> Sim B) acc :
  (forall acc x, preserves P (body acc x)) -> preserves P (fold_for l body acc).
Proof.
  intros Hb. revert acc. induction l as [|x l IH]; intros acc; cbn [fold_for].
  - apply preserves_ret.
  - apply preserves_bind; [apply Hb | intros acc'; apply IH].
Qed.

Ltac unfold_methods :=
  unfold Station_start_frame, Station_wait_back_off_begin,
    Station_send_frame_begin, Station_check_collision, Station_sent_failed,
    Station_sent_completed, Station_generate_new_frame,
    Station_generate_new_back_off_time, Station_send_frame_ack,
    clear_tx_lists, Gnb_sync_slot_counter_begin, Gnb_sync_slot_counter_round,
    Gnb_wait_back_off_gap_begin, Gnb_wait_back_off_gap_align,
    Gnb_send_transmission_begin, Gnb_check_collision, Gnb_sent_failed,
    Gnb_sent_completed, Gnb_gen_new_transmission,
    Gnb_generate_new_back_off_time, Gnb_send_transmission_account,
    DynamicCWController_monitor_and_adjust_round,
    DynamicCWController_adjust_contention_windows,
    DynamicCWController_increase_wifi_cw, DynamicCWController_decrease_wifi_cw,
    DynamicCWController_increase_nru_cw, DynamicCWController_decrease_nru_cw,
    Station_init, Gnb_init, collision_probabilities,
    channel_times,
    update_station, update_gnb, update_channel, update_config,
    update_config_nr.

(** [special] closes goals that need the invariant at hand, [side] shows
    that a change of the world keeps it. *)
Ltac pres_step special side :=
  first
    [ special
    | apply preserves_ret
    | apply preserves_raise
    | apply preserves_get
    | apply preserves_deref
    | apply preserves_modify; side
    | apply preserves_randint; side
    | apply preserves_bind; [|intros ?]
    | apply preserves_for_each; intros ?
    | apply preserves_fold_for; intros ? ?
    | match goal with
      | |- preserves _ (if ?b then _ else _) => destruct b
      | |- preserves _ (match ?x with _ => _ end) => destruct x
      | |- preserves _ ((match ?x with _ => _ end) _) => destruct x
      end
    | progress cbv zeta
    | progress unfold station, gnb, update_controller, the_controller ].

Ltac pres_with special side := unfold_methods; repeat pres_step special side.

Ltac idle_special := first [apply idle_wifi_station | apply idle_nru_gnb].
Ltac idle_any_side := first [idle_side | idle_side_rng].
Ltac pres := pres_with idle_special idle_any_side.

Section Idle.
Variable P : World -> Prop.
Hypothesis P_idle : P = idle_wifi \/ P = idle_nru.

Lemma idle_Gnb_advance_sync_slot fuel name :
  preserves P (Gnb_advance_sync_slot fuel name).
Proof.
  destruct P_idle as [-> | ->].
  - induction fuel; cbn [Gnb_advance_sync_slot]; pres. exact IHfuel.
  - induction fuel; cbn [Gnb_advance_sync_slot]; pres.
Qed.

Lemma idle_exec gap a : preserves P (exec gap a).
Proof.
  pose proof idle_Gnb_advance_sync_slot as Hloop.
  destruct P_idle as [-> | ->]; destruct a; cbn [exec]; pres;
    try apply Hloop.
Qed.

Lemma idle_schedule gap schedule : preserves P (for_each schedule (exec gap)).
Proof. apply preserves_for_each. intros a. apply idle_exec. Qed.
End Idle.

Lemma idle_wifi_setup number_of_gnb enable_dynamic_cw :
  preserves idle_wifi (run_simulation_setup 0 number_of_gnb enable_dynamic_cw).
Proof. unfold run_simulation_setup. change (range1 0) with (@nil Z). pres. Qed.

Lemma idle_nru_setup number_of_stations enable_dynamic_cw :
  preserves idle_nru
    (run_simulation_setup number_of_stations 0 enable_dynamic_cw).
Proof. unfold run_simulation_setup. change (range1 0) with (@nil Z). pres. Qed.

Lemma idle_new_world tape tm n_sta n_gnb cfg cfg_nr backoffs ad ac adn acn :
  let w := new_world tape tm n_sta n_gnb cfg cfg_nr backoffs ad ac adn acn in
  idle_wifi w /\ idle_nru w.
Proof. by cbv. Qed.

(** The two ratios as [run_simulation] computes them. *)
Lemma collision_probabilities_value number_of_stations number_of_gnb w :
  let c := channel w in
  collision_probabilities number_of_stations number_of_gnb w
  = Ok (if negb (number_of_stations =? 0)
        then p_coll_spec (Channel.failed_transmissions c)
                         (Channel.succeeded_transmissions c)
        else 0%Q,
        if negb (number_of_gnb =? 0)
        then p_coll_spec (Channel.failed_transmissions_NR c)
                         (Channel.succeeded_transmissions_NR c)
        else 0%Q) w.
Proof.
  intros c. unfold collision_probabilities, p_coll_spec, truediv. sim_step.
  fold c.
  destruct (number_of_stations =? 0), (number_of_gnb =? 0); cbn [negb];
    repeat (destruct (_ + _ =? 0); cbn [negb deref]); by sim_run.
Qed.

(** C8. At the end of any run of [run_simulation] that reaches the
    metrics, the collision probability of each technology is computed
    without an exception, and it is [failed / (failed + succeeded)] over
    that technology's transmissions when this denominator is not zero and 0
    when it is zero, which is the case of a technology without nodes. *)
Theorem collision_probabilities_as_specified
    (gap : bool) (number_of_stations number_of_gnb : Z)
    (enable_dynamic_cw : bool) (schedule : list action)
    (tape : nat -> Z) (tm : Times.t) (cfg : Config.t) (cfg_nr : Config_NR.t)
    (backoffs : gmap Z (gmap Z Z))
    (airtime_data airtime_control airtime_data_NR airtime_control_NR
       : gmap string Z) (w : World) :
  run_simulation_run gap number_of_stations number_of_gnb enable_dynamic_cw
    schedule
    (new_world tape tm number_of_stations number_of_gnb cfg cfg_nr backoffs
       airtime_data airtime_control airtime_data_NR airtime_control_NR)
  = Ok tt w ->
  let c := channel w in
  collision_probabilities number_of_stations number_of_gnb w
  = Ok (p_coll_spec (Channel.failed_transmissions c)
                    (Channel.succeeded_transmissions c),
        p_coll_spec (Channel.failed_transmissions_NR c)
                    (Channel.succeeded_transmissions_NR c)) w
  /\ (number_of_stations = 0 ->
      Channel.failed_transmissions c + Channel.succeeded_transmissions c = 0)
  /\ (number_of_gnb = 0 ->
      Channel.failed_transmissions_NR c + Channel.succeeded_transmissions_NR c
      = 0).
Proof.
  intros Hrun c. unfold run_simulation_run in Hrun.
  apply bind_inv in Hrun as ([] & w0 & Hsetup & Hsched).
  destruct (idle_new_world tape tm number_of_stations number_of_gnb cfg cfg_nr
              backoffs airtime_data airtime_control airtime_data_NR
              airtime_control_NR) as [Hw Hn].
  assert (number_of_stations = 0 -> idle_wifi w) as Hidle_w.
  { intros ->. eapply (idle_schedule idle_wifi); [by left | | exact Hsched].
    eapply idle_wifi_setup; [exact Hw | exact Hsetup]. }
  assert (number_of_gnb = 0 -> idle_nru w) as Hidle_n.
  { intros ->. eapply (idle_schedule idle_nru); [by right | | exact Hsched].
    eapply idle_nru_setup; [exact Hn | exact Hsetup]. }
  rewrite collision_probabilities_value. fold c.
  assert (number_of_stations = 0 ->
          Channel.failed_transmissions c + Channel.succeeded_transmissions c = 0)
    as Hzw.
  { intros H0. destruct (Hidle_w H0) as (_ & Hf & Hs). subst c. lia. }
  assert (number_of_gnb = 0 ->
          Channel.failed_transmissions_NR c
          + Channel.succeeded_transmissions_NR c = 0) as Hzn.
  { intros H0. destruct (Hidle_n H0) as (_ & Hf & Hs). subst c. lia. }
  split; [|by split].
  f_equal. f_equal.
  - destruct (number_of_stations =? 0) eqn:E; cbn [negb]; [|done].
    unfold p_coll_spec. rewrite Hzw by lia. done.
  - destruct (number_of_gnb =? 0) eqn:E; cbn [negb]; [|done].
    unfold p_coll_spec. rewrite Hzn by lia. done.
Qed.

(** ** The parameters of the controller during a run *)

Lemma the_controller_raise w :
  controller w = None -> the_controller w = Raise AttributeError.
Proof. intros H. unfold the_controller, mbind, M_bind, get. by rewrite H. Qed.

Lemma declared_update_controller f :
  (forall c, as_declared c -> as_declared (f c)) ->
  preserves controller_as_declared (update_controller f).
Proof.
  intros Hf w a w' HP Hr. destruct (controller w) as [c|] eqn:E.
  - rewrite (update_controller_ok _ _ _ E) in Hr.
    assert (w' = set_controller (Some (f c)) w) as -> by congruence.
    intros c' Hc'. world_simpl. injection Hc' as <-. by apply Hf, HP.
  - unfold update_controller in Hr.
    by rewrite (bind_raise _ _ _ _ (the_controller_raise _ E)) in Hr.
Qed.

Ltac declared_special :=
  apply declared_update_controller;
  let c := fresh "c" in
  let H := fresh "H" in
  intros c H; exact H.

Ltac declared_side :=
  first
    [ let w := fresh "w" in
      let H := fresh "H" in
      intros w H; exact H
    | let w := fresh "w" in
      let n := fresh "n" in
      let H := fresh "H" in
      intros w n H; exact H
    | let w := fresh "w" in
      let H := fresh "H" in
      let c := fresh "c" in
      let Hc := fresh "Hc" in
      intros w H c Hc; world_simpl; injection Hc as <-; by repeat split ].

Lemma declared_Gnb_advance_sync_slot fuel name :
  preserves controller_as_declared (Gnb_advance_sync_slot fuel name).
Proof.
  induction fuel; cbn [Gnb_advance_sync_slot];
    pres_with declared_special declared_side.
  exact IHfuel.
Qed.

Lemma declared_exec gap a : preserves controller_as_declared (exec gap a).
Proof.
  destruct a; cbn [exec]; pres_with declared_special declared_side.
  apply declared_Gnb_advance_sync_slot.
Qed.

Lemma declared_setup number_of_stations number_of_gnb enable_dynamic_cw :
  preserves controller_as_declared
    (run_simulation_setup number_of_stations number_of_gnb enable_dynamic_cw).
Proof.
  unfold run_simulation_setup. pres_with declared_special declared_side.
Qed.

(** In every run the controller, when there is one, has the parameters of
    its declaration: [adjustment_step = 5], [min_cw = 7], [max_cw = 511]. *)
Lemma run_controller_as_declared
    (gap : bool) (number_of_stations number_of_gnb : Z)
    (enable_dynamic_cw : bool) (schedule : list action)
    (tape : nat -> Z) (tm : Times.t) (cfg : Config.t) (cfg_nr : Config_NR.t)
    (backoffs : gmap Z (gmap Z Z))
    (airtime_data airtime_control airtime_data_NR airtime_control_NR
       : gmap string Z) (w : World) :
  run_simulation_run gap number_of_stations number_of_gnb enable_dynamic_cw
    schedule
    (new_world tape tm number_of_stations number_of_gnb cfg cfg_nr backoffs
       airtime_data airtime_control airtime_data_NR airtime_control_NR)
  = Ok tt w ->
  controller_as_declared w.
Proof.
  intros Hrun. unfold run_simulation_run in Hrun.
  apply bind_inv in Hrun as ([] & w0 & Hsetup & Hsched).
  eapply (preserves_for_each controller_as_declared); [| |exact Hsched].
  - intros a. apply declared_exec.
  - eapply declared_setup; [|exact Hsetup]. intros c Hc. discriminate.
Qed.

(** ** The metrics read the world and leave it as it is *)

Lemma collision_probabilities_pure P number_of_stations number_of_gnb :
  preserves P (collision_probabilities number_of_stations number_of_gnb).
Proof. pres_with fail fail. Qed.

Lemma channel_times_pure P number_of_stations number_of_gnb :
  preserves P (channel_times number_of_stations number_of_gnb).
Proof. pres_with fail fail. Qed.

(** ** The theorems at the sample runs *)

Lemma check_collision_outcome_witness :
  (exists w' f,
     check_collision true (WifiStation "Station 1") (sample_run false both_on_air)
     = Ok false w' /\
     sent_failed (WifiStation "Station 1") (sample_run false both_on_air)
     = Ok tt w' /\
     failures (WifiStation "Station 1") (sample_run false both_on_air) = Some f /\
     failures (WifiStation "Station 1") w' = Some (f.1 + 1, f.2 + 1))
  /\
  (exists w' s,
     check_collision true (WifiStation "Station 1") (sample_run false station_alone)
     = Ok true w' /\
     sent_completed (WifiStation "Station 1") (sample_run false station_alone)
     = Ok true w' /\
     successes (WifiStation "Station 1") (sample_run false station_alone)
     = Some s /\
     successes (WifiStation "Station 1") w' = Some (s.1 + 1, s.2 + 1)).
Proof.
  split.
  - apply (check_collision_outcome true (WifiStation "Station 1")
             (sample_run false both_on_air)).
    + do 2 eexists. split; [vm_compute; reflexivity|].
      split; [reflexivity|]. eexists. vm_compute. reflexivity.
    + left. vm_compute. reflexivity.
  - apply (check_collision_outcome true (WifiStation "Station 1")
             (sample_run false station_alone)).
    + do 2 eexists. split; [vm_compute; reflexivity|].
      split; [reflexivity|]. eexists. vm_compute. reflexivity.
    + vm_compute. reflexivity.
Defined.


Lemma generate_new_back_off_time_bounds_witness :
  (forall r w',
     generate_new_back_off_time (NrGnb "Gnb 1") 2 (sample_run false []) = Ok r w' ->
     exists b, 0 <= b <= 63 /\ r = b * 9 /\
               counted_draw b (sample_run false []) w')
  /\
  exists r w',
    generate_new_back_off_time (NrGnb "Gnb 1") 2 (sample_run false []) = Ok r w'.
Proof.
  destruct (generate_new_back_off_time_bounds (NrGnb "Gnb 1") 2
              (sample_run false []) 15 63) as [Hbound Hreturns].
  - vm_compute. reflexivity.
  - lia.
  - split; [exact Hbound|]. apply Hreturns.
    + vm_compute. discriminate.
    + intros b Hb.
      assert (Forall
                (fun b =>
                   is_Some
                     (Channel.backoffs (channel (sample_run false [])) !! b
                      ≫= fun row =>
                           row !! Channel.n_of_stations
                                    (channel (sample_run false []))))
                (seqZ 0 64)) as Hall.
      { apply (bool_decide_unpack _). vm_compute. exact I. }
      rewrite Forall_forall in Hall.
      destruct (Hall b) as [count Hcount]; [apply elem_of_seqZ; lia|].
      destruct (Channel.backoffs (channel (sample_run false [])) !! b)
        as [row|]; [|discriminate].
      exists row. split; [reflexivity|]. exists count. exact Hcount.
Defined.

Lemma adjust_increases_wifi_cw_witness :
  exists w',
    DynamicCWController_adjust_contention_windows 100 10
      (DynamicCWController_calculate_jains_fairness 100 10)
      (sample_run true []) = Ok tt w' /\
    Config.cw_min (config w') = 20 /\
    Config.cw_max (config w') = 80.
Proof.
  destruct (adjust_increases_wifi_cw (sample_run true [])
              (DynamicCWController.mk 1000000 5 (95 # 100) 7 511 0 0 0 [])
              100 10 (DynamicCWController_calculate_jains_fairness 100 10))
    as (w' & Hr & Hmin & Hmax & _).
  - vm_compute. reflexivity.
  - vm_compute. reflexivity.
  - vm_compute. reflexivity.
  - vm_compute. reflexivity.
  - vm_compute. discriminate.
  - exists w'. split; [exact Hr|]. rewrite Hmax, Hmin. vm_compute. auto.
Defined.

Lemma gap_time_nonnegative_witness :
  exists fuel0,
    forall fuel, (fuel0 <= fuel)%nat ->
      exists gap_time w',
        Gnb_wait_back_off_gap_align fuel "Gnb 1" (sample_run false gnb_ready)
        = Ok gap_time w' /\
        0 <= gap_time.
Proof.
  destruct (gap_time_nonnegative "Gnb 1" (sample_run false gnb_ready)
              (Gnb.mk "Gnb 1" None 0 0 0 15 63 3 133 0 false))
    as (fuel0 & Hfuel).
  - vm_compute. reflexivity.
  - vm_compute. reflexivity.
  - vm_compute. discriminate.
  - exists fuel0. intros fuel Hle.
    destruct (Hfuel fuel Hle) as (gap_time & w' & self' & Hr & _ & _ & _ & Hge).
    exists gap_time, w'. split; [exact Hr | exact Hge].
Defined.

Lemma collision_probabilities_as_specified_witness :
  let w := sample_run false (collisions 3) in
  collision_probabilities 1 1 w = Ok ((3 # 3)%Q, (3 # 3)%Q) w.
Proof.
  destruct (collision_probabilities_as_specified true 1 1 false (collisions 3)
              sample_tape sample_times Config.default Config_NR.default
              (runner_backoffs 1 Config.default)
              (runner_airtime (station_name <$> range1 1))
              (runner_airtime (station_name <$> range1 1))
              (runner_airtime (gnb_name <$> range1 1))
              (runner_airtime (gnb_name <$> range1 1))
              (sample_run false (collisions 3))) as [Hp _].
  - vm_compute. reflexivity.
  - exact Hp.
Defined.

Lemma cw_operation_invariant_witness :
  exists w',
    DynamicCWController_operation decrease_nru_cw (sample_run true []) = Ok tt w' /\
    7 <= (config_window NRU w').1 <= 511 /\
    (config_window NRU w').2 = Z.min (4 * (config_window NRU w').1) 511.
Proof.
  destruct (cw_operation_invariant decrease_nru_cw (sample_run true [])
              (DynamicCWController.mk 1000000 5 (95 # 100) 7 511 0 0 0 []))
    as (w' & Hr & Hin & Hmax & _).
  - vm_compute. reflexivity.
  - vm_compute. discriminate.
  - vm_compute. split; discriminate.
  - exists w'. split; [exact Hr|]. split; [exact Hin | exact Hmax].
Defined.

(** * Beyond the claims *)

(** ** Running nested computations *)

Lemma bind_assoc {S A B C} (m : M S A) (f : A -> M S B) (g : B -> M S C) s :
  ((m ≫= f) ≫= g) s = (m ≫= fun a => f a ≫= g) s.
Proof. unfold mbind, M_bind. by destruct (m s). Qed.

Ltac sim_go := repeat first [sim_step | rewrite bind_assoc].

(** ** A backoff that is interrupted *)

Lemma slots_used_bounds (lead slot elapsed b : Z) :
  0 < slot -> 0 <= b -> elapsed < b * slot + lead ->
  0 <= slots_used lead slot elapsed <= b.
Proof.
  intros Hslot Hb He. unfold slots_used.
  destruct (elapsed <=? lead) eqn:E; [lia|].
  split.
  - apply Z.div_pos; lia.
  - assert ((elapsed - lead) `div` slot < b); [|lia].
    apply Z.div_lt_upper_bound; lia.
Qed.

Lemma int_truediv_pos (x y : Z) :
  0 <= x -> 0 < y -> int_truediv x y = Some (x `div` y).
Proof.
  intros Hx Hy. unfold int_truediv.
  destruct (y =? 0) eqn:E; [lia|]. by rewrite Z.quot_div_nonneg by lia.
Qed.

(** X1. A station whose backoff is [b] slots starts to count down and is
    interrupted after [elapsed] microseconds, before the countdown is over.
    The handler leaves a backoff of [b - slots] slots, where [slots] is the
    number of whole slots that went by after the DIFS (0 when the interrupt
    fell into the DIFS): the DIFS that was added is taken off again, a slot
    that was begun is waited anew, and [0 <= slots <= b]. *)
Theorem Station_backoff_resumes_at_slot (name : string) (w : World)
    (self : Station.t) (b elapsed : Z) :
  stations w !! name = Some self ->
  0 < Times.t_slot (times w) ->
  Station.back_off_time self = b * Times.t_slot (times w) ->
  0 <= b ->
  elapsed < b * Times.t_slot (times w) + Times.t_difs (times w) ->
  let slots :=
    slots_used (Times.t_difs (times w)) (Times.t_slot (times w)) elapsed in
  exists w' self',
    (wait ← Station_wait_back_off_countdown name;
     exec true (Advance elapsed);;
     Station_wait_back_off_interrupted name wait) w
    = Ok (StationWait.mk false (now w)) w' /\
    stations w' !! name = Some self' /\
    Station.back_off_time self' = (b - slots) * Times.t_slot (times w) /\
    0 <= slots <= b.
Proof.
  intros Hs Hslot Hb Hb0 He slots.
  pose proof (slots_used_bounds _ _ _ _ Hslot Hb0 He) as Hbounds.
  fold slots in Hbounds. unfold slots, slots_used in *. clear slots.
  unfold Station_wait_back_off_countdown. sim_go.
  cbn [exec]. sim_go.
  unfold Station_wait_back_off_interrupted.
  cbn [StationWait.first_interrupt StationWait.start]. sim_step.
  replace (now w + elapsed - now w) with elapsed by lia.
  destruct (elapsed <=? Times.t_difs (times w)) eqn:E.
  - sim_run. do 2 eexists. split; [reflexivity|]. world_simpl.
    split; [apply lookup_insert_eq|].
    cbn [Station.back_off_time Station.set_back_off_time].
    split; [lia | exact Hbounds].
  - rewrite int_truediv_pos by lia. cbn [deref]. sim_run.
    do 2 eexists. split; [reflexivity|]. world_simpl.
    split; [apply lookup_insert_eq|].
    cbn [Station.back_off_time Station.set_back_off_time].
    split; [lia | exact Hbounds].
Qed.

(** X2. Gap mode: a gNB whose backoff is [n] observation slots plus the
    prioritization period finds the channel free after its gap, starts to
    count down and is interrupted after [elapsed] microseconds, before the
    countdown is over. The handler leaves a backoff of [n - slots]
    observation slots plus one prioritization period, where [slots] is the
    number of whole observation slots that went by after the prioritization
    period, and [0 <= slots <= n]. *)
Theorem Gnb_backoff_resumes_at_slot (name : string) (w : World) (self : Gnb.t)
    (wait : GnbWait.t) (n elapsed : Z) :
  gnbs w !! name = Some self ->
  on_air w = 0 ->
  0 < Config_NR.observation_slot_duration (config_nr w) ->
  let pp := prioritization_period_time (config_nr w) in
  let slot := Config_NR.observation_slot_duration (config_nr w) in
  Gnb.back_off_time self = n * slot + pp ->
  0 <= n ->
  elapsed < n * slot + pp ->
  let slots := slots_used pp slot elapsed in
  exists w' self',
    (wait ← Gnb_wait_back_off_gap_countdown name wait;
     exec true (Advance elapsed);;
     Gnb_wait_back_off_gap_interrupted name pp wait) w
    = Ok (GnbWait.mk false (now w) false) w' /\
    gnbs w' !! name = Some self' /\
    Gnb.back_off_time self' = (n - slots) * slot + pp /\
    0 <= slots <= n.
Proof.
  intros Hs Hair Hslot pp slot Hb Hn He slots.
  pose proof (slots_used_bounds _ _ _ _ Hslot Hn He) as Hbounds.
  fold slots in Hbounds. unfold slots, slots_used in *. clear slots.
  unfold Gnb_wait_back_off_gap_countdown. sim_go.
  assert ((len (Channel.tx_list_NR (channel w))
           + len (Channel.tx_list (channel w)) >? 0) = false) as ->.
  { unfold on_air in Hair. lia. }
  sim_go. cbn [exec]. sim_go.
  unfold Gnb_wait_back_off_gap_interrupted.
  cbn [GnbWait.first_interrupt GnbWait.waiting_backoff GnbWait.start_nr andb].
  sim_step.
  replace (now w + elapsed - now w) with elapsed by lia.
  fold slot. destruct (elapsed <=? pp) eqn:E.
  - sim_run. do 2 eexists. split; [reflexivity|]. world_simpl.
    split; [apply lookup_insert_eq|].
    cbn [Gnb.back_off_time Gnb.set_back_off_time].
    split; [lia | exact Hbounds].
  - rewrite int_truediv_pos by lia. cbn [deref]. sim_run.
    do 2 eexists. split; [reflexivity|]. world_simpl.
    split; [apply lookup_insert_eq|].
    cbn [Gnb.back_off_time Gnb.set_back_off_time].
    split; [lia | exact Hbounds].
Qed.

(** ** The backoff of gap mode ends on a synchronization slot *)

Lemma Gnb_advance_sync_slot_steps (name : string) (fuel : nat) :
  forall (w : World) (self : Gnb.t),
    gnbs w !! name = Some self ->
    0 < Config_NR.synchronization_slot_duration (config_nr w) ->
    (Z.to_nat (Gnb.back_off_time self - Gnb.time_to_next_sync_slot self + 1)
     <= fuel)%nat ->
    let sync := Config_NR.synchronization_slot_duration (config_nr w) in
    exists w' self' j,
      Gnb_advance_sync_slot fuel name w = Ok tt w' /\
      gnbs w' !! name = Some self' /\
      now w' = now w /\
      0 <= j /\
      Gnb.back_off_time self' = Gnb.back_off_time self /\
      Gnb.time_to_next_sync_slot self'
      = Gnb.time_to_next_sync_slot self + j * sync /\
      Gnb.back_off_time self < Gnb.time_to_next_sync_slot self' /\
      (0 < j -> Gnb.time_to_next_sync_slot self' - sync <= Gnb.back_off_time self).
Proof.
  induction fuel as [|fuel IH]; intros w self Hs Hsync Hfuel sync.
  - cbn [Gnb_advance_sync_slot]. sim_step.
    destruct (_ >=? _) eqn:E; [lia|].
    exists w, self, 0. repeat split; [exact Hs | lia ..].
  - cbn [Gnb_advance_sync_slot]. sim_step.
    destruct (_ >=? _) eqn:E.
    + sim_run.
      match goal with
      | |- context [Gnb_advance_sync_slot fuel name ?w1] =>
          destruct (IH w1
            (Gnb.set_time_to_next_sync_slot
               (Gnb.time_to_next_sync_slot self
                + Config_NR.synchronization_slot_duration (config_nr w)) self))
            as (w' & self' & j & Hr & Hs' & Hnow & Hj & Hb & Ht & Hlt & Hge)
      end.
      * world_simpl. apply lookup_insert_eq.
      * by world_simpl.
      * cbn [Gnb.back_off_time Gnb.time_to_next_sync_slot
             Gnb.set_time_to_next_sync_slot]. lia.
      * world_simpl.
        cbn [Gnb.back_off_time Gnb.time_to_next_sync_slot
             Gnb.set_time_to_next_sync_slot] in *.
        exists w', self', (j + 1). split; [exact Hr|]. split; [exact Hs'|].
        fold sync in Ht, Hge |- *.
        repeat split; try lia.
    + exists w, self, 0. repeat split; [exact Hs | lia ..].
Qed.

(** X3. Gap mode with [synchronization_slot_duration > 0]: given
    iterations enough, the alignment returns a [gap_time] such that gap and
    backoff together end on a synchronization-slot boundary, [j] slots
    after [next_sync_slot_boundry]. The gap is never empty, and it is at
    most one synchronization slot when the boundary is no further ahead
    than the backoff plus one slot. The clock does not move. *)
Theorem gap_ends_on_sync_slot_boundary (name : string) (w : World)
    (self : Gnb.t) :
  gnbs w !! name = Some self ->
  0 < Config_NR.synchronization_slot_duration (config_nr w) ->
  let sync := Config_NR.synchronization_slot_duration (config_nr w) in
  exists fuel0,
    forall fuel, (fuel0 <= fuel)%nat ->
      exists gap_time w' j,
        Gnb_wait_back_off_gap_align fuel name w = Ok gap_time w' /\
        now w' = now w /\
        0 <= j /\
        now w + gap_time + Gnb.back_off_time self
        = Gnb.next_sync_slot_boundry self + j * sync /\
        0 < gap_time /\
        (Gnb.next_sync_slot_boundry self - now w
         <= Gnb.back_off_time self + sync ->
         gap_time <= sync).
Proof.
  intros Hs Hsync sync.
  exists (Z.to_nat
            (Gnb.back_off_time self
             - (Gnb.next_sync_slot_boundry self - now w) + 1)).
  intros fuel Hfuel. unfold Gnb_wait_back_off_gap_align. sim_run.
  match goal with
  | |- context [(Gnb_advance_sync_slot fuel name ≫= _) ?w1] =>
      destruct (Gnb_advance_sync_slot_steps name fuel w1
        (Gnb.set_time_to_next_sync_slot
           (Gnb.next_sync_slot_boundry self - now w) self))
        as (w' & self' & j & Hr & Hs' & Hnow & Hj & Hb & Ht & Hlt & Hge)
  end.
  - world_simpl. apply lookup_insert_eq.
  - by world_simpl.
  - exact Hfuel.
  - world_simpl.
    cbn [Gnb.back_off_time Gnb.time_to_next_sync_slot
         Gnb.set_time_to_next_sync_slot] in *.
    fold sync in Ht, Hge.
    rewrite (bind_ok _ _ _ _ _ Hr). sim_step.
    destruct (_ >=? 0) eqn:E; [|lia].
    exists (Gnb.time_to_next_sync_slot self' - Gnb.back_off_time self'), w', j.
    split; [reflexivity|]. split; [exact Hnow|]. split; [exact Hj|].
    split; [lia|]. split; [lia|]. intros Hnear.
    destruct (decide (j = 0)) as [->|Hj0]; lia.
Qed.

(** ** The fairness index of the controller *)

Lemma Qdiv_Z_le_r (x y p q : Z) :
  0 < y -> 0 < q -> x * q <= p * y -> (inject_Z x / inject_Z y <= p # Z.to_pos q)%Q.
Proof.
  intros Hy Hq H. apply Qle_shift_div_r.
  - change 0%Q with (inject_Z 0). by rewrite <- Zlt_Qlt.
  - unfold Qle, Qmult, inject_Z. cbn [Qnum Qden].
    rewrite ?Pos.mul_1_r, ?Z.mul_1_r, ?Pos2Z.inj_mul, ?Z2Pos.id by lia. nia.
Qed.

Lemma Qdiv_Z_le_l (x y p q : Z) :
  0 < y -> 0 < q -> p * y <= x * q -> (p # Z.to_pos q <= inject_Z x / inject_Z y)%Q.
Proof.
  intros Hy Hq H. apply Qle_shift_div_l.
  - change 0%Q with (inject_Z 0). by rewrite <- Zlt_Qlt.
  - unfold Qle, Qmult, inject_Z. cbn [Qnum Qden].
    rewrite ?Pos.mul_1_r, ?Z.mul_1_r, ?Pos2Z.inj_mul, ?Z2Pos.id by lia. nia.
Qed.

Lemma inject_Z_nonzero (z : Z) : z <> 0 -> ~ (inject_Z z == 0)%Q.
Proof. intros H. unfold Qeq, inject_Z. cbn [Qnum Qden]. lia. Qed.

Lemma inject_Z_eq (x y : Z) : (inject_Z x == inject_Z y)%Q -> x = y.
Proof. unfold Qeq, inject_Z. cbn [Qnum Qden]. lia. Qed.

Lemma calculate_jains_fairness_ratio (a b : Z) :
  ~ (a = 0 /\ b = 0) ->
  DynamicCWController_calculate_jains_fairness a b
  = (inject_Z ((a + b) ^ 2) / inject_Z (2 * (a ^ 2 + b ^ 2)))%Q
  /\ 0 < 2 * (a ^ 2 + b ^ 2).
Proof.
  intros H. unfold DynamicCWController_calculate_jains_fairness.
  assert (0 < a ^ 2 + b ^ 2) by nia.
  destruct ((a =? 0) && (b =? 0)) eqn:E.
  - apply andb_true_iff in E. lia.
  - destruct (a ^ 2 + b ^ 2 =? 0) eqn:E2; [lia|]. split; [reflexivity | lia].
Qed.

(** X4. [_calculate_jains_fairness] on two airtimes that are not
    negative: the index lies in [[1/2, 1]], and it is 1 exactly when the
    two airtimes are equal. *)
Theorem calculate_jains_fairness_bounds (wifi_airtime nru_airtime : Z) :
  0 <= wifi_airtime -> 0 <= nru_airtime ->
  let fairness :=
    DynamicCWController_calculate_jains_fairness wifi_airtime nru_airtime in
  (1 # 2 <= fairness)%Q /\ (fairness <= 1)%Q /\
  ((fairness == 1)%Q <-> wifi_airtime = nru_airtime).
Proof.
  intros Ha Hb fairness. subst fairness.
  destruct (decide (wifi_airtime = 0 /\ nru_airtime = 0)) as [[-> ->]|Hne].
  - cbn. repeat split; try done.
  - destruct (calculate_jains_fairness_ratio _ _ Hne) as [-> Hpos].
    split; [|split].
    + apply (Qdiv_Z_le_l _ _ 1 2); [lia | lia | nia].
    + apply (Qdiv_Z_le_r _ _ 1 1); [lia | lia |].
      pose proof (Z.square_nonneg (wifi_airtime - nru_airtime)). lia.
    + split.
      * intros Heq.
        assert (inject_Z ((wifi_airtime + nru_airtime) ^ 2)
                == 1 * inject_Z (2 * (wifi_airtime ^ 2 + nru_airtime ^ 2)))%Q
          as Hq.
        { rewrite <- Heq. field. apply inject_Z_nonzero. lia. }
        rewrite Qmult_1_l in Hq. apply inject_Z_eq in Hq.
        assert ((wifi_airtime - nru_airtime) * (wifi_airtime - nru_airtime) = 0)
          as Hsq by lia.
        apply Z.mul_eq_0 in Hsq. lia.
      * intros ->.
        replace ((nru_airtime + nru_airtime) ^ 2)
          with (2 * (nru_airtime ^ 2 + nru_airtime ^ 2)) by lia.
        apply Qmult_inv_r, inject_Z_nonzero. lia.
Qed.

Lemma exceeds_by_tenth_false (a b : Z) :
  exceeds_by_tenth a b = false <-> 10 * a <= 11 * b.
Proof.
  unfold exceeds_by_tenth, Qltb. rewrite negb_false_iff, Qle_bool_iff.
  unfold Qle, Qmult, inject_Z. cbn [Qnum Qden]. lia.
Qed.

Lemma Qltb_lt (x y : Q) : Qltb x y = true <-> (x < y)%Q.
Proof.
  unfold Qltb. rewrite negb_true_iff. split.
  - intros H. apply Qnot_le_lt. intros Hle. apply Qle_bool_iff in Hle.
    congruence.
  - intros H. destruct (Qle_bool y x) eqn:E; [|done].
    apply Qle_bool_iff in E. by apply Qlt_not_le in H.
Qed.

Lemma exceeds_by_tenth_true (a b : Z) :
  exceeds_by_tenth a b = true <-> 11 * b < 10 * a.
Proof.
  pose proof (exceeds_by_tenth_false a b) as [H1 H2].
  destruct (exceeds_by_tenth a b); split; intros H; try done.
  - assert (10 * a <= 11 * b -> False); [|lia]. intros Hle.
    by apply H2 in Hle.
  - assert (10 * a <= 11 * b) by (by apply H1). lia.
Qed.

Lemma low_fairness_dominance (a b : Z) (target_fairness : Q) :
  0 <= a -> 0 <= b ->
  (target_fairness <= 441 # 442)%Q ->
  Qltb (DynamicCWController_calculate_jains_fairness a b) target_fairness = true ->
  exceeds_by_tenth a b = true \/ exceeds_by_tenth b a = true.
Proof.
  intros Ha Hb Ht Hlow. apply Qltb_lt in Hlow.
  destruct (exceeds_by_tenth a b) eqn:E1; [by left|].
  destruct (exceeds_by_tenth b a) eqn:E2; [by right|].
  exfalso. apply exceeds_by_tenth_false in E1, E2.
  apply (Qlt_not_le _ _ Hlow). apply (Qle_trans _ _ _ Ht).
  destruct (decide (a = 0 /\ b = 0)) as [[-> ->]|Hne].
  - cbn. done.
  - destruct (calculate_jains_fairness_ratio _ _ Hne) as [-> Hpos].
    apply (Qdiv_Z_le_l _ _ 441 442); [lia | lia | nia].
Qed.

(** X5. The test [fairness < target_fairness] of the monitor against the
    tests of [_adjust_contention_windows]: for two airtimes that are not
    negative and a target of at most 441/442 (it is declared as 0.95), an
    index below the target means that one technology has more than 1.1
    times the airtime of the other, so that the adjustment takes one of its
    two arms. *)
Theorem low_fairness_has_dominant_technology
    (wifi_airtime nru_airtime : Z) (target_fairness : Q) :
  0 <= wifi_airtime -> 0 <= nru_airtime ->
  (target_fairness <= 441 # 442)%Q ->
  Qltb (DynamicCWController_calculate_jains_fairness wifi_airtime nru_airtime)
       target_fairness = true ->
  exceeds_by_tenth wifi_airtime nru_airtime = true \/
  exceeds_by_tenth nru_airtime wifi_airtime = true.
Proof. apply low_fairness_dominance. Qed.

(** ** What an adjustment does, arm by arm *)

Ltac config_simpl :=
  cbn [Config.cw_min Config.cw_max Config.set_cw_min Config.set_cw_max
       Config.r_limit Config.data_size Config.mcs
       Config_NR.cw_min Config_NR.cw_max Config_NR.set_cw_min
       Config_NR.set_cw_max Config_NR.mcot Config_NR.deter_period
       Config_NR.observation_slot_duration
       Config_NR.synchronization_slot_duration Config_NR.max_sync_slot_desync
       Config_NR.min_sync_slot_desync Config_NR.M] in *.

Lemma adjust_contention_windows_cases (w : World) (c : DynamicCWController.t)
    (wifi_airtime nru_airtime : Z) (fairness : Q) :
  controller w = Some c ->
  exists w',
    DynamicCWController_adjust_contention_windows
      wifi_airtime nru_airtime fairness w = Ok tt w' /\
    controller w'
    = Some (DynamicCWController.set_adjustment_history
              (DynamicCWController.adjustment_history c
               ++ [adjustment_entry w' wifi_airtime nru_airtime fairness]) c) /\
    now w' = now w /\ channel w' = channel w /\
    (if exceeds_by_tenth wifi_airtime nru_airtime then
       let win := increased_window c (Config.cw_min (config w)) in
       config w' = Config.set_cw_max win.2 (Config.set_cw_min win.1 (config w)) /\
       stations w' = (Station.set_cw win.1 win.2 <$> stations w) /\
       (if Config_NR.cw_min (config_nr w) >? DynamicCWController.min_cw c then
          let win := decreased_window c (Config_NR.cw_min (config_nr w)) in
          config_nr w'
          = Config_NR.set_cw_max win.2 (Config_NR.set_cw_min win.1 (config_nr w)) /\
          gnbs w' = (Gnb.set_cw win.1 win.2 <$> gnbs w)
        else config_nr w' = config_nr w /\ gnbs w' = gnbs w)
     else if exceeds_by_tenth nru_airtime wifi_airtime then
       (if Config.cw_min (config w) >? DynamicCWController.min_cw c then
          let win := decreased_window c (Config.cw_min (config w)) in
          config w' = Config.set_cw_max win.2 (Config.set_cw_min win.1 (config w)) /\
          stations w' = (Station.set_cw win.1 win.2 <$> stations w)
        else config w' = config w /\ stations w' = stations w) /\
       let win := increased_window c (Config_NR.cw_min (config_nr w)) in
       config_nr w'
       = Config_NR.set_cw_max win.2 (Config_NR.set_cw_min win.1 (config_nr w)) /\
       gnbs w' = (Gnb.set_cw win.1 win.2 <$> gnbs w)
     else
       config w' = config w /\ config_nr w' = config_nr w /\
       stations w' = stations w /\ gnbs w' = gnbs w).
Proof.
  intros Hc. unfold DynamicCWController_adjust_contention_windows.
  sim_step. unfold adjustment_entry, increased_window, decreased_window.
  cbn [fst snd].
  destruct (exceeds_by_tenth wifi_airtime nru_airtime).
  - rewrite !bind_assoc.
    erewrite bind_ok by (apply increase_wifi_cw_spec; exact Hc).
    rewrite !bind_assoc. sim_step. destruct (_ >? _).
    + erewrite bind_ok by (apply decrease_nru_cw_spec; world_simpl; exact Hc).
      sim_step. erewrite update_controller_ok by (world_simpl; exact Hc).
      eexists. split; [reflexivity|]. world_simpl. by repeat split.
    + sim_go.
      erewrite update_controller_ok by (world_simpl; exact Hc).
      eexists. split; [reflexivity|]. world_simpl. by repeat split.
  - destruct (exceeds_by_tenth nru_airtime wifi_airtime).
    + rewrite !bind_assoc. sim_step. rewrite ?bind_assoc. destruct (_ >? _).
      * erewrite bind_ok by (apply decrease_wifi_cw_spec; exact Hc).
        erewrite bind_ok
          by (apply increase_nru_cw_spec; world_simpl; exact Hc).
        sim_step. erewrite update_controller_ok by (world_simpl; exact Hc).
        eexists. split; [reflexivity|]. world_simpl. by repeat split.
      * sim_step.
        erewrite bind_ok by (apply increase_nru_cw_spec; exact Hc).
        sim_step. erewrite update_controller_ok by (world_simpl; exact Hc).
        eexists. split; [reflexivity|]. world_simpl. by repeat split.
    + sim_go. erewrite update_controller_ok by exact Hc.
      eexists. split; [reflexivity|]. world_simpl. by repeat split.
Qed.

(** X6. A controller is asked to adjust for a Wi-Fi airtime that is not
    negative and an NR-U airtime of more than 1.1 times that. The adjustment
    goes through: the NR-U config gets [cw_min = min (cw_min +
    adjustment_step) max_cw] and [cw_max = min (4 * cw_min) max_cw], and
    every gNB gets the two values; the Wi-Fi config and the stations get
    [cw_min = max (cw_min - adjustment_step) min_cw] and the matching
    [cw_max] if the Wi-Fi [cw_min] was above [min_cw], and stay as they are
    otherwise. *)
Theorem adjust_increases_nru_cw (w : World) (c : DynamicCWController.t)
    (wifi_airtime nru_airtime : Z) (fairness : Q) :
  controller w = Some c ->
  0 <= wifi_airtime ->
  (inject_Z wifi_airtime * (11 # 10) < inject_Z nru_airtime)%Q ->
  exists w',
    DynamicCWController_adjust_contention_windows
      wifi_airtime nru_airtime fairness w = Ok tt w' /\
    config_window NRU w' = increased_window c (Config_NR.cw_min (config_nr w)) /\
    config_window WiFi w'
    = (if Config.cw_min (config w) >? DynamicCWController.min_cw c
       then decreased_window c (Config.cw_min (config w))
       else config_window WiFi w) /\
    (forall name win,
       node_windows NRU w' !! name = Some win -> win = config_window NRU w') /\
    (if Config.cw_min (config w) >? DynamicCWController.min_cw c
     then forall name win,
            node_windows WiFi w' !! name = Some win ->
            win = config_window WiFi w'
     else stations w' = stations w).
Proof.
  intros Hc Ha Hdom. apply exceeds_by_tenth_iff in Hdom.
  assert (exceeds_by_tenth wifi_airtime nru_airtime = false) as Hnot.
  { apply exceeds_by_tenth_false. apply exceeds_by_tenth_true in Hdom. lia. }
  destruct (adjust_contention_windows_cases w c wifi_airtime nru_airtime
              fairness Hc) as (w' & Hr & _ & _ & _ & Hcase).
  rewrite Hnot, Hdom in Hcase. destruct Hcase as (Hwifi & Hcfg & Hgnbs).
  exists w'. split; [exact Hr|].
  unfold increased_window, decreased_window in *. cbn [fst snd] in *.
  cbn [config_window node_windows]. rewrite Hcfg, Hgnbs. config_simpl.
  split; [reflexivity|].
  destruct (Config.cw_min (config w) >? DynamicCWController.min_cw c).
  - destruct Hwifi as [Hcfgw Hst]. rewrite Hcfgw, Hst. config_simpl.
    split; [reflexivity|].
    split; intros name win;
      [apply node_windows_set_cw_nru | apply node_windows_set_cw_wifi].
  - destruct Hwifi as [Hcfgw Hst]. rewrite Hcfgw.
    split; [reflexivity|].
    split; [intros name win; apply node_windows_set_cw_nru | exact Hst].
Qed.

(** X7. Whenever there is a controller, [_adjust_contention_windows]
    returns, and it appends one entry to the history: the time, the windows
    of the two configs as the adjustment leaves them, and its three
    arguments. The parameters of the controller, the clock and the channel
    stay as they are; and when neither airtime is more than 1.1 times the
    other, so do the configs and the nodes. *)
Theorem adjust_logs_the_windows_in_force (w : World)
    (c : DynamicCWController.t) (wifi_airtime nru_airtime : Z) (fairness : Q) :
  controller w = Some c ->
  exists w',
    DynamicCWController_adjust_contention_windows
      wifi_airtime nru_airtime fairness w = Ok tt w' /\
    controller w'
    = Some (DynamicCWController.set_adjustment_history
              (DynamicCWController.adjustment_history c
               ++ [adjustment_entry w' wifi_airtime nru_airtime fairness]) c) /\
    now w' = now w /\ channel w' = channel w /\
    (exceeds_by_tenth wifi_airtime nru_airtime = false ->
     exceeds_by_tenth nru_airtime wifi_airtime = false ->
     config w' = config w /\ config_nr w' = config_nr w /\
     stations w' = stations w /\ gnbs w' = gnbs w).
Proof.
  intros Hc.
  destruct (adjust_contention_windows_cases w c wifi_airtime nru_airtime
              fairness Hc) as (w' & Hr & Hctl & Hnow & Hch & Hcase).
  exists w'. repeat (split; [assumption|]).
  intros H1 H2. by rewrite H1, H2 in Hcase.
Qed.

(** X8. One round of the monitor, when there is a controller: the round
    returns, stores the two airtime sums and the time, and leaves the clock
    and the channel as they are. If no airtime was gained, or the index of
    the two gains is not below the target, nothing else changes. Otherwise
    one entry is appended to the history; and if no gain is negative and the
    target is at most 441/442, the round has given the technology with the
    larger gain its increased window. *)
Theorem monitor_round_outcome (w : World) (c : DynamicCWController.t) :
  controller w = Some c ->
  let current_wifi_airtime := sum_values (Channel.airtime_data (channel w)) in
  let current_nru_airtime := sum_values (Channel.airtime_data_NR (channel w)) in
  let wifi_delta :=
    current_wifi_airtime - DynamicCWController.last_wifi_airtime c in
  let nru_delta :=
    current_nru_airtime - DynamicCWController.last_nru_airtime c in
  let fairness :=
    DynamicCWController_calculate_jains_fairness wifi_delta nru_delta in
  let adjusts :=
    ((wifi_delta >? 0) || (nru_delta >? 0))
    && Qltb fairness (DynamicCWController.target_fairness c) in
  exists w' c',
    DynamicCWController_monitor_and_adjust_round w = Ok tt w' /\
    controller w' = Some c' /\
    DynamicCWController.last_wifi_airtime c' = current_wifi_airtime /\
    DynamicCWController.last_nru_airtime c' = current_nru_airtime /\
    DynamicCWController.last_measurement_time c' = now w /\
    now w' = now w /\ channel w' = channel w /\
    (if adjusts then
       DynamicCWController.adjustment_history c'
       = DynamicCWController.adjustment_history c
         ++ [adjustment_entry w' wifi_delta nru_delta fairness] /\
       (0 <= wifi_delta -> 0 <= nru_delta ->
        (DynamicCWController.target_fairness c <= 441 # 442)%Q ->
        (exceeds_by_tenth wifi_delta nru_delta = true /\
         config_window WiFi w' = increased_window c (Config.cw_min (config w)))
        \/
        (exceeds_by_tenth nru_delta wifi_delta = true /\
         config_window NRU w'
         = increased_window c (Config_NR.cw_min (config_nr w))))
     else
       DynamicCWController.adjustment_history c'
       = DynamicCWController.adjustment_history c /\
       config w' = config w /\ config_nr w' = config_nr w /\
       stations w' = stations w /\ gnbs w' = gnbs w).
Proof.
  intros Hc cur_wifi cur_nru wifi_delta nru_delta fairness adjusts.
  unfold DynamicCWController_monitor_and_adjust_round. sim_step. sim_step.
  fold cur_wifi cur_nru. fold wifi_delta nru_delta. fold fairness.
  subst adjusts.
  destruct ((wifi_delta >? 0) || (nru_delta >? 0)); cbn [andb].
  - destruct (Qltb fairness (DynamicCWController.target_fairness c)) eqn:Elow.
    + destruct (adjust_contention_windows_cases w c wifi_delta nru_delta
                  fairness Hc) as (w1 & Hr & Hctl & Hnow & Hch & Hcase).
      rewrite (bind_ok _ _ _ _ _ Hr). sim_step.
      erewrite update_controller_ok by exact Hctl.
      do 2 eexists. split; [reflexivity|]. world_simpl.
      split; [reflexivity|].
      cbn [DynamicCWController.last_wifi_airtime
           DynamicCWController.last_nru_airtime
           DynamicCWController.last_measurement_time
           DynamicCWController.adjustment_history
           DynamicCWController.set_last
           DynamicCWController.set_adjustment_history].
      do 3 (split; [by rewrite ?Hnow|]). split; [exact Hnow|].
      split; [exact Hch|]. split; [reflexivity|].
      intros Hw Hn Ht.
      destruct (low_fairness_dominance _ _ _ Hw Hn Ht Elow) as [Hd|Hd].
      * left. split; [exact Hd|]. rewrite Hd in Hcase.
        destruct Hcase as (Hcfg & _). cbn [config_window]. world_simpl.
        rewrite Hcfg. unfold increased_window. by config_simpl.
      * destruct (exceeds_by_tenth wifi_delta nru_delta) eqn:Hd'.
        -- left. split; [reflexivity|].
           destruct Hcase as (Hcfg & _). cbn [config_window]. world_simpl.
           rewrite Hcfg. unfold increased_window. by config_simpl.
        -- right. split; [exact Hd|]. rewrite Hd in Hcase.
           destruct Hcase as (_ & Hcfg & _). cbn [config_window]. world_simpl.
           rewrite Hcfg. unfold increased_window. by config_simpl.
    + sim_step. sim_step. erewrite update_controller_ok by exact Hc.
      do 2 eexists. split; [reflexivity|]. world_simpl. by repeat split.
  - sim_step. sim_step. erewrite update_controller_ok by exact Hc.
    do 2 eexists. split; [reflexivity|]. world_simpl. by repeat split.
Qed.

(** ** Weakest preconditions, rule by rule *)

Lemma wp_ret {A} (a : A) (Q : A -> World -> Prop) w : Q a w -> wp (mret a) Q w.
Proof. done. Qed.

Lemma wp_raise {A} e (Q : A -> World -> Prop) w : wp (raise e) Q w.
Proof. done. Qed.

Lemma wp_bind {A B} (m : Sim A) (f : A -> Sim B) (Q : B -> World -> Prop) w :
  wp m (fun a w' => wp (f a) Q w') w -> wp (m ≫= f) Q w.
Proof. unfold wp, mbind, M_bind. by destruct (m w). Qed.

Lemma wp_get (Q : World -> World -> Prop) w : Q w w -> wp get Q w.
Proof. done. Qed.

Lemma wp_modify (f : World -> World) (Q : unit -> World -> Prop) w :
  Q tt (f w) -> wp (modify f) Q w.
Proof. done. Qed.

Lemma wp_deref {A} e (o : option A) (Q : A -> World -> Prop) w :
  (forall a, o = Some a -> Q a w) -> wp (deref e o) Q w.
Proof. destruct o; [intros H; by apply H | done]. Qed.

Lemma wp_station name (Q : Station.t -> World -> Prop) w :
  (forall self, stations w !! name = Some self -> Q self w) ->
  wp (station name) Q w.
Proof.
  intros H. unfold wp. destruct (stations w !! name) as [self|] eqn:E.
  - rewrite (station_ok _ _ _ E). by apply H.
  - by rewrite (station_raise _ _ E).
Qed.

Lemma wp_gnb name (Q : Gnb.t -> World -> Prop) w :
  (forall self, gnbs w !! name = Some self -> Q self w) -> wp (gnb name) Q w.
Proof.
  intros H. unfold wp. destruct (gnbs w !! name) as [self|] eqn:E.
  - rewrite (gnb_ok _ _ _ E). by apply H.
  - by rewrite (gnb_raise _ _ E).
Qed.

Lemma wp_the_controller (Q : DynamicCWController.t -> World -> Prop) w :
  (forall c, controller w = Some c -> Q c w) -> wp the_controller Q w.
Proof.
  intros H. unfold wp. destruct (controller w) as [c|] eqn:E.
  - rewrite (the_controller_ok _ _ E). by apply H.
  - by rewrite (the_controller_raise _ E).
Qed.

Lemma wp_update_station name f (Q : unit -> World -> Prop) w :
  (forall self, stations w !! name = Some self ->
     Q tt (set_stations (<[name := f self]> (stations w)) w)) ->
  wp (update_station name f) Q w.
Proof.
  intros H. unfold wp. destruct (stations w !! name) as [self|] eqn:E.
  - rewrite (update_station_ok _ _ _ _ E). by apply H.
  - unfold update_station. by rewrite (bind_raise _ _ _ _ (station_raise _ _ E)).
Qed.

Lemma wp_update_gnb name f (Q : unit -> World -> Prop) w :
  (forall self, gnbs w !! name = Some self ->
     Q tt (set_gnbs (<[name := f self]> (gnbs w)) w)) ->
  wp (update_gnb name f) Q w.
Proof.
  intros H. unfold wp. destruct (gnbs w !! name) as [self|] eqn:E.
  - rewrite (update_gnb_ok _ _ _ _ E). by apply H.
  - unfold update_gnb. by rewrite (bind_raise _ _ _ _ (gnb_raise _ _ E)).
Qed.

Lemma wp_update_controller f (Q : unit -> World -> Prop) w :
  (forall c, controller w = Some c -> Q tt (set_controller (Some (f c)) w)) ->
  wp (update_controller f) Q w.
Proof.
  intros H. unfold wp. destruct (controller w) as [c|] eqn:E.
  - rewrite (update_controller_ok _ _ _ E). by apply H.
  - unfold update_controller.
    by rewrite (bind_raise _ _ _ _ (the_controller_raise _ E)).
Qed.

Lemma wp_update_channel f (Q : unit -> World -> Prop) w :
  Q tt (set_channel (f (channel w)) w) -> wp (update_channel f) Q w.
Proof. done. Qed.

Lemma wp_randint a b (Q : Z -> World -> Prop) w :
  (a <= b ->
   Q (a + rng w (rng_pos w) `mod` (b - a + 1)) (set_rng_pos (S (rng_pos w)) w)) ->
  wp (randint a b) Q w.
Proof.
  intros H. unfold wp. destruct (decide (a <= b)) as [Hle|Hgt].
  - rewrite (randint_ok _ _ _ Hle). by apply H.
  - rewrite randint_raise by lia. done.
Qed.

Lemma wp_for_each {A} (I : World -> Prop) (l : list A) (body : A -> Sim unit) w :
  (forall x w, I w -> wp (body x) (fun _ => I) w) ->
  I w -> wp (for_each l body) (fun _ => I) w.
Proof.
  intros Hb. revert w. induction l as [|x l IH]; intros w HI; cbn [for_each].
  - by apply wp_ret.
  - apply wp_bind. specialize (Hb x w HI). unfold wp in *.
    destruct (body x w) as [[] w'|]; [|done]. by apply IH.
Qed.

Lemma wp_mono {A} (m : Sim A) (Q Q' : A -> World -> Prop) w :
  (forall a w', Q a w' -> Q' a w') -> wp m Q w -> wp m Q' w.
Proof. intros H. unfold wp. destruct (m w) as [a w'|]; [apply H | done]. Qed.

Lemma wp_ok {A} (m : Sim A) (Q : A -> World -> Prop) w a w' :
  wp m Q w -> m w = Ok a w' -> Q a w'.
Proof. unfold wp. intros H Hr. by rewrite Hr in H. Qed.

Lemma wp_preserves {A} (P : World -> Prop) (m : Sim A) :
  (forall w, P w -> wp m (fun _ => P) w) -> preserves P m.
Proof. intros H w a w' HP Hr. exact (wp_ok _ _ _ _ _ (H w HP) Hr). Qed.

Lemma preserves_wp {A} (P : World -> Prop) (m : Sim A) w :
  preserves P m -> P w -> wp m (fun _ => P) w.
Proof.
  intros H HP. unfold wp. destruct (m w) as [a w'|] eqn:E; [|done].
  exact (H _ _ _ HP E).
Qed.

Lemma dict_add_Some `{Countable K} (k : K) (v : Z) (d d' : gmap K Z) :
  dict_add k v d = Some d' ->
  exists old, d !! k = Some old /\ d' = <[k := old + v]> d.
Proof.
  unfold dict_add. destruct (d !! k) as [old|]; cbn; [|discriminate].
  intros [= <-]. by exists old.
Qed.

Ltac station_simpl :=
  cbn [Station.name Station.frame_to_send Station.succeeded_transmissions
       Station.failed_transmissions Station.failed_transmissions_in_row
       Station.cw_min Station.cw_max Station.back_off_time
       Station.total_latency Station.packet_count Station.packet_queue
       Station.is_transmitting
       Station.set_frame_to_send Station.set_succeeded_transmissions
       Station.set_failed_transmissions
       Station.set_failed_transmissions_in_row Station.set_cw
       Station.set_back_off_time Station.set_latency
       Station.set_is_transmitting
       Frame.frame_time Frame.station_name Frame.data_size Frame.t_start
       Frame.number_of_retransmissions Frame.t_end Frame.t_to_send
       Frame.packet_size Frame.set_number_of_retransmissions Frame.set_t_end
       Frame.set_t_to_send] in *.

Ltac gnb_simpl :=
  cbn [Gnb.name Gnb.transmission_to_send Gnb.succeeded_transmissions
       Gnb.failed_transmissions Gnb.failed_transmissions_in_row
       Gnb.cw_min Gnb.cw_max Gnb.next_sync_slot_boundry Gnb.back_off_time
       Gnb.time_to_next_sync_slot Gnb.is_transmitting
       Gnb.set_transmission_to_send Gnb.set_succeeded_transmissions
       Gnb.set_failed_transmissions Gnb.set_failed_transmissions_in_row
       Gnb.set_cw Gnb.set_next_sync_slot_boundry Gnb.set_back_off_time
       Gnb.set_time_to_next_sync_slot Gnb.set_is_transmitting
       Transmission_NR.transmission_time Transmission_NR.enb_name
       Transmission_NR.t_start Transmission_NR.airtime
       Transmission_NR.rs_time Transmission_NR.number_of_retransmissions
       Transmission_NR.t_end Transmission_NR.t_to_send
       Transmission_NR.collided Transmission_NR.packet_size
       Transmission_NR.set_number_of_retransmissions
       Transmission_NR.set_t_end Transmission_NR.set_t_to_send] in *.

Ltac channel_simpl' :=
  channel_simpl;
  cbn [Channel_set_back_off_list Channel_set_back_off_list_NR
       Channel.n_of_stations Channel.n_of_eNB Channel.backoffs
       Channel.airtime_data Channel.airtime_control Channel.airtime_data_NR
       Channel.airtime_control_NR Channel.tx_list Channel.back_off_list
       Channel.tx_list_NR Channel.back_off_list_NR
       Channel.failed_transmissions Channel.succeeded_transmissions
       Channel.bytes_sent Channel.failed_transmissions_NR
       Channel.succeeded_transmissions_NR] in *.

(** The hypothesis [H] that a step has brought, put to use. *)
Ltac wp_hyp H :=
  world_simpl;
  try rewrite lookup_insert_eq in H;
  try (injection H as <-);
  repeat
    match goal with
    | H1 : ?m !! ?k = Some ?a, H2 : ?m !! ?k = Some ?b |- _ =>
        first
          [ constr_eq a b; clear H2
          | assert (b = a) as -> by congruence; clear H2 ]
    | H1 : dict_add _ _ _ = Some _ |- _ =>
        let old := fresh "old" in
        let Hold := fresh "Hold" in
        apply dict_add_Some in H1 as (old & Hold & ->)
    end.

Ltac unfold_station_methods :=
  unfold Station_start_frame, Station_wait_back_off_begin,
    Station_send_frame_begin, Station_check_collision, Station_sent_failed,
    Station_sent_completed, Station_generate_new_frame,
    Station_generate_new_back_off_time, Station_send_frame_ack,
    Station_wait_back_off_countdown, Station_wait_back_off_done,
    Station_wait_back_off_interrupted, Station_send_frame_holder_end,
    Station_send_frame_leave, clear_tx_lists, Station_init.

Ltac unfold_gnb_methods :=
  unfold Gnb_sync_slot_counter_begin, Gnb_sync_slot_counter_round,
    Gnb_wait_back_off_gap_begin, Gnb_wait_back_off_gap_align,
    Gnb_send_transmission_begin, Gnb_check_collision, Gnb_sent_failed,
    Gnb_sent_completed, Gnb_gen_new_transmission,
    Gnb_generate_new_back_off_time, Gnb_send_transmission_account,
    Gnb_wait_back_off_gap_countdown, Gnb_wait_back_off_gap_done,
    Gnb_wait_back_off_gap_interrupted, Gnb_send_transmission_holder_end,
    Gnb_send_transmission_slave_end, clear_tx_lists, Gnb_init.

Ltac unfold_controller_methods :=
  unfold DynamicCWController_monitor_and_adjust_round,
    DynamicCWController_adjust_contention_windows,
    DynamicCWController_increase_wifi_cw, DynamicCWController_decrease_wifi_cw,
    DynamicCWController_increase_nru_cw, DynamicCWController_decrease_nru_cw.

Ltac wp_step :=
  lazymatch goal with
  | |- wp (mret _) _ _ => apply wp_ret
  | |- wp (_ ≫= _) _ _ => apply wp_bind
  | |- wp get _ _ => apply wp_get
  | |- wp (modify _) _ _ => apply wp_modify
  | |- wp (raise _) _ _ => apply wp_raise
  | |- wp (deref _ _) _ _ =>
      let H := fresh "Hd" in apply wp_deref; intros ? H; wp_hyp H
  | |- wp (station _) _ _ =>
      let H := fresh "Hs" in apply wp_station; intros ? H; wp_hyp H
  | |- wp (gnb _) _ _ =>
      let H := fresh "Hs" in apply wp_gnb; intros ? H; wp_hyp H
  | |- wp the_controller _ _ =>
      let H := fresh "Hc" in apply wp_the_controller; intros ? H; wp_hyp H
  | |- wp (update_station _ _) _ _ =>
      let H := fresh "Hs" in apply wp_update_station; intros ? H; wp_hyp H
  | |- wp (update_gnb _ _) _ _ =>
      let H := fresh "Hs" in apply wp_update_gnb; intros ? H; wp_hyp H
  | |- wp (update_controller _) _ _ =>
      let H := fresh "Hc" in apply wp_update_controller; intros ? H; wp_hyp H
  | |- wp (update_channel _) _ _ => apply wp_update_channel
  | |- wp (update_config _) _ _ => apply wp_modify
  | |- wp (update_config_nr _) _ _ => apply wp_modify
  | |- wp (randint _ _) _ _ => apply wp_randint; intros ?
  | |- wp (if ?b then _ else _) _ _ => destruct b eqn:?
  | |- wp (match ?x with _ => _ end) _ _ => destruct x eqn:?
  | |- wp (let _ := _ in _) _ _ => cbv zeta
  | |- wp (Gnb_advance_sync_slot _ _) _ _ => fail
  | |- wp (for_each _ _) _ _ => fail
  | |- wp _ _ _ =>
      progress
        (unfold_station_methods; unfold_gnb_methods; unfold_controller_methods)
  end;
  cbv beta iota; world_simpl; rewrite ?insert_insert_eq.

Ltac wp_run := repeat wp_step.

(** ** The Wi-Fi half of the invariant *)

Lemma stations_invariant_update w w' name self s' :
  stations_invariant w ->
  stations w !! name = Some self ->
  config w' = config w ->
  stations w' = <[name := s']> (stations w) ->
  (forall n, n <> name ->
     Channel.airtime_data (channel w') !! n
     = Channel.airtime_data (channel w) !! n) ->
  (forall n, n <> name ->
     is_Some (Channel.airtime_control (channel w) !! n) ->
     is_Some (Channel.airtime_control (channel w') !! n)) ->
  (station_invariant w name self -> station_invariant w' name s') ->
  stations_invariant w'.
Proof.
  intros Hinv Hs Hcfg Hst Had Hac Hnew n s Hl. rewrite Hst in Hl.
  destruct (decide (n = name)) as [->|Hne].
  - rewrite lookup_insert_eq in Hl. injection Hl as <-. apply Hnew, Hinv, Hs.
  - rewrite lookup_insert_ne in Hl by done.
    destruct (Hinv n s Hl) as (H1 & H2 & H3 & H4 & H5 & H6 & H7 & H8 & H9).
    unfold station_invariant. rewrite Hcfg, (Had n Hne).
    repeat (split; [assumption|]). by apply Hac.
Qed.

Lemma stations_invariant_view w w' :
  wifi_view w' = wifi_view w -> stations_invariant w -> stations_invariant w'.
Proof.
  unfold wifi_view. intros [= Hcfg Hst Had Hac] Hinv n s Hl.
  rewrite Hst in Hl. specialize (Hinv n s Hl).
  unfold station_invariant in *. by rewrite Hcfg, Had, Hac.
Qed.

Ltac lookup_other :=
  world_simpl; channel_simpl';
  rewrite ?lookup_insert_ne by congruence.

(** The invariant of the station [self] that a method has changed, from
    the one it had. *)
Ltac station_changed :=
  let Hname := fresh "Hname" in
  let Hmin := fresh "Hmin" in
  let Hmax := fresh "Hmax" in
  let Hq := fresh "Hq" in
  let Hlat := fresh "Hlat" in
  let Hcnt := fresh "Hcnt" in
  let Hfr := fresh "Hfr" in
  let Had := fresh "Had" in
  let Hac := fresh "Hac" in
  intros (Hname & Hmin & Hmax & Hq & Hlat & Hcnt & Hfr & Had & Hac);
  try congruence;
  unfold station_invariant; world_simpl; channel_simpl'; station_simpl;
  rewrite ?Hname in *;
  repeat
    match goal with
    | Hf : Station.frame_to_send _ = Some ?f |- _ =>
        destruct (Hfr f Hf) as [? ?]; clear Hf
    end;
  rewrite ?lookup_insert_eq;
  repeat
    match goal with
    | H1 : ?m !! ?k = Some ?a, H2 : ?m !! ?k = Some ?b |- _ =>
        assert (b = a) as -> by congruence; clear H2
    end;
  refine (conj _ (conj _ (conj _ (conj _ (conj _ (conj _ (conj _ (conj _ _))))))));
    try assumption; try reflexivity; try (by eexists);
    try (intros ? [= <-]; station_simpl; split; [done | intros; lia]);
    try (f_equal; lia).

Ltac station_close Hinv Hs :=
  let Hname := fresh "Hname" in
  pose proof (Hinv _ _ Hs) as (Hname & _);
  eapply (stations_invariant_update _ _ _ _ _ Hinv Hs);
  [ world_simpl; reflexivity
  | world_simpl; reflexivity
  | intros ? ?; station_simpl; rewrite ?Hname; lookup_other; reflexivity
  | intros ? ? ?; station_simpl; rewrite ?Hname; lookup_other; assumption
  | station_changed ].

Ltac view_close Hinv :=
  first
    [ exact Hinv
    | eapply stations_invariant_view; [|exact Hinv];
      unfold wifi_view; world_simpl; channel_simpl'; reflexivity ].

(** The loop of the alignment changes [time_to_next_sync_slot] of its gNB
    and nothing else. *)
Lemma wp_Gnb_advance_sync_slot (I : World -> Prop) (name : string) :
  (forall w self t,
     I w -> gnbs w !! name = Some self ->
     I (set_gnbs
          (<[name := Gnb.set_time_to_next_sync_slot t self]> (gnbs w)) w)) ->
  forall fuel w, I w -> wp (Gnb_advance_sync_slot fuel name) (fun _ => I) w.
Proof.
  intros HI fuel. induction fuel as [|fuel IH]; intros w Hw;
    cbn [Gnb_advance_sync_slot]; wp_run; try exact Hw.
  apply IH. by apply HI.
Qed.

Lemma stations_invariant_windows w w' a b :
  stations_invariant w ->
  Config.r_limit (config w') = Config.r_limit (config w) ->
  Config.cw_min (config w') = a ->
  Config.cw_max (config w') = b ->
  stations w' = (Station.set_cw a b <$> stations w) ->
  Channel.airtime_data (channel w') = Channel.airtime_data (channel w) ->
  Channel.airtime_control (channel w') = Channel.airtime_control (channel w) ->
  stations_invariant w'.
Proof.
  intros Hinv Hr Hmin Hmax Hst Had Hac n s Hl. rewrite Hst in Hl.
  rewrite lookup_fmap in Hl.
  destruct (stations w !! n) as [s0|] eqn:E; [|discriminate].
  cbn in Hl. injection Hl as <-.
  destruct (Hinv n s0 E) as (H1 & H2 & H3 & H4 & H5 & H6 & H7 & H8 & H9).
  unfold station_invariant. rewrite Hr, Hmin, Hmax, Had, Hac. station_simpl.
  by repeat (split; [assumption || reflexivity|]).
Qed.

Lemma stations_invariant_control w w' :
  stations_invariant w ->
  config w' = config w ->
  stations w' = stations w ->
  Channel.airtime_data (channel w') = Channel.airtime_data (channel w) ->
  (forall n, is_Some (Channel.airtime_control (channel w) !! n) ->
             is_Some (Channel.airtime_control (channel w') !! n)) ->
  stations_invariant w'.
Proof.
  intros Hinv Hcfg Hst Had Hac n s Hl. rewrite Hst in Hl.
  destruct (Hinv n s Hl) as (H1 & H2 & H3 & H4 & H5 & H6 & H7 & H8 & H9).
  unfold station_invariant. rewrite Hcfg, Had.
  repeat (split; [assumption|]). by apply Hac.
Qed.

Ltac control_close Hinv :=
  eapply stations_invariant_control;
  [ exact Hinv
  | world_simpl; reflexivity
  | world_simpl; reflexivity
  | world_simpl; channel_simpl'; reflexivity
  | intros ? ?; world_simpl; channel_simpl';
    rewrite lookup_insert_is_Some'; by right ].

Ltac windows_close Hinv :=
  eapply stations_invariant_windows;
  [ exact Hinv
  | world_simpl; config_simpl; reflexivity
  | world_simpl; config_simpl; reflexivity
  | world_simpl; config_simpl; reflexivity
  | world_simpl; config_simpl; reflexivity
  | world_simpl; reflexivity
  | world_simpl; reflexivity ].

Lemma stations_invariant_action gap a w :
  stations_invariant w ->
  wp (exec gap a) (fun _ => stations_invariant) w.
Proof.
  intros Hinv. destruct a; cbn [exec];
    unfold_station_methods; unfold_gnb_methods; unfold_controller_methods.
  - wp_run. view_close Hinv.
  - wp_run. station_close Hinv Hs.
  - wp_run. station_close Hinv Hs.
  - wp_run. station_close Hinv Hs.
  - wp_run; station_close Hinv Hs.
  - wp_run. control_close Hinv.
  - wp_run. view_close Hinv.
  - wp_run. view_close Hinv.
  - wp_run. view_close Hinv.
  - wp_run. view_close Hinv.
  - wp_run.
    eapply wp_mono; [|apply (wp_Gnb_advance_sync_slot stations_invariant)].
    + intros [] w' Hinv'. cbv beta in *. wp_run; exact Hinv'.
    + intros w0 self0 t Hinv0 _. view_close Hinv0.
    + view_close Hinv.
  - wp_run. view_close Hinv.
  - wp_run; view_close Hinv.
  - wp_run. view_close Hinv.
  - wp_run; first [view_close Hinv | windows_close Hinv].
Qed.

Lemma stations_invariant_fragment gap f w :
  stations_invariant w ->
  wp (run_fragment gap f) (fun _ => stations_invariant) w.
Proof.
  intros Hinv.
  destruct f; cbn [run_fragment]; [by apply stations_invariant_action|..];
    unfold_station_methods; unfold_gnb_methods; wp_run;
    first [view_close Hinv | station_close Hinv Hs | control_close Hinv].
Qed.

Lemma stations_invariant_insert w w' name s' :
  stations_invariant w ->
  config w' = config w ->
  stations w' = <[name := s']> (stations w) ->
  (forall n, n <> name ->
     Channel.airtime_data (channel w') !! n
     = Channel.airtime_data (channel w) !! n) ->
  (forall n, n <> name ->
     is_Some (Channel.airtime_control (channel w) !! n) ->
     is_Some (Channel.airtime_control (channel w') !! n)) ->
  station_invariant w' name s' ->
  stations_invariant w'.
Proof.
  intros Hinv Hcfg Hst Had Hac Hnew n s Hl. rewrite Hst in Hl.
  destruct (decide (n = name)) as [->|Hne].
  - rewrite lookup_insert_eq in Hl. by injection Hl as <-.
  - rewrite lookup_insert_ne in Hl by done.
    destruct (Hinv n s Hl) as (H1 & H2 & H3 & H4 & H5 & H6 & H7 & H8 & H9).
    unfold station_invariant. rewrite Hcfg, (Had n Hne).
    repeat (split; [assumption|]). by apply Hac.
Qed.

Lemma stations_invariant_Station_init name w :
  stations_invariant w ->
  wp (Station_init name) (fun _ => stations_invariant) w.
Proof.
  intros Hinv. unfold_station_methods. wp_run.
  eapply (stations_invariant_insert w); [exact Hinv | ..].
  - world_simpl. reflexivity.
  - world_simpl. reflexivity.
  - intros n Hn. lookup_other. reflexivity.
  - intros n Hn Hsome. lookup_other. assumption.
  - unfold station_invariant. world_simpl. channel_simpl'. station_simpl.
    rewrite !lookup_insert_eq. repeat split; try done; by eexists.
Qed.

Lemma stations_invariant_Gnb_init name w :
  stations_invariant w ->
  wp (Gnb_init name) (fun _ => stations_invariant) w.
Proof. intros Hinv. unfold_gnb_methods. wp_run. view_close Hinv. Qed.

Lemma stations_invariant_setup number_of_stations number_of_gnb
    enable_dynamic_cw w :
  stations_invariant w ->
  wp (run_simulation_setup number_of_stations number_of_gnb enable_dynamic_cw)
     (fun _ => stations_invariant) w.
Proof.
  intros Hinv. unfold run_simulation_setup.
  apply wp_bind.
  eapply wp_mono;
    [|apply (wp_for_each stations_invariant);
      [intros; by apply stations_invariant_Station_init | exact Hinv]].
  intros [] w1 H1. cbv beta in *. apply wp_bind.
  eapply wp_mono;
    [|apply (wp_for_each stations_invariant);
      [intros; by apply stations_invariant_Gnb_init | exact H1]].
  intros [] w2 H2. cbv beta in *. wp_run; view_close H2.
Qed.

(** ** The NR-U half of the invariant *)

Lemma gnbs_invariant_insert gap w w' name s' :
  gnbs_invariant gap w ->
  config_nr w' = config_nr w ->
  gnbs w' = <[name := s']> (gnbs w) ->
  (forall n, n <> name ->
     Channel.airtime_data_NR (channel w') !! n
     = Channel.airtime_data_NR (channel w) !! n) ->
  (forall n, n <> name ->
     Channel.airtime_control_NR (channel w') !! n
     = Channel.airtime_control_NR (channel w) !! n) ->
  gnb_invariant gap w' name s' ->
  gnbs_invariant gap w'.
Proof.
  intros Hinv Hcfg Hst Had Hac Hnew n s Hl. rewrite Hst in Hl.
  destruct (decide (n = name)) as [->|Hne].
  - rewrite lookup_insert_eq in Hl. by injection Hl as <-.
  - rewrite lookup_insert_ne in Hl by done.
    destruct (Hinv n s Hl) as (H1 & H2 & H3 & H4 & H5).
    unfold gnb_invariant. rewrite Hcfg, (Had n Hne), (Hac n Hne).
    by repeat (split; [assumption|]).
Qed.

Lemma gnbs_invariant_update gap w w' name self s' :
  gnbs_invariant gap w ->
  gnbs w !! name = Some self ->
  config_nr w' = config_nr w ->
  gnbs w' = <[name := s']> (gnbs w) ->
  (forall n, n <> name ->
     Channel.airtime_data_NR (channel w') !! n
     = Channel.airtime_data_NR (channel w) !! n) ->
  (forall n, n <> name ->
     Channel.airtime_control_NR (channel w') !! n
     = Channel.airtime_control_NR (channel w) !! n) ->
  (gnb_invariant gap w name self -> gnb_invariant gap w' name s') ->
  gnbs_invariant gap w'.
Proof.
  intros Hinv Hs Hcfg Hst Had Hac Hnew.
  eapply gnbs_invariant_insert; try eassumption. apply Hnew, Hinv, Hs.
Qed.

Lemma gnbs_invariant_view gap w w' :
  nru_view w' = nru_view w -> gnbs_invariant gap w -> gnbs_invariant gap w'.
Proof.
  unfold nru_view. intros [= Hcfg Hst Had Hac] Hinv n s Hl.
  rewrite Hst in Hl. specialize (Hinv n s Hl).
  unfold gnb_invariant in *. by rewrite Hcfg, Had, Hac.
Qed.

Lemma gnbs_invariant_windows gap w w' a b :
  gnbs_invariant gap w ->
  Config_NR.mcot (config_nr w') = Config_NR.mcot (config_nr w) ->
  Config_NR.cw_min (config_nr w') = a ->
  Config_NR.cw_max (config_nr w') = b ->
  gnbs w' = (Gnb.set_cw a b <$> gnbs w) ->
  Channel.airtime_data_NR (channel w') = Channel.airtime_data_NR (channel w) ->
  Channel.airtime_control_NR (channel w')
  = Channel.airtime_control_NR (channel w) ->
  gnbs_invariant gap w'.
Proof.
  intros Hinv Hr Hmin Hmax Hst Had Hac n s Hl. rewrite Hst in Hl.
  rewrite lookup_fmap in Hl.
  destruct (gnbs w !! n) as [s0|] eqn:E; [|discriminate].
  cbn in Hl. injection Hl as <-.
  destruct (Hinv n s0 E) as (H1 & H2 & H3 & H4 & H5).
  unfold gnb_invariant. rewrite Hr, Hmin, Hmax, Had, Hac. gnb_simpl.
  by repeat (split; [assumption || reflexivity|]).
Qed.

Ltac nru_view_close Hinv :=
  first
    [ exact Hinv
    | eapply gnbs_invariant_view; [|exact Hinv];
      unfold nru_view; world_simpl; channel_simpl'; reflexivity ].

Ltac nru_windows_close Hinv :=
  eapply gnbs_invariant_windows;
  [ exact Hinv
  | world_simpl; config_simpl; reflexivity
  | world_simpl; config_simpl; reflexivity
  | world_simpl; config_simpl; reflexivity
  | world_simpl; config_simpl; reflexivity
  | world_simpl; reflexivity
  | world_simpl; reflexivity ].

(** The invariant of the gNB [self] that a method has changed, from the
    one it had. *)
Ltac gnb_changed :=
  let Hname := fresh "Hname" in
  let Hmin := fresh "Hmin" in
  let Hmax := fresh "Hmax" in
  let Htr := fresh "Htr" in
  let data := fresh "data" in
  let control := fresh "control" in
  let Hdata := fresh "Hdata" in
  let Hcontrol := fresh "Hcontrol" in
  let Hdiv := fresh "Hdiv" in
  let Hgap := fresh "Hgap" in
  intros (Hname & Hmin & Hmax & Htr
          & (data & control & Hdata & Hcontrol & Hdiv & Hgap));
  unfold gnb_invariant; world_simpl; channel_simpl'; gnb_simpl;
  rewrite ?Hname in *;
  repeat
    match goal with
    | Hf : Gnb.transmission_to_send _ = Some ?t |- _ =>
        destruct (Htr t Hf) as (? & ? & ?); clear Hf
    end;
  rewrite ?lookup_insert_eq;
  repeat
    match goal with
    | H1 : ?m !! ?k = Some ?a, H2 : ?m !! ?k = Some ?b |- _ =>
        assert (b = a) as -> by congruence; clear H2
    end;
  refine (conj _ (conj _ (conj _ (conj _ _))));
    try assumption; try reflexivity;
    try (intros ? [= <-]; gnb_simpl;
         repeat split; try assumption; try lia;
         try (intros ->; reflexivity));
    try (exists data, control; repeat split; assumption);
    try (do 2 eexists; split; [reflexivity|]; split; [reflexivity|];
         split;
         [ match goal with
           | |- (_ | ?d + ?a + (?c + ?r)) =>
               replace (d + a + (c + r)) with ((d + c) + (a + r)) by lia;
               apply Z.divide_add_r; [exact Hdiv|];
               match goal with
               | Hsum : a + r = _ |- _ => rewrite Hsum; apply Z.divide_refl
               end
           end
         | let Hg := fresh "Hg" in
           intros Hg;
           repeat
             match goal with
             | Hi : ?g = true -> _ |- _ => specialize (Hi Hg)
             end;
           lia ]).

Ltac gnb_close Hinv Hs :=
  let Hname := fresh "Hname" in
  pose proof (Hinv _ _ Hs) as (Hname & _);
  eapply (gnbs_invariant_update _ _ _ _ _ _ Hinv Hs);
  [ world_simpl; reflexivity
  | world_simpl; first [reflexivity | symmetry; apply insert_id; exact Hs]
  | intros ? ?; gnb_simpl; rewrite ?Hname; lookup_other; reflexivity
  | intros ? ?; gnb_simpl; rewrite ?Hname; lookup_other; reflexivity
  | gnb_changed ].

Lemma gnbs_invariant_action gap a w :
  gnbs_invariant gap w ->
  wp (exec gap a) (fun _ => gnbs_invariant gap) w.
Proof.
  intros Hinv. destruct a; cbn [exec].
  - wp_run. nru_view_close Hinv.
  - wp_run. nru_view_close Hinv.
  - wp_run. nru_view_close Hinv.
  - wp_run. nru_view_close Hinv.
  - wp_run; nru_view_close Hinv.
  - wp_run. nru_view_close Hinv.
  - wp_run. nru_view_close Hinv.
  - wp_run. gnb_close Hinv Hs.
  - wp_run. gnb_close Hinv Hs.
  - wp_run. gnb_close Hinv Hs.
  - wp_run.
    eapply wp_mono;
      [|apply (wp_Gnb_advance_sync_slot (gnbs_invariant gap))].
    + intros [] w' Hinv'. cbv beta in *. wp_run; exact Hinv'.
    + intros w0 self0 t Hinv0 Hs0. gnb_close Hinv0 Hs0.
    + gnb_close Hinv Hs.
  - wp_run. gnb_close Hinv Hs.
  - wp_run; gnb_close Hinv Hs.
  - wp_run. gnb_close Hinv Hs.
  - wp_run; first [nru_view_close Hinv | nru_windows_close Hinv].
Qed.

Lemma gnbs_invariant_fragment gap f w :
  gnbs_invariant gap w ->
  wp (run_fragment gap f) (fun _ => gnbs_invariant gap) w.
Proof.
  intros Hinv.
  destruct f; cbn [run_fragment]; [by apply gnbs_invariant_action|..];
    wp_run; first [nru_view_close Hinv | gnb_close Hinv Hs].
Qed.

Lemma gnbs_invariant_Gnb_init gap name w :
  gnbs_invariant gap w ->
  wp (Gnb_init name) (fun _ => gnbs_invariant gap) w.
Proof.
  intros Hinv. wp_run.
  eapply (gnbs_invariant_insert gap w); [exact Hinv | ..].
  - world_simpl. reflexivity.
  - world_simpl. reflexivity.
  - intros n Hn. lookup_other. reflexivity.
  - intros n Hn. lookup_other. reflexivity.
  - unfold gnb_invariant. world_simpl. channel_simpl'. gnb_simpl.
    rewrite !lookup_insert_eq. repeat split; try done.
    exists 0, 0. repeat split; try done. apply Z.divide_0_r.
Qed.

Lemma gnbs_invariant_Station_init gap name w :
  gnbs_invariant gap w ->
  wp (Station_init name) (fun _ => gnbs_invariant gap) w.
Proof. intros Hinv. wp_run. nru_view_close Hinv. Qed.

Lemma gnbs_invariant_setup gap number_of_stations number_of_gnb
    enable_dynamic_cw w :
  gnbs_invariant gap w ->
  wp (run_simulation_setup number_of_stations number_of_gnb enable_dynamic_cw)
     (fun _ => gnbs_invariant gap) w.
Proof.
  intros Hinv. unfold run_simulation_setup.
  apply wp_bind.
  eapply wp_mono;
    [|apply (wp_for_each (gnbs_invariant gap));
      [intros; by apply gnbs_invariant_Station_init | exact Hinv]].
  intros [] w1 H1. cbv beta in *. apply wp_bind.
  eapply wp_mono;
    [|apply (wp_for_each (gnbs_invariant gap));
      [intros; by apply gnbs_invariant_Gnb_init | exact H1]].
  intros [] w2 H2. cbv beta in *. wp_run; nru_view_close H2.
Qed.

(** ** What a run leaves of the configs *)

Ltac unfold_fragments :=
  unfold Station_wait_back_off_countdown, Station_wait_back_off_done,
    Station_wait_back_off_interrupted, Station_send_frame_holder_end,
    Station_send_frame_leave, Gnb_wait_back_off_gap_countdown,
    Gnb_wait_back_off_gap_done, Gnb_wait_back_off_gap_interrupted,
    Gnb_send_transmission_holder_end, Gnb_send_transmission_slave_end.

Ltac constants_side :=
  first
    [ let w := fresh "w" in
      let H := fresh "H" in
      intros w H; unfold config_constants in *; world_simpl; config_simpl;
      exact H
    | let w := fresh "w" in
      let n := fresh "n" in
      let H := fresh "H" in
      intros w n H; exact H ].

Lemma constants_Gnb_advance_sync_slot cfg cfg_nr fuel name :
  preserves (config_constants cfg cfg_nr) (Gnb_advance_sync_slot fuel name).
Proof.
  induction fuel; cbn [Gnb_advance_sync_slot]; pres_with fail constants_side.
  exact IHfuel.
Qed.

Lemma constants_fragment cfg cfg_nr gap f :
  preserves (config_constants cfg cfg_nr) (run_fragment gap f).
Proof.
  destruct f as [a| | | | | | | | | |]; cbn [run_fragment];
    [destruct a; cbn [exec]|..];
    unfold_fragments; pres_with fail constants_side;
    apply constants_Gnb_advance_sync_slot.
Qed.

Lemma constants_setup cfg cfg_nr number_of_stations number_of_gnb
    enable_dynamic_cw :
  preserves (config_constants cfg cfg_nr)
    (run_simulation_setup number_of_stations number_of_gnb enable_dynamic_cw).
Proof. unfold run_simulation_setup. pres_with fail constants_side. Qed.

(** ** The invariant at the end of a run *)

Lemma wp_conj {A} (m : Sim A) (Q1 Q2 : A -> World -> Prop) w :
  wp m Q1 w -> wp m Q2 w -> wp m (fun a w' => Q1 a w' /\ Q2 a w') w.
Proof. unfold wp. by destruct (m w). Qed.

Lemma run_invariants
    (gap : bool) (number_of_stations number_of_gnb : Z)
    (enable_dynamic_cw : bool) (fragments : list fragment)
    (tape : nat -> Z) (tm : Times.t) (cfg : Config.t) (cfg_nr : Config_NR.t)
    (backoffs : gmap Z (gmap Z Z))
    (airtime_data airtime_control airtime_data_NR airtime_control_NR
       : gmap string Z) (w : World) :
  run_simulation_fragments gap number_of_stations number_of_gnb
    enable_dynamic_cw fragments
    (new_world tape tm number_of_stations number_of_gnb cfg cfg_nr backoffs
       airtime_data airtime_control airtime_data_NR airtime_control_NR)
  = Ok tt w ->
  stations_invariant w /\ gnbs_invariant gap w /\
  config_constants cfg cfg_nr w.
Proof.
  intros Hrun.
  set (I := fun w : World =>
              stations_invariant w /\ gnbs_invariant gap w /\
              config_constants cfg cfg_nr w).
  change (I w).
  assert (forall {A} (m : Sim A) w,
            (forall w, stations_invariant w ->
                       wp m (fun _ => stations_invariant) w) ->
            (forall w, gnbs_invariant gap w ->
                       wp m (fun _ => gnbs_invariant gap) w) ->
            preserves (config_constants cfg cfg_nr) m ->
            I w -> wp m (fun _ => I) w) as Hall.
  { intros A m w0 H1 H2 H3 (Hs & Hg & Hc).
    apply wp_conj; [by apply H1|].
    apply wp_conj; [by apply H2 | by apply preserves_wp]. }
  eapply (wp_ok _ (fun _ => I)); [|exact Hrun].
  unfold run_simulation_fragments. apply wp_bind.
  eapply wp_mono; [|apply Hall].
  - intros [] w1 H1. cbv beta in *. apply (wp_for_each I); [|exact H1].
    intros f w2 H2. apply Hall; [| | |exact H2].
    + intros. by apply stations_invariant_fragment.
    + intros. by apply gnbs_invariant_fragment.
    + apply constants_fragment.
  - intros. by apply stations_invariant_setup.
  - intros. by apply gnbs_invariant_setup.
  - apply constants_setup.
  - unfold new_world. split; [|split].
    + intros n s Hl. world_simpl. by rewrite lookup_empty in Hl.
    + intros n s Hl. world_simpl. by rewrite lookup_empty in Hl.
    + by repeat split.
Qed.

(** X9. At the end of every run, every station has the [cw_min] and
    [cw_max] of the Wi-Fi config and every gNB those of the NR-U config,
    whatever the controller has done to them in between. *)
Theorem run_nodes_carry_config_windows
    (gap : bool) (number_of_stations number_of_gnb : Z)
    (enable_dynamic_cw : bool) (fragments : list fragment)
    (tape : nat -> Z) (tm : Times.t) (cfg : Config.t) (cfg_nr : Config_NR.t)
    (backoffs : gmap Z (gmap Z Z))
    (airtime_data airtime_control airtime_data_NR airtime_control_NR
       : gmap string Z) (w : World) :
  run_simulation_fragments gap number_of_stations number_of_gnb
    enable_dynamic_cw fragments
    (new_world tape tm number_of_stations number_of_gnb cfg cfg_nr backoffs
       airtime_data airtime_control airtime_data_NR airtime_control_NR)
  = Ok tt w ->
  forall t name win,
    node_windows t w !! name = Some win -> win = config_window t w.
Proof.
  intros Hrun t name win Hwin.
  destruct (run_invariants _ _ _ _ _ _ _ _ _ _ _ _ _ _ _ Hrun)
    as (Hst & Hgn & _).
  destruct t; cbn [node_windows config_window] in *;
    rewrite lookup_fmap in Hwin.
  - destruct (stations w !! name) as [s|] eqn:E; [|discriminate].
    cbn in Hwin. injection Hwin as <-.
    destruct (Hst name s E) as (_ & -> & -> & _). reflexivity.
  - destruct (gnbs w !! name) as [s|] eqn:E; [|discriminate].
    cbn in Hwin. injection Hwin as <-.
    destruct (Hgn name s E) as (_ & -> & -> & _). reflexivity.
Qed.

(** X10. With a retry limit that is not negative, at the end of every run
    the frame of every station has been retransmitted at most [r_limit]
    times: a station drops the frame that has failed more often. *)
Theorem run_station_retransmissions_bounded
    (gap : bool) (number_of_stations number_of_gnb : Z)
    (enable_dynamic_cw : bool) (fragments : list fragment)
    (tape : nat -> Z) (tm : Times.t) (cfg : Config.t) (cfg_nr : Config_NR.t)
    (backoffs : gmap Z (gmap Z Z))
    (airtime_data airtime_control airtime_data_NR airtime_control_NR
       : gmap string Z) (w : World) :
  0 <= Config.r_limit cfg ->
  run_simulation_fragments gap number_of_stations number_of_gnb
    enable_dynamic_cw fragments
    (new_world tape tm number_of_stations number_of_gnb cfg cfg_nr backoffs
       airtime_data airtime_control airtime_data_NR airtime_control_NR)
  = Ok tt w ->
  forall name s frame,
    stations w !! name = Some s ->
    Station.frame_to_send s = Some frame ->
    0 <= Frame.number_of_retransmissions frame <= Config.r_limit cfg.
Proof.
  intros Hlimit Hrun name s frame Hs Hf.
  destruct (run_invariants _ _ _ _ _ _ _ _ _ _ _ _ _ _ _ Hrun)
    as (Hst & _ & (_ & Hr & _)).
  destruct (Hst name s Hs) as (_ & _ & _ & _ & _ & _ & Hfr & _).
  destruct (Hfr frame Hf) as [_ Hb]. rewrite Hr in Hb. by apply Hb.
Qed.

(** X11. At the end of every run, the data airtime of a station is 5400
    microseconds for each of its successful transmissions, whatever
    [data_size] and [mcs] the config has and whatever the airtime dict held
    when it was passed in. *)
Theorem run_wifi_airtime_counts_successes
    (gap : bool) (number_of_stations number_of_gnb : Z)
    (enable_dynamic_cw : bool) (fragments : list fragment)
    (tape : nat -> Z) (tm : Times.t) (cfg : Config.t) (cfg_nr : Config_NR.t)
    (backoffs : gmap Z (gmap Z Z))
    (airtime_data airtime_control airtime_data_NR airtime_control_NR
       : gmap string Z) (w : World) :
  run_simulation_fragments gap number_of_stations number_of_gnb
    enable_dynamic_cw fragments
    (new_world tape tm number_of_stations number_of_gnb cfg cfg_nr backoffs
       airtime_data airtime_control airtime_data_NR airtime_control_NR)
  = Ok tt w ->
  forall name s,
    stations w !! name = Some s ->
    Station.name s = name /\
    Channel.airtime_data (channel w) !! name
    = Some (5400 * Station.succeeded_transmissions s).
Proof.
  intros Hrun name s Hs.
  destruct (run_invariants _ _ _ _ _ _ _ _ _ _ _ _ _ _ _ Hrun)
    as (Hst & _).
  by destruct (Hst name s Hs) as (? & _ & _ & _ & _ & _ & _ & ? & _).
Qed.

Lemma wifi_latency_totals_zero w :
  (forall name s, stations w !! name = Some s ->
     Station.total_latency s = 0 /\ Station.packet_count s = 0) ->
  wifi_latency_totals w = (0, 0).
Proof.
  unfold wifi_latency_totals. generalize (stations w). intros m.
  induction m as [|name s m Hname Hfold IH] using map_first_key_ind.
  - intros _. apply map_fold_empty.
  - intros Hall. rewrite map_fold_insert_first_key by done.
    rewrite IH.
    + destruct (Hall name s (lookup_insert_eq _ _ _)) as [-> ->]. reflexivity.
    + intros n s' Hl. apply (Hall n s').
      rewrite lookup_insert_ne; [done|]. intros ->. congruence.
Qed.

(** X12. At the end of every run no station has a packet queued or a
    latency recorded: nothing fills [packet_queue], so that the Wi-Fi
    latency that [run_simulation] reports is 0. *)
Theorem run_wifi_latency_zero
    (gap : bool) (number_of_stations number_of_gnb : Z)
    (enable_dynamic_cw : bool) (fragments : list fragment)
    (tape : nat -> Z) (tm : Times.t) (cfg : Config.t) (cfg_nr : Config_NR.t)
    (backoffs : gmap Z (gmap Z Z))
    (airtime_data airtime_control airtime_data_NR airtime_control_NR
       : gmap string Z) (w : World) :
  run_simulation_fragments gap number_of_stations number_of_gnb
    enable_dynamic_cw fragments
    (new_world tape tm number_of_stations number_of_gnb cfg cfg_nr backoffs
       airtime_data airtime_control airtime_data_NR airtime_control_NR)
  = Ok tt w ->
  (forall name s, stations w !! name = Some s ->
     Station.packet_queue s = [] /\
     Station.total_latency s = 0 /\ Station.packet_count s = 0) /\
  wifi_latency_totals w = (0, 0) /\
  avg_wifi_latency w = Some 0%Q.
Proof.
  intros Hrun.
  destruct (run_invariants _ _ _ _ _ _ _ _ _ _ _ _ _ _ _ Hrun)
    as (Hst & _).
  assert (forall name s, stations w !! name = Some s ->
     Station.packet_queue s = [] /\
     Station.total_latency s = 0 /\ Station.packet_count s = 0) as Hall.
  { intros name s Hs.
    by destruct (Hst name s Hs) as (_ & _ & _ & ? & ? & ? & _). }
  assert (wifi_latency_totals w = (0, 0)) as Hz.
  { apply wifi_latency_totals_zero. intros name s Hs.
    by destruct (Hall name s Hs) as (_ & ? & ?). }
  split; [exact Hall|]. split; [exact Hz|].
  unfold avg_wifi_latency. by rewrite Hz.
Qed.

(** X13. At the end of every run, the data airtime and the control airtime
    of a gNB add up to a multiple of [mcot] milliseconds; in gap mode the
    control airtime is 0 (no transmission has a reservation signal) and the
    whole of it is data airtime. *)
Theorem run_nru_airtime_in_mcot_units
    (gap : bool) (number_of_stations number_of_gnb : Z)
    (enable_dynamic_cw : bool) (fragments : list fragment)
    (tape : nat -> Z) (tm : Times.t) (cfg : Config.t) (cfg_nr : Config_NR.t)
    (backoffs : gmap Z (gmap Z Z))
    (airtime_data airtime_control airtime_data_NR airtime_control_NR
       : gmap string Z) (w : World) :
  run_simulation_fragments gap number_of_stations number_of_gnb
    enable_dynamic_cw fragments
    (new_world tape tm number_of_stations number_of_gnb cfg cfg_nr backoffs
       airtime_data airtime_control airtime_data_NR airtime_control_NR)
  = Ok tt w ->
  forall name s,
    gnbs w !! name = Some s ->
    exists data control,
      Channel.airtime_data_NR (channel w) !! name = Some data /\
      Channel.airtime_control_NR (channel w) !! name = Some control /\
      (Config_NR.mcot cfg_nr * 1000 | data + control) /\
      (gap = true ->
       control = 0 /\
       forall transmission,
         Gnb.transmission_to_send s = Some transmission ->
         Transmission_NR.rs_time transmission = 0 /\
         Transmission_NR.airtime transmission = Config_NR.mcot cfg_nr * 1000).
Proof.
  intros Hrun name s Hs.
  destruct (run_invariants _ _ _ _ _ _ _ _ _ _ _ _ _ _ _ Hrun)
    as (_ & Hgn & Hconst).
  destruct Hconst as (_ & _ & _ & _ & _ & _ & _ & _ & _ & Hmcot).
  destruct (Hgn name s Hs)
    as (_ & _ & _ & Htr & (data & control & Hd & Hc & Hdiv & Hgap)).
  rewrite Hmcot in *. exists data, control.
  repeat (split; [assumption|]). intros Hg. split; [by apply Hgap|].
  intros tr Htr'. destruct (Htr tr Htr') as (_ & Hsum & Hrs).
  specialize (Hrs Hg). split; [exact Hrs | lia].
Qed.

(** ** The collision probabilities of a run *)

Ltac counters_side :=
  first
    [ let w := fresh "w" in
      let H := fresh "H" in
      intros w H; unfold counters_nonneg in *; world_simpl; channel_simpl';
      lia
    | let w := fresh "w" in
      let n := fresh "n" in
      let H := fresh "H" in
      intros w n H; exact H ].

Lemma counters_Gnb_advance_sync_slot fuel name :
  preserves counters_nonneg (Gnb_advance_sync_slot fuel name).
Proof.
  induction fuel; cbn [Gnb_advance_sync_slot]; pres_with fail counters_side.
  exact IHfuel.
Qed.

Lemma counters_fragment gap f :
  preserves counters_nonneg (run_fragment gap f).
Proof.
  destruct f as [a| | | | | | | | | |]; cbn [run_fragment];
    [destruct a; cbn [exec]|..];
    unfold_fragments; pres_with fail counters_side;
    apply counters_Gnb_advance_sync_slot.
Qed.

Lemma counters_setup number_of_stations number_of_gnb enable_dynamic_cw :
  preserves counters_nonneg
    (run_simulation_setup number_of_stations number_of_gnb enable_dynamic_cw).
Proof. unfold run_simulation_setup. pres_with fail counters_side. Qed.

Lemma run_counters_nonneg
    (gap : bool) (number_of_stations number_of_gnb : Z)
    (enable_dynamic_cw : bool) (fragments : list fragment)
    (tape : nat -> Z) (tm : Times.t) (cfg : Config.t) (cfg_nr : Config_NR.t)
    (backoffs : gmap Z (gmap Z Z))
    (airtime_data airtime_control airtime_data_NR airtime_control_NR
       : gmap string Z) (w : World) :
  run_simulation_fragments gap number_of_stations number_of_gnb
    enable_dynamic_cw fragments
    (new_world tape tm number_of_stations number_of_gnb cfg cfg_nr backoffs
       airtime_data airtime_control airtime_data_NR airtime_control_NR)
  = Ok tt w ->
  counters_nonneg w.
Proof.
  intros Hrun. unfold run_simulation_fragments in Hrun.
  apply bind_inv in Hrun as ([] & w0 & Hsetup & Hsched).
  eapply (preserves_for_each counters_nonneg); [| |exact Hsched].
  - intros f. apply counters_fragment.
  - eapply counters_setup; [|exact Hsetup]. by cbv.
Qed.

Lemma p_coll_spec_unit_interval (failures successes : Z) :
  0 <= failures -> 0 <= successes ->
  (0 <= p_coll_spec failures successes)%Q /\
  (p_coll_spec failures successes <= 1)%Q.
Proof.
  intros Hf Hs. unfold p_coll_spec.
  destruct (failures + successes =? 0) eqn:E; [done|].
  split.
  - apply (Qdiv_Z_le_l _ _ 0 1); lia.
  - apply (Qdiv_Z_le_r _ _ 1 1); lia.
Qed.

(** X14. At the end of every run the four transmission counters of the
    channel are not negative, and the two collision probabilities that
    [run_simulation] computes from them lie in [[0, 1]]. *)
Theorem run_collision_probabilities_in_unit_interval
    (gap : bool) (number_of_stations number_of_gnb : Z)
    (enable_dynamic_cw : bool) (fragments : list fragment)
    (tape : nat -> Z) (tm : Times.t) (cfg : Config.t) (cfg_nr : Config_NR.t)
    (backoffs : gmap Z (gmap Z Z))
    (airtime_data airtime_control airtime_data_NR airtime_control_NR
       : gmap string Z) (w : World) :
  run_simulation_fragments gap number_of_stations number_of_gnb
    enable_dynamic_cw fragments
    (new_world tape tm number_of_stations number_of_gnb cfg cfg_nr backoffs
       airtime_data airtime_control airtime_data_NR airtime_control_NR)
  = Ok tt w ->
  counters_nonneg w /\
  exists p_coll p_coll_NR,
    collision_probabilities number_of_stations number_of_gnb w
    = Ok (p_coll, p_coll_NR) w /\
    (0 <= p_coll)%Q /\ (p_coll <= 1)%Q /\
    (0 <= p_coll_NR)%Q /\ (p_coll_NR <= 1)%Q.
Proof.
  intros Hrun.
  pose proof (run_counters_nonneg _ _ _ _ _ _ _ _ _ _ _ _ _ _ _ Hrun)
    as Hnonneg.
  split; [exact Hnonneg|]. destruct Hnonneg as (Hf & Hs & Hfn & Hsn).
  rewrite collision_probabilities_value. do 2 eexists.
  split; [reflexivity|].
  destruct (p_coll_spec_unit_interval _ _ Hf Hs) as [? ?].
  destruct (p_coll_spec_unit_interval _ _ Hfn Hsn) as [? ?].
  destruct (negb (number_of_stations =? 0)), (negb (number_of_gnb =? 0));
    repeat split; done.
Qed.

(** ** The airtime entries of the nodes *)

Ltac registered_close H :=
  let H1 := fresh "H" in
  let H2 := fresh "H" in
  first
    [ exact H
    | destruct H as [H1 H2];
      unfold registered_station, registered_gnb in *;
      world_simpl; channel_simpl';
      split; rewrite ?lookup_insert_is_Some'; auto ].

Lemma registered_station_fragment k gap f w :
  registered_station k w ->
  wp (run_fragment gap f) (fun _ => registered_station k) w.
Proof.
  intros Hinv.
  destruct f as [a| | | | | | | | | |]; cbn [run_fragment];
    [destruct a; cbn [exec]|..];
    unfold_station_methods; unfold_gnb_methods; unfold_controller_methods;
    wp_run; try registered_close Hinv.
  eapply wp_mono;
    [|apply (wp_Gnb_advance_sync_slot (registered_station k))].
  - intros [] w' Hinv'. cbv beta in *. wp_run; registered_close Hinv'.
  - intros w0 self0 t Hinv0 _. registered_close Hinv0.
  - registered_close Hinv.
Qed.

Lemma registered_gnb_fragment k gap f w :
  registered_gnb k w ->
  wp (run_fragment gap f) (fun _ => registered_gnb k) w.
Proof.
  intros Hinv.
  destruct f as [a| | | | | | | | | |]; cbn [run_fragment];
    [destruct a; cbn [exec]|..];
    unfold_station_methods; unfold_gnb_methods; unfold_controller_methods;
    wp_run; try registered_close Hinv.
  eapply wp_mono;
    [|apply (wp_Gnb_advance_sync_slot (registered_gnb k))].
  - intros [] w' Hinv'. cbv beta in *. wp_run; registered_close Hinv'.
  - intros w0 self0 t Hinv0 _. registered_close Hinv0.
  - registered_close Hinv.
Qed.

Lemma Station_init_registers name w :
  wp (Station_init name) (fun _ => registered_station name) w.
Proof.
  unfold_station_methods. wp_run.
  unfold registered_station. world_simpl. channel_simpl'.
  rewrite !lookup_insert_eq. by split.
Qed.

Lemma Gnb_init_registers name w :
  wp (Gnb_init name) (fun _ => registered_gnb name) w.
Proof.
  unfold_gnb_methods. wp_run.
  unfold registered_gnb. world_simpl. channel_simpl'.
  rewrite !lookup_insert_eq. by split.
Qed.

Lemma registered_station_Station_init k name w :
  registered_station k w ->
  wp (Station_init name) (fun _ => registered_station k) w.
Proof. intros Hinv. unfold_station_methods. wp_run. registered_close Hinv. Qed.

Lemma registered_station_Gnb_init k name w :
  registered_station k w ->
  wp (Gnb_init name) (fun _ => registered_station k) w.
Proof. intros Hinv. unfold_gnb_methods. wp_run. registered_close Hinv. Qed.

Lemma registered_gnb_Gnb_init k name w :
  registered_gnb k w ->
  wp (Gnb_init name) (fun _ => registered_gnb k) w.
Proof. intros Hinv. unfold_gnb_methods. wp_run. registered_close Hinv. Qed.

(** A loop of constructors registers each name of its list. *)
Lemma for_each_registers (P : string -> World -> Prop)
    (init : string -> Sim unit) (name : Z -> string) (l : list Z) :
  (forall k w, wp (init k) (fun _ => P k) w) ->
  (forall k k' w, P k w -> wp (init k') (fun _ => P k) w) ->
  forall w,
    wp (for_each l (fun i => init (name i)))
       (fun _ w' => forall i, i ∈ l -> P (name i) w') w.
Proof.
  intros Hnew Hkeep. induction l as [|x l IH]; intros w; cbn [for_each].
  - apply wp_ret. intros i Hi. by apply elem_of_nil in Hi.
  - apply wp_bind. eapply wp_mono; [|apply Hnew].
    intros [] w1 H1. cbv beta in *.
    eapply wp_mono;
      [|apply wp_conj;
        [apply IH
        |apply (wp_for_each (P (name x)));
         [intros; by apply Hkeep | exact H1]]].
    intros [] w2 [Hl Hx] i Hi. cbv beta in *.
    apply elem_of_cons in Hi as [->|Hi]; [exact Hx | by apply Hl].
Qed.

Lemma all_registered_setup number_of_stations number_of_gnb
    enable_dynamic_cw w :
  wp (run_simulation_setup number_of_stations number_of_gnb enable_dynamic_cw)
     (fun _ => all_registered number_of_stations number_of_gnb) w.
Proof.
  unfold run_simulation_setup. apply wp_bind.
  eapply wp_mono;
    [|apply (for_each_registers registered_station Station_init station_name)];
    [|apply Station_init_registers
     |intros; by apply registered_station_Station_init].
  intros [] w1 H1. cbv beta in *. apply wp_bind.
  eapply wp_mono;
    [|apply wp_conj;
      [apply (for_each_registers registered_gnb Gnb_init gnb_name);
       [apply Gnb_init_registers | intros; by apply registered_gnb_Gnb_init]
      |apply (wp_for_each
                (fun w => forall i, i ∈ range1 number_of_stations ->
                                    registered_station (station_name i) w));
       [|exact H1]]].
  - intros [] w2 [Hg Hs]. cbv beta in *.
    assert (all_registered number_of_stations number_of_gnb w2) as Hall.
    { split; intros i Hi; [apply Hs | apply Hg];
        apply elem_of_seqZ; lia. }
    wp_run; exact Hall.
  - intros i w0 H0. unfold wp.
    destruct (Gnb_init (gnb_name i) w0) as [[] w'|] eqn:E; [|done].
    intros j Hj.
    exact (wp_ok _ _ _ _ _
             (registered_station_Gnb_init _ (gnb_name i) _ (H0 j Hj)) E).
Qed.

Lemma all_registered_fragment number_of_stations number_of_gnb gap f w :
  all_registered number_of_stations number_of_gnb w ->
  wp (run_fragment gap f)
     (fun _ => all_registered number_of_stations number_of_gnb) w.
Proof.
  intros [Hs Hg]. unfold wp.
  destruct (run_fragment gap f w) as [a w'|] eqn:E; [|done].
  split; intros i Hi.
  - exact (wp_ok _ _ _ _ _ (registered_station_fragment _ gap f _ (Hs i Hi)) E).
  - exact (wp_ok _ _ _ _ _ (registered_gnb_fragment _ gap f _ (Hg i Hi)) E).
Qed.

(** Whatever the dicts held when they were passed in, at the end of a run
    every node of the run has its entries. *)
Lemma run_all_registered gap number_of_stations number_of_gnb
    enable_dynamic_cw fragments w0 w :
  run_simulation_fragments gap number_of_stations number_of_gnb
    enable_dynamic_cw fragments w0 = Ok tt w ->
  all_registered number_of_stations number_of_gnb w.
Proof.
  intros Hrun.
  eapply (wp_ok _ (fun _ => all_registered number_of_stations number_of_gnb));
    [|exact Hrun].
  unfold run_simulation_fragments. apply wp_bind.
  eapply wp_mono; [|apply all_registered_setup].
  intros [] w1 H1. cbv beta in *.
  apply (wp_for_each (all_registered number_of_stations number_of_gnb));
    [|exact H1].
  intros f w2 H2. by apply all_registered_fragment.
Qed.

(** ** The metrics at the end of a run *)

Lemma fold_for_airtime (l : list Z) (name : Z -> string)
    (data control : gmap string Z) (acc : Z * Z) (w : World) :
  (forall i, i ∈ l -> is_Some (data !! name i) /\ is_Some (control !! name i)) ->
  exists r,
    fold_for l
      (fun '(occupancy, efficiency) i =>
         d ← deref KeyError (data !! name i);
         c ← deref KeyError (control !! name i);
         mret (occupancy + (d + c), efficiency + d))
      acc w
    = Ok r w.
Proof.
  revert acc. induction l as [|x l IH]; intros [o e] Hl; cbn [fold_for].
  - by eexists.
  - destruct (Hl x) as [[d Hd] [c Hc]]; [by left|].
    rewrite Hd, Hc. cbn [deref]. sim_run.
    apply IH. intros i Hi. apply Hl. by right.
Qed.

Lemma channel_times_returns number_of_stations number_of_gnb w :
  all_registered number_of_stations number_of_gnb w ->
  exists r, channel_times number_of_stations number_of_gnb w = Ok r w.
Proof.
  intros [Hs Hg]. unfold channel_times. sim_step.
  destruct (fold_for_airtime (range1 number_of_stations) station_name
              (Channel.airtime_data (channel w))
              (Channel.airtime_control (channel w)) (0, 0) w) as [wifi Hwifi].
  { intros i Hi. apply elem_of_seqZ in Hi. apply Hs. lia. }
  destruct (fold_for_airtime (range1 number_of_gnb) gnb_name
              (Channel.airtime_data_NR (channel w))
              (Channel.airtime_control_NR (channel w)) (0, 0) w) as [nru Hnru].
  { intros i Hi. apply elem_of_seqZ in Hi. apply Hg. lia. }
  rewrite (bind_ok _ _ _ _ _ Hwifi), (bind_ok _ _ _ _ _ Hnru).
  by eexists.
Qed.

(** X15. At the end of every run, from whatever world and airtime dicts
    it started, the two loops of [run_simulation] that add up the airtimes
    of [Station 1 .. Station n] and [Gnb 1 .. Gnb m] find every entry they
    read: they raise no [KeyError], return the four sums and leave the
    world as it is. *)
Theorem run_channel_times_return
    (gap : bool) (number_of_stations number_of_gnb : Z)
    (enable_dynamic_cw : bool) (fragments : list fragment)
    (w0 w : World) :
  run_simulation_fragments gap number_of_stations number_of_gnb
    enable_dynamic_cw fragments w0 = Ok tt w ->
  all_registered number_of_stations number_of_gnb w /\
  exists sums, channel_times number_of_stations number_of_gnb w = Ok sums w.
Proof.
  intros Hrun.
  pose proof (run_all_registered _ _ _ _ _ _ _ Hrun) as Hreg.
  split; [exact Hreg | by apply channel_times_returns].
Qed.

(** ** The histogram of the draws *)

Lemma runner_backoffs_lookup (wifi_count : Z) (wifi_config : Config.t) (b : Z) :
  runner_backoffs wifi_count wifi_config !! b
  = if decide (0 <= b <= Config.cw_max wifi_config)
    then Some {[wifi_count := 0]} else None.
Proof.
  unfold runner_backoffs.
  set (l := (fun key : Z => (key, ({[wifi_count := 0]} : gmap Z Z)))
              <$> seqZ 0 (Config.cw_max wifi_config + 1)).
  assert (l.*1 = seqZ 0 (Config.cw_max wifi_config + 1)) as Hkeys.
  { unfold l. rewrite <- list_fmap_compose. apply list_fmap_id. }
  destruct (decide (0 <= b <= Config.cw_max wifi_config)) as [Hin|Hout].
  - apply elem_of_list_to_map_1.
    + rewrite Hkeys. apply NoDup_seqZ.
    + unfold l. apply list_elem_of_fmap. exists b. split; [reflexivity|].
      apply elem_of_seqZ. lia.
  - apply not_elem_of_list_to_map_1. rewrite Hkeys.
    intros Hb. apply elem_of_seqZ in Hb. lia.
Qed.

Lemma histogram_rows_view cw_max w w' :
  histogram_rows cw_max w ->
  Channel.backoffs (channel w') = Channel.backoffs (channel w) ->
  Channel.n_of_stations (channel w') = Channel.n_of_stations (channel w) ->
  histogram_rows cw_max w'.
Proof. intros Hinv Hb Hn b. rewrite Hb, Hn. apply Hinv. Qed.

Lemma histogram_rows_draw cw_max w w' b row count :
  histogram_rows cw_max w ->
  Channel.backoffs (channel w) !! b = Some row ->
  Channel.backoffs (channel w')
  = <[b := <[Channel.n_of_stations (channel w) := count]> row]>
      (Channel.backoffs (channel w)) ->
  Channel.n_of_stations (channel w') = Channel.n_of_stations (channel w) ->
  histogram_rows cw_max w'.
Proof.
  intros Hinv Hrow Hb Hn b'. rewrite Hb, Hn.
  destruct (Hinv b') as [Hin Hout].
  destruct (decide (b' = b)) as [->|Hne].
  - rewrite lookup_insert_eq. split.
    + intros _. eexists. split; [reflexivity|].
      rewrite lookup_insert_eq. by eexists.
    + intros Hb'. specialize (Hout Hb'). congruence.
  - rewrite lookup_insert_ne by done. by split.
Qed.

Ltac histogram_close Hinv :=
  first
    [ exact Hinv
    | eapply histogram_rows_view; [exact Hinv | ..];
      world_simpl; channel_simpl'; reflexivity
    | eapply histogram_rows_draw; [exact Hinv | eassumption | ..];
      world_simpl; channel_simpl'; reflexivity ].

Lemma histogram_rows_fragment cw_max gap f w :
  histogram_rows cw_max w ->
  wp (run_fragment gap f) (fun _ => histogram_rows cw_max) w.
Proof.
  intros Hinv.
  destruct f as [a| | | | | | | | | |]; cbn [run_fragment];
    [destruct a; cbn [exec]|..];
    unfold_station_methods; unfold_gnb_methods; unfold_controller_methods;
    wp_run; try histogram_close Hinv.
  eapply wp_mono;
    [|apply (wp_Gnb_advance_sync_slot (histogram_rows cw_max))].
  - intros [] w' Hinv'. cbv beta in *. wp_run; histogram_close Hinv'.
  - intros w0 self0 t Hinv0 _. histogram_close Hinv0.
  - histogram_close Hinv.
Qed.

Lemma histogram_rows_setup cw_max number_of_stations number_of_gnb
    enable_dynamic_cw w :
  histogram_rows cw_max w ->
  wp (run_simulation_setup number_of_stations number_of_gnb enable_dynamic_cw)
     (fun _ => histogram_rows cw_max) w.
Proof.
  intros Hinv. unfold run_simulation_setup. apply wp_bind.
  eapply wp_mono;
    [|apply (wp_for_each (histogram_rows cw_max)); [|exact Hinv]].
  - intros [] w1 H1. cbv beta in *. apply wp_bind.
    eapply wp_mono;
      [|apply (wp_for_each (histogram_rows cw_max)); [|exact H1]].
    + intros [] w2 H2. cbv beta in *. wp_run; histogram_close H2.
    + intros i w0 H0. unfold_gnb_methods. wp_run. histogram_close H0.
  - intros i w0 H0. unfold_station_methods. wp_run. histogram_close H0.
Qed.

(** The histogram the runners build keeps its rows through a run. *)
Lemma run_histogram_rows gap wifi_count gnb_count enable_dynamic_cw fragments
    tape tm wifi_config nru_config w :
  run_simulation_fragments gap wifi_count gnb_count enable_dynamic_cw fragments
    (runner_world tape tm wifi_count gnb_count wifi_config nru_config)
  = Ok tt w ->
  histogram_rows (Config.cw_max wifi_config) w.
Proof.
  intros Hrun.
  eapply (wp_ok _ (fun _ => histogram_rows (Config.cw_max wifi_config)));
    [|exact Hrun].
  unfold run_simulation_fragments. apply wp_bind.
  eapply wp_mono; [|apply histogram_rows_setup].
  - intros [] w1 H1. cbv beta in *.
    apply (wp_for_each (histogram_rows (Config.cw_max wifi_config)));
      [|exact H1].
    intros f w2 H2. by apply histogram_rows_fragment.
  - intros b. unfold runner_world, new_world. world_simpl. channel_simpl'.
    rewrite runner_backoffs_lookup.
    destruct (decide (0 <= b <= Config.cw_max wifi_config)) as [Hin|Hout].
    + split; [|done]. intros _. eexists. split; [reflexivity|].
      rewrite lookup_singleton_eq. by eexists.
    + by split.
Qed.

(** X16. The histogram [backoffs] that the runners pass to
    [run_simulation] has the rows [0 .. cw_max] of the Wi-Fi config as it
    is at the start, each with the one column [wifi_count]. At any point
    of a run a node that draws a backoff therefore gets it (the slot count
    [b] times its slot, with [b] counted in the histogram) exactly when [b]
    is at most that initial Wi-Fi [cw_max]; a larger [b], which a gNB with
    a wider window or any node after the controller has widened the
    windows can draw, raises [KeyError], and a negative upper limit raises
    [ValueError]. *)
Theorem runner_draw_outcome
    (gap : bool) (wifi_count gnb_count : Z) (enable_dynamic_cw : bool)
    (fragments : list fragment) (tape : nat -> Z) (tm : Times.t)
    (wifi_config : Config.t) (nru_config : Config_NR.t) (w : World)
    (n : node) (k cw_min cw_max : Z) :
  run_simulation_fragments gap wifi_count gnb_count enable_dynamic_cw fragments
    (runner_world tape tm wifi_count gnb_count wifi_config nru_config)
  = Ok tt w ->
  contention_window n w = Some (cw_min, cw_max) ->
  let upper_limit := Z.min (2 ^ k * (cw_min + 1) - 1) cw_max in
  let b := rng w (rng_pos w) `mod` (upper_limit + 1) in
  if upper_limit <? 0 then
    generate_new_back_off_time n k w = Raise ValueError
  else if b <=? Config.cw_max wifi_config then
    exists w',
      generate_new_back_off_time n k w = Ok (b * slot_unit n w) w' /\
      counted_draw b w w'
  else generate_new_back_off_time n k w = Raise KeyError.
Proof.
  intros Hrun Hcw upper_limit b.
  pose proof (run_histogram_rows _ _ _ _ _ _ _ _ _ _ Hrun) as Hrows.
  pose proof (generate_new_back_off_time_cases n k w _ _ Hcw) as Hc.
  cbv zeta in Hc. fold upper_limit in Hc. fold b in Hc. rewrite Hc.
  destruct (upper_limit <? 0) eqn:EU; [reflexivity|].
  assert (0 <= b).
  { pose proof (Z.mod_pos_bound (rng w (rng_pos w)) (upper_limit + 1)).
    unfold b. lia. }
  destruct (Hrows b) as [Hin Hout].
  destruct (b <=? Config.cw_max wifi_config) eqn:Eb.
  - destruct Hin as (row & Hrow & count & Hcount); [lia|].
    rewrite Hrow, Hcount. eexists. split; [reflexivity|].
    exists row, count. by world_simpl.
  - rewrite Hout by lia. reflexivity.
Qed.

(** ** The counters of the channel and of its nodes *)

Lemma nodes_total_insert {A} (f : A -> Z) (m : gmap string A) k x :
  m !! k = None -> nodes_total f (<[k := x]> m) = f x + nodes_total f m.
Proof.
  intros Hk. unfold nodes_total.
  rewrite map_fold_insert_L; [reflexivity | intros; lia | exact Hk].
Qed.

Lemma nodes_total_update {A} (f : A -> Z) (m : gmap string A) k x y :
  m !! k = Some x ->
  nodes_total f (<[k := y]> m) = nodes_total f m - f x + f y.
Proof.
  intros Hk. rewrite <- insert_delete_eq.
  rewrite nodes_total_insert by apply lookup_delete_eq.
  unfold nodes_total at 2.
  rewrite (map_fold_delete_L _ _ k x m); [|intros; lia | exact Hk].
  fold (nodes_total f (delete k m)). lia.
Qed.

Lemma nodes_total_fmap {A} (f : A -> Z) (g : A -> A) (m : gmap string A) :
  (forall x, f (g x) = f x) -> nodes_total f (g <$> m) = nodes_total f m.
Proof.
  intros Hfg. induction m as [|k x m Hk IH] using map_ind.
  - by rewrite fmap_empty.
  - rewrite fmap_insert, !nodes_total_insert, ?Hfg, ?IH; try done.
    by rewrite lookup_fmap, Hk.
Qed.

Lemma nodes_total_zero {A} (f : A -> Z) (m : gmap string A) :
  map_Forall (fun _ x => f x = 0) m -> nodes_total f m = 0.
Proof.
  induction m as [|k x m Hk IH] using map_ind; intros Hall.
  - apply map_fold_empty.
  - apply map_Forall_insert in Hall as [Hx Hm]; [|exact Hk].
    rewrite nodes_total_insert by exact Hk. rewrite Hx, IH; done.
Qed.

Ltac balance_close Hinv :=
  let Hf := fresh "Hf" in
  let Hs := fresh "Hs" in
  let Hfn := fresh "Hfn" in
  let Hsn := fresh "Hsn" in
  first
    [ exact Hinv
    | destruct Hinv as (Hf & Hs & Hfn & Hsn);
      unfold counters_balance; world_simpl; channel_simpl';
      rewrite ?nodes_total_fmap by (intros; reflexivity);
      repeat
        match goal with
        | H : stations ?w !! ?k = Some ?s
          |- context [nodes_total ?f (<[?k := ?s']> (stations ?w))] =>
            rewrite (nodes_total_update f (stations w) k s s' H)
        | H : gnbs ?w !! ?k = Some ?s
          |- context [nodes_total ?f (<[?k := ?s']> (gnbs ?w))] =>
            rewrite (nodes_total_update f (gnbs w) k s s' H)
        end;
      station_simpl; gnb_simpl;
      refine (conj _ (conj _ (conj _ _))); lia ].

Lemma counters_balance_fragment gap f w :
  counters_balance w ->
  wp (run_fragment gap f) (fun _ => counters_balance) w.
Proof.
  intros Hinv.
  destruct f as [a| | | | | | | | | |]; cbn [run_fragment];
    [destruct a; cbn [exec]|..];
    unfold_station_methods; unfold_gnb_methods; unfold_controller_methods;
    wp_run; try balance_close Hinv.
  eapply wp_mono;
    [|apply (wp_Gnb_advance_sync_slot counters_balance)].
  - intros [] w' Hinv'. cbv beta in *. wp_run; balance_close Hinv'.
  - intros w0 self0 t Hinv0 Hs0. balance_close Hinv0.
  - balance_close Hinv.
Qed.

Ltac zero_close H :=
  let Hs := fresh "Hs" in
  let Hg := fresh "Hg" in
  let Hc := fresh "Hc" in
  first
    [ exact H
    | destruct H as (Hs & Hg & Hc);
      unfold counters_zero; world_simpl; channel_simpl';
      refine (conj _ (conj _ _));
      [ first [exact Hs | apply map_Forall_insert_2; [by cbn | exact Hs]]
      | first [exact Hg | apply map_Forall_insert_2; [by cbn | exact Hg]]
      | exact Hc ] ].

Lemma counters_zero_setup number_of_stations number_of_gnb
    enable_dynamic_cw w :
  counters_zero w ->
  wp (run_simulation_setup number_of_stations number_of_gnb enable_dynamic_cw)
     (fun _ => counters_zero) w.
Proof.
  intros Hinv. unfold run_simulation_setup. apply wp_bind.
  eapply wp_mono; [|apply (wp_for_each counters_zero); [|exact Hinv]].
  - intros [] w1 H1. cbv beta in *. apply wp_bind.
    eapply wp_mono; [|apply (wp_for_each counters_zero); [|exact H1]].
    + intros [] w2 H2. cbv beta in *. wp_run; zero_close H2.
    + intros i w0 H0. unfold_gnb_methods. wp_run. zero_close H0.
  - intros i w0 H0. unfold_station_methods. wp_run. zero_close H0.
Qed.

Lemma counters_zero_balance w : counters_zero w -> counters_balance w.
Proof.
  intros (Hs & Hg & H1 & H2 & H3 & H4).
  unfold counters_balance. rewrite H1, H2, H3, H4.
  rewrite !nodes_total_zero; [done|..];
    intros k x Hk; first [apply (Hs k x Hk) | apply (Hg k x Hk)].
Qed.

(** X17. At the end of every run each of the four transmission counters
    of the channel is the sum of that counter over the nodes of its
    technology: [failed_transmissions] and [succeeded_transmissions] over
    the stations, the two NR-U counters over the gNBs. The collision
    probability of a technology is thus the pooled ratio of the failed
    attempts of all its nodes to all their attempts. *)
Theorem run_counters_balance
    (gap : bool) (number_of_stations number_of_gnb : Z)
    (enable_dynamic_cw : bool) (fragments : list fragment)
    (tape : nat -> Z) (tm : Times.t) (cfg : Config.t) (cfg_nr : Config_NR.t)
    (backoffs : gmap Z (gmap Z Z))
    (airtime_data airtime_control airtime_data_NR airtime_control_NR
       : gmap string Z) (w : World) :
  run_simulation_fragments gap number_of_stations number_of_gnb
    enable_dynamic_cw fragments
    (new_world tape tm number_of_stations number_of_gnb cfg cfg_nr backoffs
       airtime_data airtime_control airtime_data_NR airtime_control_NR)
  = Ok tt w ->
  counters_balance w.
Proof.
  intros Hrun.
  eapply (wp_ok _ (fun _ => counters_balance)); [|exact Hrun].
  unfold run_simulation_fragments. apply wp_bind.
  eapply wp_mono; [|apply counters_zero_setup].
  - intros [] w1 H1. cbv beta in *.
    apply (wp_for_each counters_balance);
      [|by apply counters_zero_balance].
    intros f w2 H2. by apply counters_balance_fragment.
  - unfold new_world, counters_zero. world_simpl. channel_simpl'.
    repeat split; try done; apply map_Forall_empty.
Qed.

(** ** The windows during a run *)
Lemma windows_bounded_view cfg cfg_nr w w' :
  windows_bounded cfg cfg_nr w ->
  controller w' = controller w ->
  config w' = config w ->
  config_nr w' = config_nr w ->
  windows_bounded cfg cfg_nr w'.
Proof.
  intros (Hd & H1 & H2) Hc Hcfg Hnr.
  unfold windows_bounded, controller_as_declared, config_window.
  by rewrite Hc, Hcfg, Hnr.
Qed.

Ltac one_controller :=
  repeat
    match goal with
    | H1 : controller ?w = Some ?a, H2 : controller ?w = Some ?b |- _ =>
        assert (b = a) as -> by congruence; clear H2
    end.

Ltac bounded_close Hinv :=
  let Hd := fresh "Hd" in
  let H1 := fresh "H" in
  let H2 := fresh "H" in
  let Hb1 := fresh "Hb" in
  let Hb2 := fresh "Hb" in
  first
    [ exact Hinv
    | eapply windows_bounded_view; [exact Hinv | world_simpl; reflexivity ..]
    | one_controller;
      destruct Hinv as (Hd & H1 & H2);
      pose proof H1 as [Hb1 _]; pose proof H2 as [Hb2 _];
      match goal with
      | H : controller _ = Some ?c |- _ =>
          let Hi := fresh "Hi" in
          let Hst := fresh "Hst" in
          let Htf := fresh "Htf" in
          let Hmin := fresh "Hmin" in
          let Hmax := fresh "Hmax" in
          pose proof (Hd c H) as (Hi & Hst & Htf & Hmin & Hmax);
          unfold windows_bounded, window_in_force, config_window in *;
          world_simpl; config_simpl; cbn [fst snd] in *;
          rewrite ?Hst, ?Hmin, ?Hmax in *;
          refine (conj _ (conj _ _));
          [ first
              [ exact Hd
              | let c' := fresh "c" in
                let Hc' := fresh "Hc" in
                intros c' Hc'; injection Hc' as <-; exact (Hd c H) ]
          | first [exact H1 | split; [lia | right; lia]]
          | first [exact H2 | split; [lia | right; lia]] ]
      end ].

Lemma windows_bounded_fragment cfg cfg_nr gap f w :
  windows_bounded cfg cfg_nr w ->
  wp (run_fragment gap f) (fun _ => windows_bounded cfg cfg_nr) w.
Proof.
  intros Hinv.
  destruct f as [a| | | | | | | | | |]; cbn [run_fragment];
    [destruct a; cbn [exec]|..];
    unfold_station_methods; unfold_gnb_methods; unfold_controller_methods;
    wp_run; try bounded_close Hinv.
  eapply wp_mono;
    [|apply (wp_Gnb_advance_sync_slot (windows_bounded cfg cfg_nr))].
  - intros [] w' Hinv'. cbv beta in *. wp_run; bounded_close Hinv'.
  - intros w0 self0 t Hinv0 Hs0. bounded_close Hinv0.
  - bounded_close Hinv.
Qed.

Lemma windows_bounded_setup cfg cfg_nr number_of_stations number_of_gnb
    enable_dynamic_cw w :
  windows_bounded cfg cfg_nr w ->
  wp (run_simulation_setup number_of_stations number_of_gnb enable_dynamic_cw)
     (fun _ => windows_bounded cfg cfg_nr) w.
Proof.
  intros Hinv. unfold run_simulation_setup. apply wp_bind.
  eapply wp_mono;
    [|apply (wp_for_each (windows_bounded cfg cfg_nr)); [|exact Hinv]].
  - intros [] w1 H1. cbv beta in *. apply wp_bind.
    eapply wp_mono;
      [|apply (wp_for_each (windows_bounded cfg cfg_nr)); [|exact H1]].
    + intros [] w2 (Hd & Hw & Hn). cbv beta in *. wp_run.
      * refine (conj _ (conj Hw Hn)).
        intros c Hc. world_simpl. injection Hc as <-. by repeat split.
      * by refine (conj Hd (conj Hw Hn)).
    + intros i w0 H0. unfold_gnb_methods. wp_run. bounded_close H0.
  - intros i w0 H0. unfold_station_methods. wp_run. bounded_close H0.
Qed.

(** X18. A run whose two configs start with [cw_min] between 7 and 511,
    the range of the controller as it is declared: at the end [cw_min] of
    either config, and so of every node, is still between 7 and 511, and
    either window is the one the run started with or has
    [cw_max = min (4 * cw_min) 511], however often the controller has
    moved it. *)
Theorem run_windows_bounded
    (gap : bool) (number_of_stations number_of_gnb : Z)
    (enable_dynamic_cw : bool) (fragments : list fragment)
    (tape : nat -> Z) (tm : Times.t) (cfg : Config.t) (cfg_nr : Config_NR.t)
    (backoffs : gmap Z (gmap Z Z))
    (airtime_data airtime_control airtime_data_NR airtime_control_NR
       : gmap string Z) (w : World) :
  run_simulation_fragments gap number_of_stations number_of_gnb
    enable_dynamic_cw fragments
    (new_world tape tm number_of_stations number_of_gnb cfg cfg_nr backoffs
       airtime_data airtime_control airtime_data_NR airtime_control_NR)
  = Ok tt w ->
  7 <= Config.cw_min cfg <= 511 ->
  7 <= Config_NR.cw_min cfg_nr <= 511 ->
  window_in_force (Config.cw_min cfg, Config.cw_max cfg)
                  (config_window WiFi w) /\
  window_in_force (Config_NR.cw_min cfg_nr, Config_NR.cw_max cfg_nr)
                  (config_window NRU w) /\
  (forall name s, stations w !! name = Some s ->
     7 <= Station.cw_min s <= 511) /\
  (forall name s, gnbs w !! name = Some s -> 7 <= Gnb.cw_min s <= 511).
Proof.
  intros Hrun Hwifi Hnru.
  destruct (run_invariants _ _ _ _ _ _ _ _ _ _ _ _ _ _ _ Hrun)
    as (Hst & Hgn & _).
  assert (windows_bounded cfg cfg_nr w) as (_ & Hw & Hn).
  { eapply (wp_ok _ (fun _ => windows_bounded cfg cfg_nr)); [|exact Hrun].
    unfold run_simulation_fragments. apply wp_bind.
    eapply wp_mono; [|apply windows_bounded_setup].
    - intros [] w1 H1. cbv beta in *.
      apply (wp_for_each (windows_bounded cfg cfg_nr)); [|exact H1].
      intros f w2 H2. by apply windows_bounded_fragment.
    - unfold new_world, windows_bounded, window_in_force, config_window.
      world_simpl. cbn [fst snd].
      split; [intros c Hc; discriminate|]. by auto. }
  split; [exact Hw|]. split; [exact Hn|].
  destruct Hw as [Hw _]. destruct Hn as [Hn _].
  cbn [config_window fst] in Hw, Hn.
  split; intros name s Hs.
  - destruct (Hst name s Hs) as (_ & -> & _). exact Hw.
  - destruct (Hgn name s Hs) as (_ & -> & _). exact Hn.
Qed.

(** ** The further theorems at the sample runs *)

Lemma Station_backoff_resumes_at_slot_witness :
  exists w' self',
    (wait ← Station_wait_back_off_countdown "Station 1";
     exec true (Advance 50);;
     Station_wait_back_off_interrupted "Station 1" wait)
      (sample_run false station_waiting)
    = Ok (StationWait.mk false 0) w' /\
    stations w' !! "Station 1" = Some self' /\
    Station.back_off_time self' = 18.
Proof.
  destruct (Station_backoff_resumes_at_slot "Station 1"
              (sample_run false station_waiting)
              (Station.mk "Station 1"
                 (Some (Frame.mk 5400 "Station 1" 1472 0 0 None None 1472))
                 0 0 0 15 63 27 0 0 [] false) 3 50)
    as (w' & self' & Hr & Hs & Hb & _).
  - vm_compute. reflexivity.
  - vm_compute. reflexivity.
  - vm_compute. reflexivity.
  - lia.
  - vm_compute. reflexivity.
  - exists w', self'. split; [exact Hr|]. split; [exact Hs|].
    rewrite Hb. vm_compute. reflexivity.
Defined.

Lemma Gnb_backoff_resumes_at_slot_witness :
  exists w' self',
    (wait ← Gnb_wait_back_off_gap_countdown "Gnb 1" (GnbWait.mk false 0 false);
     exec true (Advance 70);;
     Gnb_wait_back_off_gap_interrupted "Gnb 1" 43 wait)
      (sample_run false gnb_ready)
    = Ok (GnbWait.mk false 0 false) w' /\
    gnbs w' !! "Gnb 1" = Some self' /\
    Gnb.back_off_time self' = 106.
Proof.
  destruct (Gnb_backoff_resumes_at_slot "Gnb 1" (sample_run false gnb_ready)
              (Gnb.mk "Gnb 1" None 0 0 0 15 63 3 133 0 false)
              (GnbWait.mk false 0 false) 10 70)
    as (w' & self' & Hr & Hs & Hb & _).
  - vm_compute. reflexivity.
  - vm_compute. reflexivity.
  - vm_compute. reflexivity.
  - vm_compute. reflexivity.
  - lia.
  - vm_compute. reflexivity.
  - exists w', self'. split; [exact Hr|]. split; [exact Hs|].
    rewrite Hb. vm_compute. reflexivity.
Defined.

Lemma gap_ends_on_sync_slot_boundary_witness :
  exists fuel0,
    forall fuel, (fuel0 <= fuel)%nat ->
      exists gap_time w' j,
        Gnb_wait_back_off_gap_align fuel "Gnb 1" (sample_run false gnb_ready)
        = Ok gap_time w' /\
        0 + gap_time + 133 = 3 + j * 1000 /\
        0 < gap_time <= 1000.
Proof.
  destruct (gap_ends_on_sync_slot_boundary "Gnb 1"
              (sample_run false gnb_ready)
              (Gnb.mk "Gnb 1" None 0 0 0 15 63 3 133 0 false))
    as (fuel0 & Hfuel).
  - vm_compute. reflexivity.
  - vm_compute. reflexivity.
  - exists fuel0. intros fuel Hle.
    destruct (Hfuel fuel Hle)
      as (gap_time & w' & j & Hr & _ & _ & Hend & Hpos & Hshort).
    exists gap_time, w', j. split; [exact Hr|]. split; [exact Hend|].
    split; [exact Hpos|]. apply Hshort. vm_compute. discriminate.
Defined.

Lemma calculate_jains_fairness_bounds_witness :
  (1 # 2 <= DynamicCWController_calculate_jains_fairness 100 10)%Q /\
  (DynamicCWController_calculate_jains_fairness 100 10 <= 1)%Q /\
  ((DynamicCWController_calculate_jains_fairness 100 10 == 1)%Q <-> 100 = 10).
Proof. apply (calculate_jains_fairness_bounds 100 10); lia. Defined.

Lemma low_fairness_has_dominant_technology_witness :
  exceeds_by_tenth 100 10 = true \/ exceeds_by_tenth 10 100 = true.
Proof.
  apply (low_fairness_has_dominant_technology 100 10 (95 # 100)).
  - lia.
  - lia.
  - vm_compute. discriminate.
  - vm_compute. reflexivity.
Defined.

Lemma adjust_increases_nru_cw_witness :
  exists w',
    DynamicCWController_adjust_contention_windows 10 100
      (DynamicCWController_calculate_jains_fairness 10 100)
      (sample_run true []) = Ok tt w' /\
    config_window NRU w' = (20, 80) /\
    config_window WiFi w' = (10, 40).
Proof.
  destruct (adjust_increases_nru_cw (sample_run true [])
              (DynamicCWController.mk 1000000 5 (95 # 100) 7 511 0 0 0 [])
              10 100 (DynamicCWController_calculate_jains_fairness 10 100))
    as (w' & Hr & Hnru & Hwifi & _).
  - vm_compute. reflexivity.
  - lia.
  - vm_compute. reflexivity.
  - exists w'. split; [exact Hr|]. rewrite Hnru, Hwifi. vm_compute. auto.
Defined.

Lemma adjust_logs_the_windows_in_force_witness :
  exists w' c',
    DynamicCWController_adjust_contention_windows 100 10
      (DynamicCWController_calculate_jains_fairness 100 10)
      (sample_run true []) = Ok tt w' /\
    controller w' = Some c' /\
    length (DynamicCWController.adjustment_history c') = 1%nat.
Proof.
  destruct (adjust_logs_the_windows_in_force (sample_run true [])
              (DynamicCWController.mk 1000000 5 (95 # 100) 7 511 0 0 0 [])
              100 10 (DynamicCWController_calculate_jains_fairness 100 10))
    as (w' & Hr & Hc & _).
  - vm_compute. reflexivity.
  - do 2 eexists. split; [exact Hr|]. split; [exact Hc|]. reflexivity.
Defined.

Lemma monitor_round_outcome_witness :
  exists w' c',
    DynamicCWController_monitor_and_adjust_round (sample_run true one_success)
    = Ok tt w' /\
    controller w' = Some c' /\
    DynamicCWController.last_wifi_airtime c' = 5400 /\
    DynamicCWController.last_nru_airtime c' = 0.
Proof.
  destruct (monitor_round_outcome (sample_run true one_success)
              (DynamicCWController.mk 1000000 5 (95 # 100) 7 511 0 0 0 []))
    as (w' & c' & Hr & Hc & Hw & Hn & _).
  - vm_compute. reflexivity.
  - exists w', c'. split; [exact Hr|]. split; [exact Hc|].
    rewrite Hw, Hn. vm_compute. auto.
Defined.

Lemma run_nodes_carry_config_windows_witness :
  (20, 80) = config_window WiFi (sample_fragments true success_and_round).
Proof.
  assert (run_simulation_fragments true 1 1 true success_and_round
            (new_world sample_tape sample_times 1 1 Config.default
               Config_NR.default (runner_backoffs 1 Config.default)
               (runner_airtime (station_name <$> range1 1))
               (runner_airtime (station_name <$> range1 1))
               (runner_airtime (gnb_name <$> range1 1))
               (runner_airtime (gnb_name <$> range1 1)))
          = Ok tt (sample_fragments true success_and_round)) as Hrun.
  { vm_compute. reflexivity. }
  apply (run_nodes_carry_config_windows _ _ _ _ _ _ _ _ _ _ _ _ _ _ _ Hrun
           WiFi "Station 1").
  vm_compute. reflexivity.
Defined.

Lemma run_station_retransmissions_bounded_witness :
  0 <= 2 <= Config.r_limit Config.default.
Proof.
  assert (run_simulation_fragments true 1 1 false nru_success_and_collisions
            (new_world sample_tape sample_times 1 1 Config.default
               Config_NR.default (runner_backoffs 1 Config.default)
               (runner_airtime (station_name <$> range1 1))
               (runner_airtime (station_name <$> range1 1))
               (runner_airtime (gnb_name <$> range1 1))
               (runner_airtime (gnb_name <$> range1 1)))
          = Ok tt (sample_fragments false nru_success_and_collisions)) as Hrun.
  { vm_compute. reflexivity. }
  assert (0 <= Config.r_limit Config.default) as Hlimit.
  { vm_compute. discriminate. }
  apply (run_station_retransmissions_bounded _ _ _ _ _ _ _ _ _ _ _ _ _ _ _
           Hlimit Hrun "Station 1"
           (Station.mk "Station 1"
              (Some (Frame.mk 5400 "Station 1" 1472 0 2 None None 1472))
              0 2 2 15 63 0 0 0 [] true)
           (Frame.mk 5400 "Station 1" 1472 0 2 None None 1472)).
  - vm_compute. reflexivity.
  - reflexivity.
Defined.

Lemma run_wifi_airtime_counts_successes_witness :
  Channel.airtime_data (channel (sample_fragments true success_and_round))
    !! "Station 1"
  = Some (5400 * 1).
Proof.
  assert (run_simulation_fragments true 1 1 true success_and_round
            (new_world sample_tape sample_times 1 1 Config.default
               Config_NR.default (runner_backoffs 1 Config.default)
               (runner_airtime (station_name <$> range1 1))
               (runner_airtime (station_name <$> range1 1))
               (runner_airtime (gnb_name <$> range1 1))
               (runner_airtime (gnb_name <$> range1 1)))
          = Ok tt (sample_fragments true success_and_round)) as Hrun.
  { vm_compute. reflexivity. }
  destruct (run_wifi_airtime_counts_successes _ _ _ _ _ _ _ _ _ _ _ _ _ _ _
           Hrun "Station 1"
           (Station.mk "Station 1"
              (Some (Frame.mk 5400 "Station 1" 1472 0 0 (Some 0) (Some 0) 1472))
              1 0 0 20 80 0 0 0 [] true)) as [_ Hair].
  - vm_compute. reflexivity.
  - exact Hair.
Defined.

Lemma run_wifi_latency_zero_witness :
  avg_wifi_latency (sample_fragments true success_and_round) = Some 0%Q.
Proof.
  apply (run_wifi_latency_zero true 1 1 true success_and_round
           sample_tape sample_times Config.default Config_NR.default
           (runner_backoffs 1 Config.default)
           (runner_airtime (station_name <$> range1 1))
           (runner_airtime (station_name <$> range1 1))
           (runner_airtime (gnb_name <$> range1 1))
           (runner_airtime (gnb_name <$> range1 1))
           (sample_fragments true success_and_round)).
  vm_compute. reflexivity.
Defined.

Lemma run_nru_airtime_in_mcot_units_witness :
  exists data control,
    Channel.airtime_data_NR
      (channel (sample_fragments false nru_success_and_collisions)) !! "Gnb 1"
    = Some data /\
    Channel.airtime_control_NR
      (channel (sample_fragments false nru_success_and_collisions)) !! "Gnb 1"
    = Some control /\
    (Config_NR.mcot Config_NR.default * 1000 | data + control) /\
    control = 0.
Proof.
  assert (run_simulation_fragments true 1 1 false nru_success_and_collisions
            (new_world sample_tape sample_times 1 1 Config.default
               Config_NR.default (runner_backoffs 1 Config.default)
               (runner_airtime (station_name <$> range1 1))
               (runner_airtime (station_name <$> range1 1))
               (runner_airtime (gnb_name <$> range1 1))
               (runner_airtime (gnb_name <$> range1 1)))
          = Ok tt (sample_fragments false nru_success_and_collisions)) as Hrun.
  { vm_compute. reflexivity. }
  destruct (run_nru_airtime_in_mcot_units _ _ _ _ _ _ _ _ _ _ _ _ _ _ _
           Hrun "Gnb 1"
           (Gnb.mk "Gnb 1"
              (Some (Transmission_NR.mk 6000 "Gnb 1" 0 6000 0 1 None None
                       false 1472))
              1 2 2 15 63 0 0 0 true))
    as (data & control & Hd & Hc & Hdiv & Hgap).
  - vm_compute. reflexivity.
  - exists data, control. repeat (split; [assumption|]).
    by destruct (Hgap eq_refl).
Defined.

Lemma run_collision_probabilities_in_unit_interval_witness :
  let w := sample_fragments false nru_success_and_collisions in
  counters_nonneg w /\
  exists p_coll p_coll_NR,
    collision_probabilities 1 1 w = Ok (p_coll, p_coll_NR) w /\
    (0 <= p_coll)%Q /\ (p_coll <= 1)%Q /\
    (0 <= p_coll_NR)%Q /\ (p_coll_NR <= 1)%Q.
Proof.
  assert (run_simulation_fragments true 1 1 false nru_success_and_collisions
            (new_world sample_tape sample_times 1 1 Config.default
               Config_NR.default (runner_backoffs 1 Config.default)
               (runner_airtime (station_name <$> range1 1))
               (runner_airtime (station_name <$> range1 1))
               (runner_airtime (gnb_name <$> range1 1))
               (runner_airtime (gnb_name <$> range1 1)))
          = Ok tt (sample_fragments false nru_success_and_collisions)) as Hrun.
  { vm_compute. reflexivity. }
  exact (run_collision_probabilities_in_unit_interval
           _ _ _ _ _ _ _ _ _ _ _ _ _ _ _ Hrun).
Defined.

Lemma run_channel_times_return_witness :
  let w := sample_fragments false nru_success_and_collisions in
  all_registered 1 1 w /\
  exists sums, channel_times 1 1 w = Ok sums w.
Proof.
  assert (run_simulation_fragments true 1 1 false nru_success_and_collisions
            sample_start
          = Ok tt (sample_fragments false nru_success_and_collisions)) as Hrun.
  { vm_compute. reflexivity. }
  exact (run_channel_times_return _ _ _ _ _ _ _ Hrun).
Defined.

Lemma runner_draw_outcome_witness :
  let w :=
    after (run_simulation_fragments true 1 1 true success_and_round)
      (runner_world (fun _ => 70) sample_times 1 1 Config.default
         Config_NR.default) in
  contention_window (WifiStation "Station 1") w = Some (20, 80) /\
  Config.cw_max Config.default = 63 /\
  generate_new_back_off_time (WifiStation "Station 1") 2 w = Raise KeyError.
Proof.
  intros w.
  assert (run_simulation_fragments true 1 1 true success_and_round
            (runner_world (fun _ => 70) sample_times 1 1 Config.default
               Config_NR.default)
          = Ok tt w) as Hrun.
  { vm_compute. reflexivity. }
  assert (contention_window (WifiStation "Station 1") w = Some (20, 80))
    as Hcw.
  { vm_compute. reflexivity. }
  split; [exact Hcw|]. split; [reflexivity|].
  pose proof (runner_draw_outcome _ _ _ _ _ _ _ _ _ _
                (WifiStation "Station 1") 2 20 80 Hrun Hcw) as Hdraw.
  cbv zeta in Hdraw.
  assert (((2 ^ 2 * (20 + 1) - 1) `min` 80 <? 0) = false) as Eupper
    by reflexivity.
  assert ((rng w (rng_pos w) `mod` ((2 ^ 2 * (20 + 1) - 1) `min` 80 + 1)
           <=? Config.cw_max Config.default) = false) as Erow.
  { vm_compute. reflexivity. }
  rewrite Eupper, Erow in Hdraw. exact Hdraw.
Defined.

Lemma run_counters_balance_witness :
  counters_balance (sample_fragments false nru_success_and_collisions).
Proof.
  assert (run_simulation_fragments true 1 1 false nru_success_and_collisions
            (new_world sample_tape sample_times 1 1 Config.default
               Config_NR.default (runner_backoffs 1 Config.default)
               (runner_airtime (station_name <$> range1 1))
               (runner_airtime (station_name <$> range1 1))
               (runner_airtime (gnb_name <$> range1 1))
               (runner_airtime (gnb_name <$> range1 1)))
          = Ok tt (sample_fragments false nru_success_and_collisions)) as Hrun.
  { vm_compute. reflexivity. }
  exact (run_counters_balance _ _ _ _ _ _ _ _ _ _ _ _ _ _ _ Hrun).
Defined.

Lemma run_windows_bounded_witness :
  let w := sample_fragments true success_and_round in
  config_window WiFi w = (20, 80) /\
  window_in_force (15, 63) (config_window WiFi w) /\
  window_in_force (15, 63) (config_window NRU w).
Proof.
  intros w.
  assert (run_simulation_fragments true 1 1 true success_and_round
            (new_world sample_tape sample_times 1 1 Config.default
               Config_NR.default (runner_backoffs 1 Config.default)
               (runner_airtime (station_name <$> range1 1))
               (runner_airtime (station_name <$> range1 1))
               (runner_airtime (gnb_name <$> range1 1))
               (runner_airtime (gnb_name <$> range1 1)))
          = Ok tt w) as Hrun.
  { vm_compute. reflexivity. }
  split; [vm_compute; reflexivity|].
  destruct (run_windows_bounded _ _ _ _ _ _ _ _ _ _ _ _ _ _ _ Hrun)
    as (Hw & Hn & _).
  - vm_compute. split; discriminate.
  - vm_compute. split; discriminate.
  - split; [exact Hw | exact Hn].
Defined.
